(** * trading_gpt: ETL refresh job and read API

    A shallow embedding of [etl/refresh.py] and [api/main.py].

    Conventions of the model.
    - Python [str] is [string]; the text handled by the program (column
      labels, tickers, period strings, API keys) is taken to be ASCII, so
      [lower], [upper] and [strip] leave characters above 127 alone.
    - Python [float] and DuckDB [DOUBLE] are exact rationals [Q]: NaN,
      infinities and rounding are outside the model.
    - A pandas [DataFrame] is a row count and a list of named columns.
    - The DuckDB file is the content of its one table [ohlcv], [None] while
      the table has not been created.
    - A raised exception is the [Raise] case of [result]. *)

From Stdlib Require Import List String Ascii Bool ZArith QArith Qround Lia.
From Stdlib Require Import Permutation Sorted Mergesort Orders.
From Stdlib Require DecimalString DecimalZ DecimalPos.
Import ListNotations.

Open Scope string_scope.
Open Scope Z_scope.

(** ** Exceptions and results *)

Inductive exn : Type :=
| KeyError (msg : string)
| ValueError (msg : string)
| TypeError (msg : string)
| ZeroDivisionError
| DbError (msg : string)      (* any duckdb.Error *)
| FetchError (msg : string)   (* whatever yf.download raises *)
| HTTPException (status : Z) (detail : string).

Inductive result (A : Type) : Type :=
| Ok (a : A)
| Raise (e : exn).
Arguments Ok {A} a.
Arguments Raise {A} e.

Definition bind {A B : Type} (m : result A) (k : A -> result B) : result B :=
  match m with
  | Ok a => k a
  | Raise e => Raise e
  end.

Notation "x <- m ;; k" := (bind m (fun x => k))
  (at level 61, m at next level, right associativity).

Definition is_ok {A : Type} (m : result A) : bool :=
  match m with Ok _ => true | Raise _ => false end.

(** ** Timestamps *)

(** A naive timestamp: calendar fields and the time of day in nanoseconds. *)
Record Timestamp : Type := mkTs {
  ts_year : Z;
  ts_month : Z;
  ts_day : Z;
  ts_tod : Z
}.

Definition ts_eqb (a b : Timestamp) : bool :=
  (ts_year a =? ts_year b) && (ts_month a =? ts_month b)
  && (ts_day a =? ts_day b) && (ts_tod a =? ts_tod b).

(** Chronological order, which on calendar fields is the lexicographic one. *)
Definition ts_leb (a b : Timestamp) : bool :=
  if ts_year a =? ts_year b then
    if ts_month a =? ts_month b then
      if ts_day a =? ts_day b then ts_tod a <=? ts_tod b
      else ts_day a <? ts_day b
    else ts_month a <? ts_month b
  else ts_year a <? ts_year b.

(** ** Values, frames and the table *)

Inductive value : Type :=
| VTs (t : Timestamp)
| VNum (q : Q)
| VInt (z : Z)
| VStr (s : string).

Record DataFrame : Type := mkDf {
  nrows : nat;
  columns : list (string * list value)
}.

(** [df.empty]: some axis has length zero. *)
Definition df_empty (df : DataFrame) : bool :=
  (nrows df =? 0)%nat || (List.length (columns df) =? 0)%nat.

(** One row of the table [ohlcv], in the order of its CREATE TABLE. *)
Record Row : Type := mkRow {
  dt : Timestamp;
  open : Q;
  high : Q;
  low : Q;
  close : Q;
  volume : Z;
  symbol : string;
  ema8 : Q;
  ema21 : Q;
  ema50 : Q
}.

Definition Db : Type := option (list Row).

(** The statement of a connection at which DuckDB raises, if any:
    0 is [duckdb.connect], then the [execute] calls in order. *)
Definition fault : Type := option nat.

Definition step (flt : fault) (n : nat) : result unit :=
  match flt with
  | Some k => if (k =? n)%nat then Raise (DbError "duckdb") else Ok tt
  | None => Ok tt
  end.

(** ** Python built-ins used by the two files *)

Module Py.

Definition code (c : ascii) : Z := Z.of_nat (nat_of_ascii c).

Definition in_range (lo hi : Z) (c : ascii) : bool :=
  (lo <=? code c) && (code c <=? hi).

(** [str.isspace] on ASCII: TAB..CR, FS..US and the space. *)
Definition is_space (c : ascii) : bool :=
  in_range 9 13 c || in_range 28 32 c.

Definition is_digit (c : ascii) : bool := in_range 48 57 c.

Definition shift (d : Z) (c : ascii) : ascii :=
  ascii_of_nat (Z.to_nat (code c + d)).

Definition lower_char (c : ascii) : ascii :=
  if in_range 65 90 c then shift 32 c else c.

Definition upper_char (c : ascii) : ascii :=
  if in_range 97 122 c then shift (-32) c else c.

Fixpoint str_map (f : ascii -> ascii) (s : string) : string :=
  match s with
  | EmptyString => EmptyString
  | String c r => String (f c) (str_map f r)
  end.

(** [str.lower] and [str.upper] on ASCII text: the letters A-Z and a-z
    change case, every other character stays. (Python also maps letters
    beyond ASCII, where upper-casing can change the length of the text;
    statements about case are made for ASCII text.) *)
Definition lower : string -> string := str_map lower_char.
Definition upper : string -> string := str_map upper_char.

Fixpoint str_rev_onto (acc s : string) : string :=
  match s with
  | EmptyString => acc
  | String c r => str_rev_onto (String c acc) r
  end.

Definition str_rev : string -> string := str_rev_onto EmptyString.

Fixpoint lstrip (s : string) : string :=
  match s with
  | EmptyString => EmptyString
  | String c r => if is_space c then lstrip r else s
  end.

Definition rstrip (s : string) : string := str_rev (lstrip (str_rev s)).

Definition strip (s : string) : string := rstrip (lstrip s).

(** [s.endswith(suf)] *)
Definition endswith (s suf : string) : bool :=
  prefix (str_rev suf) (str_rev s).

(** [s[:-k]] for [k > 0] *)
Definition drop_last (k : nat) (s : string) : string :=
  substring 0 (String.length s - k) s.

Fixpoint contains (c : ascii) (s : string) : bool :=
  match s with
  | EmptyString => false
  | String d r => Ascii.eqb c d || contains c r
  end.

(** [repr] of a [str]: the quote is the apostrophe unless the text has one
    and no double quote; control characters are escaped. *)
Definition hex_digit (n : Z) : ascii :=
  if n <? 10 then ascii_of_nat (Z.to_nat (48 + n))
  else ascii_of_nat (Z.to_nat (87 + n)).

Definition apostrophe : ascii := ascii_of_nat 39.
Definition dquote : ascii := ascii_of_nat 34.
Definition backslash : ascii := ascii_of_nat 92.

Definition repr_char (quote c : ascii) : string :=
  if Ascii.eqb c quote || Ascii.eqb c backslash then String backslash (String c EmptyString)
  else if code c =? 9 then String backslash "t"
  else if code c =? 10 then String backslash "n"
  else if code c =? 13 then String backslash "r"
  else if (code c <? 32) || (code c =? 127) then
    String backslash (String "x" (String (hex_digit (code c / 16))
                                   (String (hex_digit (code c mod 16)) EmptyString)))
  else String c EmptyString.

Fixpoint repr_body (quote : ascii) (s : string) : string :=
  match s with
  | EmptyString => EmptyString
  | String c r => repr_char quote c ++ repr_body quote r
  end.

Definition repr_str (s : string) : string :=
  let quote := if contains apostrophe s && negb (contains dquote s)
               then dquote else apostrophe in
  String quote (repr_body quote s ++ String quote EmptyString).

(** [repr] of a list of [str] *)
Definition repr_list (l : list string) : string :=
  "[" ++ String.concat ", " (map repr_str l) ++ "]".

(** [str] of an [int] *)
Definition str_of_int (z : Z) : string :=
  DecimalString.NilZero.string_of_int (Z.to_int z).

(** [int(s)] in base 10: surrounding white space, one optional sign, then
    digits, where single underscores may separate digits. *)
Definition digit_val (c : ascii) : Z := code c - 48.

Fixpoint int_digits (acc : Z) (after_digit : bool) (s : string) : option Z :=
  match s with
  | EmptyString => if after_digit then Some acc else None
  | String c r =>
      if is_digit c then int_digits (10 * acc + digit_val c) true r
      else if Ascii.eqb c "_" && after_digit then int_digits acc false r
      else None
  end.

Fixpoint count_digits (s : string) : nat :=
  match s with
  | EmptyString => O
  | String c r => if is_digit c then S (count_digits r) else count_digits r
  end.

(** [sys.get_int_max_str_digits()], the default of CPython 3.11 and later *)
Definition int_max_str_digits : nat := 4300.

(** The white space that [int] skips at both ends ([Py_ISSPACE]): TAB..CR
    and the space, not FS..US. *)
Definition is_int_space (c : ascii) : bool :=
  in_range 9 13 c || in_range 32 32 c.

Fixpoint skip_space (s : string) : string :=
  match s with
  | EmptyString => EmptyString
  | String c r => if is_int_space c then skip_space r else s
  end.

Definition int_strip (s : string) : string :=
  str_rev (skip_space (str_rev (skip_space s))).

Definition int (s : string) : result Z :=
  let t := int_strip s in
  let bad := Raise (ValueError ("invalid literal for int() with base 10: " ++ repr_str s)) in
  let '(neg, body) :=
    match t with
    | String "-" r => (true, r)
    | String "+" r => (false, r)
    | _ => (false, t)
    end in
  match int_digits 0 false body with
  | None => bad
  | Some n =>
      if (int_max_str_digits <? count_digits body)%nat
      then Raise (ValueError "Exceeds the limit (4300 digits) for integer string conversion")
      else Ok (if neg then - n else n)
  end.

(** [all(p(c) for c in s)] *)
Fixpoint all_chars (p : ascii -> bool) (s : string) : bool :=
  match s with
  | EmptyString => true
  | String c r => p c && all_chars p r
  end.

Definition not_space (c : ascii) : bool := negb (is_space c).
Definition lower_fixed (c : ascii) : bool := Ascii.eqb (lower_char c) c.

(** [sub in s] *)
Definition occurs (sub s : string) : Prop :=
  exists before after, s = before ++ sub ++ after.

End Py.

(** ** etl/refresh.py *)

Module Refresh.

Definition EMA_WINDOWS : list Z := [8; 21; 50].

(** *** What [yf.download] hands back *)

(** The column axis: a flat [Index] of labels or a [MultiIndex] of tuples
    (a tuple is its first level and its other levels). *)
Inductive col_index : Type :=
| Index (labels : list string)
| MultiIndex (labels : list (string * list string)).

Record RawFrame : Type := mkRaw {
  index_name : option string;
  index : list value;
  col_labels : col_index;
  col_data : list (list value)
}.

Definition mem (s : string) (l : list string) : bool :=
  existsb (String.eqb s) l.

Definition first_levels (ci : col_index) : list string :=
  match ci with
  | Index l => l
  | MultiIndex l => map fst l
  end.

(** [df.reset_index()]: the index becomes the first column, under its name,
    or under "index" ("level_0" when "index" is taken) if it has none; a
    label that is already a column is refused. On a MultiIndex the new
    label is the name padded with empty levels. *)
Definition reset_index (raw : RawFrame) : result (col_index * list (list value)) :=
  let name :=
    match index_name raw with
    | Some n => n
    | None => if mem "index" (first_levels (col_labels raw)) then "level_0" else "index"
    end in
  let refuse := Raise (ValueError ("cannot insert " ++ name ++ ", already exists")) in
  match col_labels raw with
  | Index l =>
      if mem name l then refuse
      else Ok (Index (name :: l), index raw :: col_data raw)
  | MultiIndex l =>
      let pad := match l with
                 | [] => []
                 | (_, rest) :: _ => map (fun _ => "") rest
                 end in
      if existsb (fun t => String.eqb (fst t) name
                           && forallb (String.eqb "") (snd t)) l
      then refuse
      else Ok (MultiIndex ((name, pad) :: l), index raw :: col_data raw)
  end.

(** Lines 28-30: a MultiIndex is flattened to its first level, then every
    label is stripped and lower-cased. *)
Definition flatten_labels (ci : col_index) : list string :=
  map (fun c => Py.lower (Py.strip c)) (first_levels ci).

(** Lines 31-34: [df.rename(columns={old: "dt"})] *)
Definition rename_to_dt (cols : list string) : list string :=
  let rename old := map (fun c => if String.eqb c old then "dt" else c) cols in
  if mem "date" cols then rename "date"
  else if mem "datetime" cols then rename "datetime"
  else cols.

Definition required : list string :=
  ["dt"; "open"; "high"; "low"; "close"; "volume"].

Definition missing_of (cols : list string) : list string :=
  filter (fun c => negb (mem c cols)) required.

Definition missing_message (missing cols : list string) : string :=
  "Missing expected columns: " ++ Py.repr_list missing
  ++ ". Got columns: " ++ Py.repr_list cols.

Definition labels (df : DataFrame) : list string := map fst (columns df).

(** [df[names]]: for each name in turn, every column that carries it. *)
Definition select (names : list string) (cols : list (string * list value))
  : list (string * list value) :=
  flat_map (fun n => filter (fun c => String.eqb (fst c) n) cols) names.

(** [df[name] = column]: an existing label keeps its place, a new one is
    put last. *)
Definition setitem (name : string) (col : list value) (df : DataFrame) : DataFrame :=
  if mem name (labels df)
  then mkDf (nrows df)
            (map (fun c => if String.eqb (fst c) name then (name, col) else c) (columns df))
  else mkDf (nrows df) (columns df ++ [(name, col)]).

Definition empty_fetch : DataFrame :=
  mkDf 0 (map (fun n => (n, [])) (required ++ ["symbol"])).

(** The labels against which line 36 checks the required ones. *)
Definition normalized_labels (raw : RawFrame) : result (list string) :=
  r <- reset_index raw ;;
  Ok (rename_to_dt (flatten_labels (fst r))).

(** [fetch], given what [yf.download] answered. Lines 23-26 drop the time
    zone of the index, which the timestamps of the model do not carry. *)
Definition fetch (download : result (option RawFrame)) (symbol : string)
  : result DataFrame :=
  got <- download ;;
  match got with
  | None => Ok empty_fetch
  | Some raw =>
      if (List.length (index raw) =? 0)%nat then Ok empty_fetch
      else
        r <- reset_index raw ;;
        let cols := rename_to_dt (flatten_labels (fst r)) in
        let missing := missing_of cols in
        if negb (List.length missing =? 0)%nat
        then Raise (KeyError (missing_message missing cols))
        else
          let df := mkDf (List.length (index raw)) (select required (combine cols (snd r))) in
          Ok (setitem "symbol" (repeat (VStr (Py.upper symbol)) (nrows df)) df)
  end.

(** *** Indicators *)

(** pandas' [ewm(span=w, adjust=False).mean()] on a series without gaps:
    [com = (span - 1) / 2], [alpha = 1 / (1 + com)], and from the second
    value on the running mean is re-weighted and normalised, unless the new
    value equals it. *)
Definition alpha_of_span (span : Z) : Q :=
  (1 / (1 + (inject_Z span - 1) / 2))%Q.

Definition ewm_next (alpha weighted cur : Q) : Q :=
  let old_wt := (1 * (1 - alpha))%Q in
  let new_wt := alpha in
  if Qeq_bool weighted cur then weighted
  else ((old_wt * weighted + new_wt * cur) / (old_wt + new_wt))%Q.

Fixpoint ewm_scan (alpha weighted : Q) (vals : list Q) : list Q :=
  match vals with
  | [] => []
  | cur :: rest =>
      let w := ewm_next alpha weighted cur in
      w :: ewm_scan alpha w rest
  end.

Definition ewm_mean (span : Z) (vals : list Q) : list Q :=
  match vals with
  | [] => []
  | v0 :: rest => v0 :: ewm_scan (alpha_of_span span) v0 rest
  end.

(** [df[name]] for a single label *)
Definition getitem (name : string) (df : DataFrame) : result (list value) :=
  match filter (fun c => String.eqb (fst c) name) (columns df) with
  | [] => Raise (KeyError name)
  | [c] => Ok (snd c)
  | _ => Raise (ValueError "Cannot set a DataFrame with multiple columns to a single column")
  end.

Fixpoint numeric (col : list value) : result (list Q) :=
  match col with
  | [] => Ok []
  | VNum q :: rest => qs <- numeric rest ;; Ok (q :: qs)
  | VInt z :: rest => qs <- numeric rest ;; Ok (inject_Z z :: qs)
  | _ => Raise (TypeError "ewm of a column that is not numeric")
  end.

Definition ema_name (w : Z) : string := "ema" ++ Py.str_of_int w.

Definition add_ema (df : DataFrame) (w : Z) : result DataFrame :=
  col <- getitem "close" df ;;
  if w <? 1 then Raise (ValueError "span must satisfy: span >= 1")
  else
    closes <- numeric col ;;
    Ok (setitem (ema_name w) (map VNum (ewm_mean w closes)) df).

Definition add_emas (df : DataFrame) (windows : list Z) : result DataFrame :=
  if df_empty df then Ok df
  else fold_left (fun acc w => d <- acc ;; add_ema d w) windows (Ok df).

(** *** The table *)

Definition key : Type := (string * Timestamp)%type.

Definition key_of (r : Row) : key := (symbol r, dt r).

Definition key_eqb (a b : key) : bool :=
  String.eqb (fst a) (fst b) && ts_eqb (snd a) (snd b).

Definition table_of (db : Db) : list Row :=
  match db with
  | Some t => t
  | None => []
  end.

(** DuckDB resolves [stage.symbol] and [stage.dt] without regard to case. *)
Definition stage_column (name : string) (stage : DataFrame) : result (list value) :=
  match find (fun c => String.eqb (Py.lower (fst c)) name) (columns stage) with
  | Some c => Ok (snd c)
  | None => Raise (DbError ("Binder Error: no column " ++ name))
  end.

Fixpoint stage_keys (syms dts : list value) : result (list key) :=
  match syms, dts with
  | VStr s :: syms', VTs t :: dts' => ks <- stage_keys syms' dts' ;; Ok ((s, t) :: ks)
  | [], _ | _, [] => Ok []
  | _, _ => Raise (DbError "Binder Error: cannot compare")
  end.

(** [DELETE FROM ohlcv USING stage WHERE ohlcv.symbol = stage.symbol
    AND ohlcv.dt = stage.dt] *)
Definition delete_using (keys : list key) (table : list Row) : list Row :=
  filter (fun r => negb (existsb (key_eqb (key_of r)) keys)) table.

Definition as_double (v : value) : result Q :=
  match v with
  | VNum q => Ok q
  | VInt z => Ok (inject_Z z)
  | _ => Raise (DbError "Conversion Error: DOUBLE")
  end.

(** [SELECT * FROM stage] as rows of [ohlcv]: columns are matched by
    position, ten of them, and each value must fit its column. The volume
    is taken to be an int64 column, as yfinance gives it: the model neither
    rounds a DOUBLE into BIGINT nor checks the 64-bit range. *)
Definition cast_row (vs : list value) : result Row :=
  match vs with
  | [VTs t; o; h; l; c; VInt v; VStr s; e8; e21; e50] =>
      o' <- as_double o ;; h' <- as_double h ;; l' <- as_double l ;;
      c' <- as_double c ;; e8' <- as_double e8 ;; e21' <- as_double e21 ;;
      e50' <- as_double e50 ;;
      Ok (mkRow t o' h' l' c' v s e8' e21' e50')
  | _ => Raise (DbError "Conversion Error")
  end.

Definition nth_row (df : DataFrame) (i : nat) : list value :=
  map (fun c => nth i (snd c) (VInt 0)) (columns df).

Fixpoint cast_rows (rows : list (list value)) : result (list Row) :=
  match rows with
  | [] => Ok []
  | vs :: rest => r <- cast_row vs ;; rs <- cast_rows rest ;; Ok (r :: rs)
  end.

Definition stage_rows (stage : DataFrame) : result (list Row) :=
  if negb (List.length (columns stage) =? 10)%nat
  then Raise (DbError "Binder Error: table ohlcv has 10 columns")
  else cast_rows (map (nth_row stage) (seq 0 (nrows stage))).

(** Statements run in auto-commit mode: what was executed before an
    exception stays in the file. *)
Definition upsert_duckdb (flt : fault) (db : Db) (df : DataFrame) : result unit * Db :=
  match step flt 0 with                            (* duckdb.connect *)
  | Raise e => (Raise e, db)
  | Ok _ =>
  match step flt 1 with                            (* CREATE TABLE IF NOT EXISTS *)
  | Raise e => (Raise e, db)
  | Ok _ =>
  let table := table_of db in
  match step flt 2 with                            (* CREATE TEMP TABLE stage *)
  | Raise e => (Raise e, Some table)
  | Ok _ =>
  let stage := df in
  match (_ <- step flt 3 ;;                        (* DELETE ... USING stage *)
         syms <- stage_column "symbol" stage ;;
         dts <- stage_column "dt" stage ;;
         stage_keys syms dts) with
  | Raise e => (Raise e, Some table)
  | Ok keys =>
  let table := delete_using keys table in
  match (_ <- step flt 4 ;; stage_rows stage) with (* INSERT INTO ohlcv *)
  | Raise e => (Raise e, Some table)
  | Ok rows => (Ok tt, Some (table ++ rows)%list)
  end end end end end.

(** The frame whose rows are the given bars: what [add_emas] yields for a
    well-typed fetch. *)
Definition frame_of_rows (rows : list Row) : DataFrame :=
  mkDf (List.length rows)
    [ ("dt", map (fun r => VTs (dt r)) rows);
      ("open", map (fun r => VNum (open r)) rows);
      ("high", map (fun r => VNum (high r)) rows);
      ("low", map (fun r => VNum (low r)) rows);
      ("close", map (fun r => VNum (close r)) rows);
      ("volume", map (fun r => VInt (volume r)) rows);
      ("symbol", map (fun r => VStr (symbol r)) rows);
      ("ema8", map (fun r => VNum (ema8 r)) rows);
      ("ema21", map (fun r => VNum (ema21 r)) rows);
      ("ema50", map (fun r => VNum (ema50 r)) rows) ].

(** *** The run *)

Inductive event : Type :=
| FetchFailed (sym : string) (e : exn)         (* [error] fetching *)
| NoData (sym : string)                        (* [warn] no data, skipping *)
| Connecting (sym : string)                    (* [duckdb] connecting *)
| Upserted (sym : string) (n : nat)            (* [ok] upserted n rows *)
| UpsertFailed (sym : string) (e : exn).       (* [error] upserting *)

Definition event_symbol (ev : event) : string :=
  match ev with
  | FetchFailed s _ | NoData s | Connecting s | Upserted s _ | UpsertFailed s _ => s
  end.

(** The line that closes a ticker's turn, as opposed to a progress line. *)
Definition is_outcome (ev : event) : bool :=
  match ev with
  | Connecting _ => false
  | _ => true
  end.

(** The tickers whose turn was closed, in order. *)
Definition handled (log : list event) : list string :=
  map event_symbol (filter is_outcome log).

Section Main.

(** The outside world: what [yf.download] answers for a ticker, and where
    DuckDB fails, if it does, during that ticker's upsert. *)
Variable download : string -> result (option RawFrame).
Variable db_fault : string -> fault.

(** What a logged event says about the fetch of its ticker. *)
Definition agrees (ev : event) : Prop :=
  match ev with
  | FetchFailed s e => fetch (download s) s = Raise e
  | NoData s => exists d, fetch (download s) s = Ok d /\ df_empty d = true
  | Connecting s | Upserted s _ | UpsertFailed s _ =>
      exists d, fetch (download s) s = Ok d /\ df_empty d = false
  end.

(** One turn of the loop of [main]. An exception of [add_emas] is not
    inside a [try]: it ends the run. *)
Definition main_body (sym : string) (st : Db * list event)
  : result (Db * list event) :=
  let '(db, log) := st in
  match fetch (download sym) sym with
  | Raise e => Ok (db, (log ++ [FetchFailed sym e])%list)
  | Ok d =>
      if df_empty d then Ok (db, (log ++ [NoData sym])%list)
      else
        d <- add_emas d EMA_WINDOWS ;;
        match upsert_duckdb (db_fault sym) db d with
        | (Ok _, db') => Ok (db', (log ++ [Connecting sym; Upserted sym (nrows d)])%list)
        | (Raise e, db') => Ok (db', (log ++ [Connecting sym; UpsertFailed sym e])%list)
        end
  end.

Fixpoint main_loop (tickers : list string) (st : Db * list event)
  : result (Db * list event) :=
  match tickers with
  | [] => Ok st
  | sym :: rest => st' <- main_body sym st ;; main_loop rest st'
  end.

Definition main (TICKERS : list string) (db : Db) : result (Db * list event) :=
  main_loop TICKERS (db, []).

End Main.

End Refresh.

(** ** dateutil's relativedelta, as far as [_load] uses it *)

Module Cal.

Record relativedelta : Type := mkRd {
  years : Z;
  months : Z
}.

(** [relativedelta(years=n)] *)
Definition of_years (n : Z) : relativedelta := mkRd n 0.

(** [relativedelta(months=n)]: the constructor carries whole years over
    ([_fix]), keeping the sign. *)
Definition of_months (n : Z) : relativedelta :=
  if 11 <? Z.abs n then
    let s := Z.sgn n in
    mkRd (((n * s) / 12) * s) (((n * s) mod 12) * s)
  else mkRd 0 n.

Definition neg (rd : relativedelta) : relativedelta :=
  mkRd (- years rd) (- months rd).

Definition is_leap (y : Z) : bool :=
  ((y mod 4 =? 0) && negb (y mod 100 =? 0)) || (y mod 400 =? 0).

(** [calendar.monthrange(y, m)[1]] *)
Definition days_in_month (y m : Z) : Z :=
  if m =? 2 then (if is_leap y then 29 else 28)
  else if (m =? 4) || (m =? 6) || (m =? 9) || (m =? 11) then 30
  else 31.

Definition MINYEAR : Z := 1.
Definition MAXYEAR : Z := 9999.

(** [t + rd]: years and months are added to the calendar fields, the day is
    cut to the length of the month reached, the time of day is kept. The
    model covers the years [MINYEAR..MAXYEAR] of [datetime]: a result
    outside them is given as a ValueError, which stands for whatever a
    pandas Timestamp does there (it may still answer, or raise an
    OverflowError for a count beyond a C long). *)
Definition add (t : Timestamp) (rd : relativedelta) : result Timestamp :=
  let year := ts_year t + years rd in
  let month := ts_month t + months rd in
  let '(year, month) :=
    if months rd =? 0 then (year, ts_month t)
    else if 12 <? month then (year + 1, month - 12)
    else if month <? 1 then (year - 1, month + 12)
    else (year, month) in
  if (year <? MINYEAR) || (MAXYEAR <? year)
  then Raise (ValueError "year is out of range")
  else
    let day := Z.min (days_in_month year month) (ts_day t) in
    Ok (mkTs year month day (ts_tod t)).

(** [t - rd] is [(-rd) + t]. *)
Definition sub (t : Timestamp) (rd : relativedelta) : result Timestamp :=
  add t (neg rd).

End Cal.

(** ** api/main.py *)

Module RowOrder <: TotalLeBool.
Definition t : Type := Row.
Definition leb (a b : Row) : bool := ts_leb (dt a) (dt b).
Lemma ts_leb_total (a b : Timestamp) : ts_leb a b = true \/ ts_leb b a = true.
Proof.
  unfold ts_leb.
  destruct (Z.eqb_spec (ts_year a) (ts_year b)) as [Hy|Hy];
  destruct (Z.eqb_spec (ts_year b) (ts_year a)) as [Hy'|Hy']; try lia;
  destruct (Z.eqb_spec (ts_month a) (ts_month b)) as [Hm|Hm];
  destruct (Z.eqb_spec (ts_month b) (ts_month a)) as [Hm'|Hm']; try lia;
  destruct (Z.eqb_spec (ts_day a) (ts_day b)) as [Hd|Hd];
  destruct (Z.eqb_spec (ts_day b) (ts_day a)) as [Hd'|Hd']; try lia.
Qed.
Lemma leb_total (a b : Row) : leb a b = true \/ leb b a = true.
Proof. apply ts_leb_total. Qed.
End RowOrder.

(** [ORDER BY dt], as a stable sort. *)
Module RowSort := Sort RowOrder.

Module Api.

Inductive unit_of_time : Type := Mo | Yr.

Inductive db_access : Type :=
| Connect
| Select (sym : string).

(** [require_key]: [API_KEY] is [os.getenv("API_KEY")], the header is
    absent or a string. *)
Definition truthy (k : option string) : bool :=
  match k with
  | Some s => negb (String.eqb s "")
  | None => false
  end.

Definition opt_eqb (a b : option string) : bool :=
  match a, b with
  | Some x, Some y => String.eqb x y
  | None, None => true
  | _, _ => false
  end.

Definition require_key (API_KEY x_api_key : option string) : result unit :=
  if truthy API_KEY && negb (opt_eqb x_api_key API_KEY)
  then Raise (HTTPException 401 "Unauthorized")
  else Ok tt.

(** [period or default] *)
Definition or_else (period : option string) (default : string) : string :=
  match period with
  | Some p => if String.eqb p "" then default else p
  | None => default
  end.

(** Lines 48-53 of [_load]. *)
Definition parse_period (period : option string) : result (Z * unit_of_time) :=
  let s := Py.lower (Py.strip (or_else period "6mo")) in
  if Py.endswith s "mo" then
    n <- Py.int (Py.drop_last 2 s) ;; Ok (n, Mo)
  else if Py.endswith s "yr" || Py.endswith s "y" then
    n <- Py.int (if Py.endswith s "yr" then Py.drop_last 2 s else Py.drop_last 1 s) ;;
    Ok (n, Yr)
  else Ok (6, Mo).

(** [df["dt"].max()] of a frame with at least one row *)
Definition max_dt (first : Row) (rest : list Row) : Timestamp :=
  fold_left (fun m r => if ts_leb m (dt r) then dt r else m) rest (dt first).

(** Lines 55-60: the query, where any exception gives the frame without
    rows. The table must exist for the SELECT to succeed. *)
Definition select_symbol (flt : fault) (db : Db) (sym : string)
  : list db_access * list Row :=
  match step flt 0 with
  | Raise _ => ([Connect], [])
  | Ok _ =>
      match step flt 1, db with
      | Ok _, Some table =>
          ([Connect; Select sym],
           RowSort.sort (filter (fun r => String.eqb (symbol r) sym) table))
      | _, _ => ([Connect; Select sym], [])
      end
  end.

(** [_load]: the frame that comes back is given by its rows; the storage
    accesses made on the way are listed beside the result. *)
Definition _load (flt : fault) (db : Db) (symbol : string) (period : option string)
  : list db_access * result (list Row) :=
  match parse_period period with
  | Raise e => ([], Raise e)
  | Ok (n, unit) =>
      let '(acc, df) := select_symbol flt db (Py.upper symbol) in
      match df with
      | [] => (acc, Ok df)
      | first :: rest =>
          let end_ := max_dt first rest in
          (acc,
           start <- Cal.sub end_ (match unit with
                                  | Yr => Cal.of_years n
                                  | Mo => Cal.of_months n
                                  end) ;;
           Ok (filter (fun r => ts_leb start (dt r)) df))
      end
  end.

(** [a / b] on floats *)
Definition truediv (a b : Q) : result Q :=
  if Qeq_bool b 0 then Raise ZeroDivisionError else Ok (a / b)%Q.

(** [round(x, 3)] on the exact rational: to the nearest multiple of
    1/1000, ties to the even one. (Python rounds the binary float, which at
    a tie of the decimal text can fall on either side.) *)
Definition round_half_even (q : Q) : Z :=
  let f := Qfloor q in
  match (q - inject_Z f ?= 1 # 2)%Q with
  | Lt => f
  | Gt => f + 1
  | Eq => if Z.even f then f else f + 1
  end.

Definition round3 (q : Q) : Q :=
  (inject_Z (round_half_even (q * 1000)) / 1000)%Q.

(** The JSON body of [/quote]; [dt] stands for its text. *)
Record Quote : Type := mkQuote {
  q_symbol : string;
  q_dt : Timestamp;
  q_close : Q;
  q_volume : Z;
  q_pct_change : Q
}.

Definition quote (flt : fault) (db : Db) (symbol : string)
  : list db_access * result Quote :=
  let '(acc, loaded) := _load flt db symbol (Some "1mo") in
  (acc,
   df <- loaded ;;
   match List.rev df with
   | [] => Raise (HTTPException 404 "No data — ETL may not have run yet or bad symbol")
   | last :: before =>
       let prev := match before with
                   | p :: _ => p        (* df.iloc[-2] *)
                   | [] => last
                   end in
       pct <- (if Qeq_bool (close prev) 0 then Ok 0%Q
               else d <- truediv (close last - close prev) (close prev) ;;
                    Ok (d * 100)%Q) ;;
       Ok (mkQuote (Py.upper symbol) (dt last) (close last) (volume last) (round3 pct))
   end).

(** [/chart]: the picture is given by the rows it draws. *)
Definition chart (flt : fault) (db : Db) (symbol : string) (period : option string)
  : list db_access * result (list Row) :=
  let '(acc, loaded) := _load flt db symbol period in
  (acc,
   df <- loaded ;;
   match df with
   | [] => Raise (HTTPException 404 "No data — ETL may not have run yet or bad symbol/period")
   | _ => Ok df
   end).

(** An endpoint declared with [dependencies=[Depends(require_key)]]: the
    dependency runs first and its exception is the response. *)
Definition protected {A : Type} (API_KEY x_api_key : option string)
  (endpoint : list db_access * result A) : list db_access * result A :=
  match require_key API_KEY x_api_key with
  | Raise e => ([], Raise e)
  | Ok _ => endpoint
  end.

Definition get_quote (API_KEY x_api_key : option string) (flt : fault) (db : Db)
  (symbol : string) : list db_access * result Quote :=
  protected API_KEY x_api_key (quote flt db symbol).

Definition get_chart (API_KEY x_api_key : option string) (flt : fault) (db : Db)
  (symbol : string) (period : option string) : list db_access * result (list Row) :=
  protected API_KEY x_api_key (chart flt db symbol period).

(** The status line FastAPI answers with. *)
Definition status_code {A : Type} (r : result A) : Z :=
  match r with
  | Ok _ => 200
  | Raise (HTTPException s _) => s
  | Raise _ => 500
  end.

End Api.

(** ** Sample data *)

Module Sample.

Import Refresh.

Definition day (y m d : Z) : Timestamp := mkTs y m d 0.

Definition bar (sym : string) (t : Timestamp) (c : Q) : Row :=
  mkRow t c c c c 1000 sym c c c.

Definition spy_old : Row := bar "SPY" (day 2024 1 2) 10.
Definition spy_new : Row := bar "SPY" (day 2024 1 2) 12.

(** Closes 10, 12, 11 on three consecutive days. *)
Definition abc_bars : list Row :=
  [ bar "ABC" (day 2024 6 26) 10; bar "ABC" (day 2024 6 27) 12;
    bar "ABC" (day 2024 6 28) 11 ].

Definition abc_fetched : DataFrame :=
  mkDf 3
    [ ("dt", map (fun r => VTs (dt r)) abc_bars);
      ("open", map (fun r => VNum (open r)) abc_bars);
      ("high", map (fun r => VNum (high r)) abc_bars);
      ("low", map (fun r => VNum (low r)) abc_bars);
      ("close", map (fun r => VNum (close r)) abc_bars);
      ("volume", map (fun r => VInt (volume r)) abc_bars);
      ("symbol", map (fun r => VStr (symbol r)) abc_bars) ].

(** A store whose latest "ABC" bar is of 2024-06-30. *)
Definition store : Db :=
  Some [ bar "ABC" (day 2024 6 30) 12; bar "XYZ" (day 2024 7 15) 40;
         bar "ABC" (day 2024 3 29) 9; bar "ABC" (day 2024 3 30) 10;
         bar "ABC" (day 2023 12 29) 8 ].

(** A download whose frame has no Close column. *)
Definition raw_without_close : RawFrame :=
  mkRaw (Some "Date") [VTs (day 2024 6 28)]
        (MultiIndex [("Open", ["ABC"]); ("High", ["ABC"]); ("Low", ["ABC"]);
                     ("Volume", ["ABC"])])
        [[VNum 10]; [VNum 11]; [VNum 9]; [VInt 1000]].

(** A download as yfinance shapes it for one ticker. *)
Definition raw_abc : RawFrame :=
  mkRaw (Some "Date") (map (fun r => VTs (dt r)) abc_bars)
        (MultiIndex [("Close", ["ABC"]); ("High", ["ABC"]); ("Low", ["ABC"]);
                     ("Open", ["ABC"]); ("Volume", ["ABC"])])
        [ map (fun r => VNum (close r)) abc_bars;
          map (fun r => VNum (high r)) abc_bars;
          map (fun r => VNum (low r)) abc_bars;
          map (fun r => VNum (open r)) abc_bars;
          map (fun r => VInt (volume r)) abc_bars ].

(** An outside world: "BAD" cannot be fetched, "DEL" has no rows, and the
    store fails on the INSERT for "ERR". *)
Definition world_download (sym : string) : result (option RawFrame) :=
  if String.eqb sym "BAD" then Raise (FetchError "no route to host")
  else if String.eqb sym "DEL" then Ok None
  else Ok (Some raw_abc).

Definition world_fault (sym : string) : fault :=
  if String.eqb sym "ERR" then Some 4%nat else None.

End Sample.


(** ** Vocabulary for reads *)

Module Read.

(** The stored rows a read of the symbol [sym] is about. *)
Definition stored_for (db : Db) (sym : string) : list Row :=
  filter (fun r => String.eqb (symbol r) (Py.upper sym)) (Refresh.table_of db).

(** [latest] is the greatest timestamp among [rows]. *)
Definition is_latest (latest : Timestamp) (rows : list Row) : Prop :=
  In latest (map dt rows) /\ forall r, In r rows -> ts_leb (dt r) latest = true.

(** The [relativedelta] that [_load] subtracts for [n] units. *)
Definition delta (n : Z) (u : Api.unit_of_time) : Cal.relativedelta :=
  match u with
  | Api.Yr => Cal.of_years n
  | Api.Mo => Cal.of_months n
  end.

End Read.

(** ** More sample data *)

Module More.

(** Two bars, closes 3 and 4. *)
Definition two_bars : Db :=
  Some [ Sample.bar "ABC" (Sample.day 2024 6 27) 3;
         Sample.bar "ABC" (Sample.day 2024 6 28) 4 ].

(** A download with two columns that normalise to "close", as
    [yf.download] answers when its argument names two tickers. *)
Definition raw_two_tickers : Refresh.RawFrame :=
  Refresh.mkRaw (Some "Date") [VTs (Sample.day 2024 6 28)]
    (Refresh.MultiIndex
       [ ("Close", ["QQQ"]); ("Close", ["SPY"]); ("High", ["QQQ"]); ("High", ["SPY"]);
         ("Low", ["QQQ"]); ("Low", ["SPY"]); ("Open", ["QQQ"]); ("Open", ["SPY"]);
         ("Volume", ["QQQ"]); ("Volume", ["SPY"]) ])
    [ [VNum 480]; [VNum 545]; [VNum 482]; [VNum 547]; [VNum 478]; [VNum 543];
      [VNum 479]; [VNum 544]; [VInt 1000]; [VInt 2000] ].

(** An outside world in which the entry "SPY QQQ" gets that download and
    every other ticker the three bars of "ABC"; the store does not fail. *)
Definition two_ticker_download (sym : string) : result (option Refresh.RawFrame) :=
  if String.eqb sym "SPY QQQ" then Ok (Some raw_two_tickers)
  else Ok (Some Sample.raw_abc).

Definition no_fault (sym : string) : fault := None.

(** [is_ascii]: a code below 128. *)
Definition is_ascii (c : ascii) : bool := Py.code c <? 128.

End More.

(** ** Well-typed downloads *)

Module Yf.

Import Refresh.

(** One daily bar as yfinance reports it. *)
Record Candle : Type := mkCandle {
  c_dt : Timestamp;
  c_open : Q;
  c_high : Q;
  c_low : Q;
  c_close : Q;
  c_volume : Z
}.

(** The frame of [yf.download(ticker, group_by="column")]: a DatetimeIndex
    named Date and the price columns under a (Price, Ticker) MultiIndex. *)
Definition frame (ticker : string) (cs : list Candle) : RawFrame :=
  mkRaw (Some "Date") (map (fun c => VTs (c_dt c)) cs)
        (MultiIndex [("Close", [ticker]); ("High", [ticker]); ("Low", [ticker]);
                     ("Open", [ticker]); ("Volume", [ticker])])
        [ map (fun c => VNum (c_close c)) cs;
          map (fun c => VNum (c_high c)) cs;
          map (fun c => VNum (c_low c)) cs;
          map (fun c => VNum (c_open c)) cs;
          map (fun c => VInt (c_volume c)) cs ].

(** The rows of [ohlcv] for these bars: the bar, the upper-cased symbol
    and the three indicator values of its day. *)
Definition row (sym : string) (x : Candle * (Q * (Q * Q))) : Row :=
  let '(c, (e8, (e21, e50))) := x in
  mkRow (c_dt c) (c_open c) (c_high c) (c_low c) (c_close c) (c_volume c)
        (Py.upper sym) e8 e21 e50.

Definition rows (sym : string) (cs : list Candle) : list Row :=
  let closes := map c_close cs in
  map (row sym)
      (combine cs (combine (ewm_mean 8 closes)
                           (combine (ewm_mean 21 closes) (ewm_mean 50 closes)))).

(** What [fetch] returns for such a download. *)
Definition fetched (sym : string) (cs : list Yf.Candle) : DataFrame :=
  mkDf (List.length cs)
    [ ("dt", map (fun c => VTs (c_dt c)) cs);
      ("open", map (fun c => VNum (c_open c)) cs);
      ("high", map (fun c => VNum (c_high c)) cs);
      ("low", map (fun c => VNum (c_low c)) cs);
      ("close", map (fun c => VNum (c_close c)) cs);
      ("volume", map (fun c => VInt (c_volume c)) cs);
      ("symbol", repeat (VStr (Py.upper sym)) (List.length cs)) ].

(** The same frame after [add_emas] put the three indicator columns last. *)
Definition with_emas (sym : string) (cs : list Yf.Candle) (e8 e21 e50 : list Q)
  : DataFrame :=
  mkDf (List.length cs)
    (columns (fetched sym cs)
     ++ [ ("ema8", map VNum e8); ("ema21", map VNum e21); ("ema50", map VNum e50) ]).

End Yf.

(** ** The configured universe *)

Module Env.

(** [s.split(sep)] for a separator of one character *)
Fixpoint split (sep : ascii) (s : string) : list string :=
  match s with
  | EmptyString => [EmptyString]
  | String c r =>
      if Ascii.eqb c sep then EmptyString :: split sep r
      else match split sep r with
           | h :: t => String c h :: t
           | [] => [String c EmptyString]
           end
  end.

(** Line 14 of etl/refresh.py, [env] being the value of the environment
    variable TICKERS, if it is set. *)
Definition TICKERS (env : option string) : list string :=
  let text := match env with
              | Some v => v
              | None => "ARKK,SPY,STRL,WAY,XBI"
              end in
  map (fun s => Py.upper (Py.strip s))
      (filter (fun s => negb (String.eqb (Py.strip s) "")) (split "," text)).

Definition not_comma (c : ascii) : bool := negb (Ascii.eqb "," c).

End Env.
(** * Properties *)

Import Refresh.

(** ** The table under [upsert_duckdb] *)

Section Upsert.

Lemma ts_eqb_eq (a b : Timestamp) : ts_eqb a b = true <-> a = b.
Proof.
  unfold ts_eqb. rewrite !andb_true_iff, !Z.eqb_eq.
  destruct a, b; simpl; split.
  - intros [[[-> ->] ->] ->]. reflexivity.
  - intros H. injection H as -> -> -> ->. auto.
Qed.

Lemma key_eqb_eq (a b : key) : key_eqb a b = true <-> a = b.
Proof.
  unfold key_eqb. rewrite andb_true_iff, String.eqb_eq, ts_eqb_eq.
  destruct a, b; simpl; split.
  - intros [-> ->]. reflexivity.
  - intros H. injection H as -> ->. auto.
Qed.

Lemma existsb_key (k : key) (keys : list key) :
  existsb (key_eqb k) keys = true <-> In k keys.
Proof.
  rewrite existsb_exists. split.
  - intros [x [Hin Hx]]. apply key_eqb_eq in Hx. now subst.
  - intros Hin. exists k. split; [assumption | now apply key_eqb_eq].
Qed.

Lemma in_delete_using (keys : list key) (table : list Row) (r : Row) :
  In r (delete_using keys table) <-> In r table /\ ~ In (key_of r) keys.
Proof.
  unfold delete_using. rewrite filter_In, negb_true_iff.
  rewrite <- existsb_key, not_true_iff_false. reflexivity.
Qed.

Lemma delete_using_batch (batch : list Row) :
  delete_using (map key_of batch) batch = [].
Proof.
  unfold delete_using.
  assert (H : forall l, incl l batch ->
            filter (fun r => negb (existsb (key_eqb (key_of r)) (map key_of batch))) l = []).
  { induction l as [|r l IH]; intros Hl; [reflexivity|]. simpl.
    assert (Hr : existsb (key_eqb (key_of r)) (map key_of batch) = true).
    { apply existsb_key, in_map, Hl. now left. }
    rewrite Hr. simpl. apply IH. intros x Hx. apply Hl. now right. }
  apply H, incl_refl.
Qed.

Lemma delete_using_twice (keys : list key) (table : list Row) :
  delete_using keys (delete_using keys table) = delete_using keys table.
Proof.
  unfold delete_using. induction table as [|r t IH]; [reflexivity|]. simpl.
  destruct (negb (existsb (key_eqb (key_of r)) keys)) eqn:E; simpl.
  - rewrite E. now f_equal.
  - assumption.
Qed.

Lemma NoDup_keys_filter (f : Row -> bool) (table : list Row) :
  NoDup (map key_of table) -> NoDup (map key_of (filter f table)).
Proof.
  induction table as [|r t IH]; simpl; intros H; [constructor|].
  inversion H as [|k ks Hnotin Hnd]; subst.
  destruct (f r); simpl; [|now apply IH].
  constructor; [|now apply IH].
  intros Hin. apply Hnotin. apply in_map_iff in Hin as [x [Hx Hin]].
  apply filter_In in Hin as [Hin _]. rewrite <- Hx. now apply in_map.
Qed.

Lemma stage_keys_frame (rows : list Row) :
  stage_keys (map (fun r => VStr (symbol r)) rows) (map (fun r => VTs (dt r)) rows)
  = Ok (map key_of rows).
Proof.
  induction rows as [|r rows IH]; [reflexivity|].
  simpl. rewrite IH. reflexivity.
Qed.

Lemma cast_rows_frame (pre rows : list Row) :
  cast_rows (map (nth_row (frame_of_rows (pre ++ rows)))
                 (seq (List.length pre) (List.length rows))) = Ok rows.
Proof.
  revert pre. induction rows as [|r rows IH]; intros pre; [reflexivity|].
  simpl seq. simpl map.
  replace (pre ++ r :: rows)%list with ((pre ++ [r]) ++ rows)%list at 2
    by (rewrite <- app_assoc; reflexivity).
  replace (S (List.length pre)) with (List.length (pre ++ [r])%list)
    by (rewrite length_app; simpl; lia).
  simpl cast_rows. rewrite IH.
  unfold nth_row, frame_of_rows. cbn [columns map snd].
  rewrite !map_app. cbn [map].
  repeat match goal with
  | |- context [nth (List.length pre) (map ?f pre ++ ?x :: ?l)%list ?d] =>
      replace (nth (List.length pre) (map f pre ++ x :: l)%list d) with x
        by (rewrite app_nth2 by (rewrite length_map; lia);
            rewrite length_map, Nat.sub_diag; reflexivity)
  end.
  destruct r; reflexivity.
Qed.

Lemma stage_rows_frame (rows : list Row) :
  stage_rows (frame_of_rows rows) = Ok rows.
Proof.
  unfold stage_rows. cbn [frame_of_rows columns nrows List.length Nat.eqb negb].
  apply (cast_rows_frame [] rows).
Qed.

Lemma upsert_frame (db : Db) (batch : list Row) :
  upsert_duckdb None db (frame_of_rows batch)
  = (Ok tt, Some (delete_using (map key_of batch) (table_of db) ++ batch)%list).
Proof.
  unfold upsert_duckdb. cbn [step].
  assert (Hs : stage_column "symbol" (frame_of_rows batch)
               = Ok (map (fun r => VStr (symbol r)) batch)) by reflexivity.
  assert (Hd : stage_column "dt" (frame_of_rows batch)
               = Ok (map (fun r => VTs (dt r)) batch)) by reflexivity.
  cbn [bind]. rewrite Hs, Hd. cbn [bind].
  rewrite stage_keys_frame, stage_rows_frame.
  destruct db; reflexivity.
Qed.

End Upsert.

(** C1, as stated, fails: a batch that carries one key twice is inserted
    whole, so the key is stored twice. *)
Lemma upsert_batch_with_repeated_key :
  exists stored,
    upsert_duckdb None (Some []) (frame_of_rows [Sample.spy_old; Sample.spy_new])
    = (Ok tt, Some stored)
    /\ ~ NoDup (map key_of stored).
Proof.
  exists [Sample.spy_old; Sample.spy_new]. split; [reflexivity|].
  intros H. inversion H as [|k ks Hnotin _]; subst.
  apply Hnotin. left. reflexivity.
Qed.

(** C1 (amended): when the stored keys are unique and the batch has no key
    twice, upsert succeeds, the stored keys are unique afterwards, every
    batch row is stored, a stored row whose key is in the batch is a batch
    row, and any other stored row was there before. *)
Theorem upsert_unique_keys (db : Db) (batch : list Row) :
  NoDup (map key_of (table_of db)) ->
  NoDup (map key_of batch) ->
  exists stored,
    upsert_duckdb None db (frame_of_rows batch) = (Ok tt, Some stored)
    /\ NoDup (map key_of stored)
    /\ (forall r, In r batch -> In r stored)
    /\ (forall r, In r stored -> In (key_of r) (map key_of batch) -> In r batch)
    /\ (forall r, In r stored -> ~ In (key_of r) (map key_of batch) ->
                  In r (table_of db)).
Proof.
  intros Hdb Hbatch.
  exists (delete_using (map key_of batch) (table_of db) ++ batch)%list.
  split; [apply upsert_frame|]. split; [|split; [|split]].
  - rewrite map_app. apply NoDup_app.
    + now apply NoDup_keys_filter.
    + assumption.
    + intros k Hk Hin. apply in_map_iff in Hk as [r [<- Hr]].
      apply in_delete_using in Hr as [_ Hr]. contradiction.
  - intros r Hr. apply in_or_app. now right.
  - intros r Hr Hk. apply in_app_or in Hr as [Hr|Hr]; [|assumption].
    apply in_delete_using in Hr as [_ Hr]. contradiction.
  - intros r Hr Hk. apply in_app_or in Hr as [Hr|Hr].
    + now apply in_delete_using in Hr as [Hr _].
    + exfalso. apply Hk. now apply in_map.
Qed.

Lemma upsert_unique_keys_witness :
  exists stored,
    upsert_duckdb None (Some [Sample.spy_old]) (frame_of_rows [Sample.spy_new])
    = (Ok tt, Some stored)
    /\ NoDup (map key_of stored)
    /\ In Sample.spy_new stored
    /\ ~ In Sample.spy_old stored.
Proof.
  destruct (upsert_unique_keys (Some [Sample.spy_old]) [Sample.spy_new])
    as [stored [Hrun [Hnd [Hin [Hfresh _]]]]].
  - simpl. constructor; [intros []|constructor].
  - simpl. constructor; [intros []|constructor].
  - exists stored. split; [exact Hrun|]. split; [exact Hnd|].
    split; [apply Hin; now left|].
    intros Hold. apply Hfresh in Hold.
    + destruct Hold as [E|[]]. discriminate E.
    + left. reflexivity.
Defined.

(** C2: on any store and for any batch, a second upsert of the batch
    leaves exactly the rows the first one left. *)
Theorem upsert_idempotent (db : Db) (batch : list Row) :
  exists stored,
    upsert_duckdb None db (frame_of_rows batch) = (Ok tt, Some stored)
    /\ upsert_duckdb None (Some stored) (frame_of_rows batch) = (Ok tt, Some stored).
Proof.
  exists (delete_using (map key_of batch) (table_of db) ++ batch)%list.
  split; [apply upsert_frame|].
  rewrite upsert_frame. cbn [table_of]. do 2 f_equal.
  unfold delete_using at 1. rewrite filter_app.
  fold (delete_using (map key_of batch) (delete_using (map key_of batch) (table_of db))).
  fold (delete_using (map key_of batch) batch).
  rewrite delete_using_twice, delete_using_batch, app_nil_r. reflexivity.
Qed.

(** ** The indicator columns *)

Section Indicators.

Lemma alpha_of_span_eq (w : Z) :
  1 <= w -> (alpha_of_span w == 2 / (inject_Z w + 1))%Q.
Proof.
  intros Hw. unfold alpha_of_span.
  assert (H : ~ (inject_Z w + 1 == 0)%Q).
  { unfold Qeq, Qplus, inject_Z. simpl. lia. }
  field. exact H.
Qed.

Lemma ewm_next_eq (a x c : Q) :
  (ewm_next a x c == a * c + (1 - a) * x)%Q.
Proof.
  unfold ewm_next. destruct (Qeq_bool x c) eqn:E.
  - apply Qeq_bool_iff in E. rewrite <- E. ring.
  - field. intros H. ring_simplify in H. discriminate H.
Qed.

Lemma ewm_scan_length (a x : Q) (vals : list Q) :
  List.length (ewm_scan a x vals) = List.length vals.
Proof.
  revert x. induction vals as [|c rest IH]; intros x; simpl; [reflexivity|].
  now rewrite IH.
Qed.

Lemma ewm_scan_nth (a : Q) (vals : list Q) :
  forall (x : Q) (i : nat), (i < List.length vals)%nat ->
    (nth i (ewm_scan a x vals) 0 ==
     a * nth i vals 0 + (1 - a) * nth i (x :: ewm_scan a x vals) 0)%Q.
Proof.
  induction vals as [|c rest IH]; intros x i Hi; simpl in Hi; [lia|].
  destruct i as [|i].
  - simpl. apply ewm_next_eq.
  - simpl ewm_scan. cbn [nth]. apply IH. lia.
Qed.

Lemma ewm_mean_length (w : Z) (vals : list Q) :
  List.length (ewm_mean w vals) = List.length vals.
Proof.
  destruct vals as [|v rest]; simpl; [reflexivity|].
  now rewrite ewm_scan_length.
Qed.

Lemma ewm_mean_recurrence (w : Z) (vals : list Q) (i : nat) :
  1 <= w -> (S i < List.length vals)%nat ->
  (nth (S i) (ewm_mean w vals) 0 ==
   2 / (inject_Z w + 1) * nth (S i) vals 0
   + (1 - 2 / (inject_Z w + 1)) * nth i (ewm_mean w vals) 0)%Q.
Proof.
  intros Hw Hi. destruct vals as [|v rest]; simpl in Hi; [lia|].
  unfold ewm_mean. cbn [nth].
  rewrite <- (alpha_of_span_eq w Hw). apply ewm_scan_nth. lia.
Qed.

(** Column access and assignment *)

Lemma mem_In (s : string) (l : list string) : mem s l = true <-> In s l.
Proof.
  unfold mem. rewrite existsb_exists. split.
  - intros [x [Hin Hx]]. apply String.eqb_eq in Hx. now subst.
  - intros Hin. exists s. split; [assumption | apply String.eqb_refl].
Qed.

Lemma filter_absent (name : string) (cols : list (string * list value)) :
  ~ In name (map fst cols) ->
  filter (fun c => String.eqb (fst c) name) cols = [].
Proof.
  induction cols as [|c cols IH]; simpl; intros H; [reflexivity|].
  destruct (String.eqb_spec (fst c) name) as [E|E].
  - exfalso. apply H. now left.
  - apply IH. intros Hin. apply H. now right.
Qed.

Lemma filter_replaced (name : string) (col : list value)
      (cols : list (string * list value)) :
  NoDup (map fst cols) -> In name (map fst cols) ->
  filter (fun c => String.eqb (fst c) name)
         (map (fun c => if String.eqb (fst c) name then (name, col) else c) cols)
  = [(name, col)].
Proof.
  induction cols as [|c cols IH]; simpl; intros Hnd Hin; [contradiction|].
  inversion Hnd as [|k ks Hnotin Hnd']; subst.
  destruct (String.eqb_spec (fst c) name) as [E|E].
  - simpl. rewrite String.eqb_refl. f_equal.
    rewrite map_ext_in with (g := fun c => c).
    + rewrite map_id. apply filter_absent. now rewrite <- E.
    + intros x Hx. destruct (String.eqb_spec (fst x) name) as [E'|E']; [|reflexivity].
      exfalso. apply Hnotin. rewrite E, <- E'. now apply in_map.
  - destruct (String.eqb_spec (fst c) name) as [E'|_]; [contradiction|].
    apply IH; [assumption|]. destruct Hin as [Hin|Hin]; [contradiction|assumption].
Qed.

Lemma filter_other (name other : string) (col : list value)
      (cols : list (string * list value)) :
  other <> name ->
  filter (fun c => String.eqb (fst c) other)
         (map (fun c => if String.eqb (fst c) name then (name, col) else c) cols)
  = filter (fun c => String.eqb (fst c) other) cols.
Proof.
  intros Hne. induction cols as [|c cols IH]; simpl; [reflexivity|].
  destruct (String.eqb_spec (fst c) name) as [E|E]; simpl.
  - destruct (String.eqb_spec name other) as [E'|_]; [now subst|].
    destruct (String.eqb_spec (fst c) other) as [E'|_]; [congruence|].
    apply IH.
  - rewrite IH. reflexivity.
Qed.

Lemma labels_setitem (name : string) (col : list value) (df : DataFrame) :
  labels (setitem name col df) =
  if mem name (labels df) then labels df else (labels df ++ [name])%list.
Proof.
  unfold setitem. destruct (mem name (labels df)) eqn:E; unfold labels; simpl.
  - rewrite map_map. apply map_ext_in_iff. intros c _.
    destruct (String.eqb_spec (fst c) name) as [E'|_]; simpl; congruence.
  - rewrite map_app. reflexivity.
Qed.

Lemma NoDup_labels_setitem (name : string) (col : list value) (df : DataFrame) :
  NoDup (labels df) -> NoDup (labels (setitem name col df)).
Proof.
  intros H. rewrite labels_setitem. destruct (mem name (labels df)) eqn:E; [assumption|].
  apply NoDup_app; [assumption | constructor; [intros []|constructor] |].
  intros a Ha [<-|[]]. apply mem_In in Ha. congruence.
Qed.

Lemma getitem_setitem_same (name : string) (col : list value) (df : DataFrame) :
  NoDup (labels df) -> getitem name (setitem name col df) = Ok col.
Proof.
  intros Hnd. unfold getitem, setitem. fold (labels df).
  destruct (mem name (labels df)) eqn:E; cbn [columns].
  - apply mem_In in E. unfold labels in *. rewrite filter_replaced by assumption.
    reflexivity.
  - rewrite filter_app, filter_absent.
    + simpl. rewrite String.eqb_refl. reflexivity.
    + intros Hin. apply mem_In in Hin. unfold labels in E. congruence.
Qed.

Lemma getitem_setitem_other (name other : string) (col : list value) (df : DataFrame) :
  other <> name -> getitem other (setitem name col df) = getitem other df.
Proof.
  intros Hne. unfold getitem, setitem.
  destruct (mem name (labels df)); cbn [columns].
  - rewrite filter_other by assumption. reflexivity.
  - rewrite filter_app. simpl.
    destruct (String.eqb_spec name other) as [E|_]; [now subst|].
    rewrite List.app_nil_r. reflexivity.
Qed.

Lemma str_of_int_inj (a b : Z) : Py.str_of_int a = Py.str_of_int b -> a = b.
Proof.
  unfold Py.str_of_int. intros H.
  assert (Hnn : forall z, Z.to_int z <> Decimal.Pos Decimal.Nil
                          /\ Z.to_int z <> Decimal.Neg Decimal.Nil).
  { intros [|p|p]; simpl; split; try discriminate;
      intros E; injection E as E; now apply DecimalPos.Unsigned.to_uint_nonnil in E. }
  apply DecimalZ.to_int_inj.
  assert (E : Some (Z.to_int a) = Some (Z.to_int b)).
  { rewrite <- (DecimalString.NilZero.isi (Z.to_int a)) by apply Hnn.
    rewrite <- (DecimalString.NilZero.isi (Z.to_int b)) by apply Hnn.
    now rewrite H. }
  now injection E.
Qed.

Lemma ema_name_inj (a b : Z) : ema_name a = ema_name b -> a = b.
Proof.
  unfold ema_name. simpl. intros H. injection H as H. now apply str_of_int_inj.
Qed.

Lemma ema_name_not_close (w : Z) : "close" <> ema_name w.
Proof. unfold ema_name. simpl. discriminate. Qed.

Lemma add_ema_ok (df : DataFrame) (w : Z) (col : list value) (closes : list Q) :
  getitem "close" df = Ok col -> numeric col = Ok closes -> 1 <= w ->
  add_ema df w = Ok (setitem (ema_name w) (map VNum (ewm_mean w closes)) df).
Proof.
  intros Hc Hn Hw. unfold add_ema. rewrite Hc. cbn [bind].
  destruct (Z.ltb_spec w 1) as [H|_]; [lia|]. rewrite Hn. reflexivity.
Qed.

Lemma add_emas_fold (col : list value) (closes : list Q) (ws : list Z) :
  numeric col = Ok closes -> Forall (fun w => 1 <= w) ws ->
  forall df, NoDup (labels df) -> getitem "close" df = Ok col ->
  exists df',
    fold_left (fun acc w => d <- acc ;; add_ema d w) ws (Ok df) = Ok df'
    /\ (forall w, In w ws ->
          getitem (ema_name w) df' = Ok (map VNum (ewm_mean w closes)))
    /\ (forall name, (forall w, In w ws -> name <> ema_name w) ->
          getitem name df' = getitem name df).
Proof.
  intros Hn. induction ws as [|w ws IH]; intros Hws df Hnd Hc.
  - exists df. simpl. split; [reflexivity|]. split; [intros w []|reflexivity].
  - inversion Hws as [|w' ws' Hw Hws']; subst.
    set (d1 := setitem (ema_name w) (map VNum (ewm_mean w closes)) df).
    destruct (IH Hws' d1) as [df' [Hfold [Hin Hout]]].
    + now apply NoDup_labels_setitem.
    + unfold d1. rewrite getitem_setitem_other by apply ema_name_not_close. exact Hc.
    + exists df'. split; [|split].
      * simpl. cbn [bind]. rewrite (add_ema_ok df w col closes Hc Hn Hw). exact Hfold.
      * intros w0 Hw0. destruct (in_dec Z.eq_dec w0 ws) as [Hi|Hi]; [now apply Hin|].
        destruct Hw0 as [<-|Hw0]; [|contradiction].
        rewrite Hout.
        -- unfold d1. now apply getitem_setitem_same.
        -- intros w1 Hw1 E. apply ema_name_inj in E. now subst.
      * intros name Hname. rewrite Hout.
        -- unfold d1. apply getitem_setitem_other. apply Hname. now left.
        -- intros w1 Hw1. apply Hname. now right.
Qed.

(** C3: on a frame without rows [add_emas] gives the frame back. On a
    frame with rows, distinct labels and a numeric [close] column, and for
    windows of at least 1, it succeeds and for each window [w] the result
    has exactly one column [ema{w}], as long as the closes, whose first
    value is the first close and whose later values follow
    [ema[i+1] = alpha * close[i+1] + (1 - alpha) * ema[i]] with
    [alpha = 2 / (w + 1)]. *)
Theorem add_emas_recurrence (df : DataFrame) (ws : list Z) :
  (df_empty df = true -> add_emas df ws = Ok df)
  /\ (df_empty df = false ->
      forall (col : list value) (closes : list Q),
        NoDup (labels df) ->
        getitem "close" df = Ok col ->
        numeric col = Ok closes ->
        Forall (fun w => 1 <= w) ws ->
        exists df',
          add_emas df ws = Ok df'
          /\ forall w, In w ws ->
               exists emas,
                 getitem (ema_name w) df' = Ok (map VNum emas)
                 /\ List.length emas = List.length closes
                 /\ hd_error emas = hd_error closes
                 /\ forall i, (S i < List.length closes)%nat ->
                      (nth (S i) emas 0 ==
                       2 / (inject_Z w + 1) * nth (S i) closes 0
                       + (1 - 2 / (inject_Z w + 1)) * nth i emas 0)%Q).
Proof.
  split; intros He; unfold add_emas; rewrite He; [reflexivity|].
  intros col closes Hnd Hc Hn Hws.
  destruct (add_emas_fold col closes ws Hn Hws df Hnd Hc) as [df' [Hfold [Hin _]]].
  exists df'. split; [exact Hfold|].
  intros w Hw. exists (ewm_mean w closes).
  split; [now apply Hin|]. split; [apply ewm_mean_length|].
  split; [now destruct closes|].
  intros i Hi. apply ewm_mean_recurrence; [|exact Hi].
  rewrite Forall_forall in Hws. now apply Hws.
Qed.

Lemma add_emas_recurrence_witness :
  exists df' emas,
    add_emas Sample.abc_fetched [2] = Ok df'
    /\ getitem "ema2" df' = Ok (map VNum emas)
    /\ hd_error emas = Some (10 # 1)
    /\ (nth 1 emas 0 == 34 # 3)%Q.
Proof.
  destruct (proj2 (add_emas_recurrence Sample.abc_fetched [2]) eq_refl
              (map (fun r => VNum (close r)) Sample.abc_bars)
              [10 # 1; 12 # 1; 11 # 1]%Q)
    as [df' [Hrun Hcols]].
  - unfold labels. simpl. repeat constructor; simpl; intuition discriminate.
  - reflexivity.
  - reflexivity.
  - repeat constructor. lia.
  - destruct (Hcols 2 (or_introl eq_refl)) as [emas [Hget [_ [Hhd Hrec]]]].
    exists df', emas. split; [exact Hrun|]. split; [exact Hget|].
    split; [exact Hhd|].
    rewrite (Hrec 0%nat) by (simpl; lia).
    destruct emas as [|e0 emas]; [discriminate Hhd|].
    injection Hhd as ->. reflexivity.
Defined.

End Indicators.

(** ** The schema check of [fetch] *)

Section Fetch.

Lemma append_assoc (a b c : string) : (a ++ b) ++ c = a ++ (b ++ c).
Proof. induction a as [|x a IH]; simpl; [reflexivity | now rewrite IH]. Qed.

Lemma append_nil_r (a : string) : a ++ "" = a.
Proof. induction a as [|x a IH]; simpl; [reflexivity | now rewrite IH]. Qed.

Lemma occurs_append_l (sub a b : string) : Py.occurs sub a -> Py.occurs sub (a ++ b).
Proof.
  intros [p [q ->]]. exists p, (q ++ b). now rewrite !append_assoc.
Qed.

Lemma occurs_append_r (sub a b : string) : Py.occurs sub b -> Py.occurs sub (a ++ b).
Proof.
  intros [p [q ->]]. exists (a ++ p), q. now rewrite !append_assoc.
Qed.

Lemma occurs_concat (sep x : string) (l : list string) :
  In x l -> Py.occurs x (String.concat sep l).
Proof.
  induction l as [|y l IH]; intros Hin; [contradiction|].
  destruct Hin as [->|Hin].
  - destruct l as [|z l]; simpl.
    + exists "", "". simpl. now rewrite append_nil_r.
    + exists "", (sep ++ String.concat sep (z :: l)). reflexivity.
  - destruct l as [|z l]; [contradiction|].
    change (String.concat sep (y :: z :: l))
      with (y ++ sep ++ String.concat sep (z :: l)).
    apply occurs_append_r, occurs_append_r, IH, Hin.
Qed.

Lemma occurs_repr_list (x : string) (l : list string) :
  In x l -> Py.occurs (Py.repr_str x) (Py.repr_list l).
Proof.
  intros Hin. unfold Py.repr_list.
  apply occurs_append_r, occurs_append_l, occurs_concat, in_map, Hin.
Qed.

Lemma missing_of_In (c : string) (cols : list string) :
  In c (missing_of cols) <-> In c required /\ ~ In c cols.
Proof.
  unfold missing_of. rewrite filter_In, negb_true_iff, <- not_true_iff_false, mem_In.
  reflexivity.
Qed.

Lemma fetch_checked (raw : RawFrame) (sym : string) (cols : list string) :
  index raw <> [] -> normalized_labels raw = Ok cols ->
  fetch (Ok (Some raw)) sym =
  match missing_of cols with
  | [] =>
      match reset_index raw with
      | Ok r =>
          let df := mkDf (List.length (index raw)) (select required (combine cols (snd r))) in
          Ok (setitem "symbol" (repeat (VStr (Py.upper sym)) (nrows df)) df)
      | Raise e => Raise e
      end
  | _ :: _ => Raise (KeyError (missing_message (missing_of cols) cols))
  end.
Proof.
  intros Hidx Hnorm. unfold fetch, normalized_labels in *. cbn [bind] in *.
  destruct (index raw) as [|i0 idx] eqn:Ei; [contradiction|]. cbn [List.length Nat.eqb].
  destruct (reset_index raw) as [r|e]; cbn [bind] in *; [|discriminate].
  injection Hnorm as <-.
  destruct (missing_of _); reflexivity.
Qed.

(** C5: for a download with rows whose labels normalise to [cols], [fetch]
    raises the schema error exactly when a required label is missing from
    [cols]; its message is the list of the missing labels followed by the
    list of all labels, so each of them Py.occurs in it; a required label that
    is not among [cols], "close" in particular, is among those reported. *)
Theorem fetch_schema_error (raw : RawFrame) (sym : string) (cols : list string) :
  index raw <> [] ->
  normalized_labels raw = Ok cols ->
  ((exists msg, fetch (Ok (Some raw)) sym = Raise (KeyError msg))
   <-> exists c, In c required /\ ~ In c cols)
  /\ ((forall c, In c required -> In c cols) ->
      exists df, fetch (Ok (Some raw)) sym = Ok df)
  /\ (forall msg, fetch (Ok (Some raw)) sym = Raise (KeyError msg) ->
        msg = "Missing expected columns: " ++ Py.repr_list (missing_of cols)
              ++ ". Got columns: " ++ Py.repr_list cols
        /\ (forall c, In c required -> ~ In c cols -> Py.occurs (Py.repr_str c) msg)
        /\ (forall c, In c cols -> Py.occurs (Py.repr_str c) msg))
  /\ (~ In "close" cols ->
      In "close" (missing_of cols)
      /\ fetch (Ok (Some raw)) sym
         = Raise (KeyError (missing_message (missing_of cols) cols))).
Proof.
  intros Hidx Hnorm. pose proof (fetch_checked raw sym cols Hidx Hnorm) as Hf.
  assert (Hreset : exists r, reset_index raw = Ok r).
  { unfold normalized_labels in Hnorm. destruct (reset_index raw) as [r|e]; [|discriminate].
    now exists r. }
  destruct Hreset as [r Hr]. rewrite Hr in Hf.
  split; [|split; [|split]].
  - split.
    + intros [msg Hmsg]. rewrite Hf in Hmsg.
      destruct (missing_of cols) as [|c m] eqn:Em; [discriminate|].
      exists c. apply missing_of_In. rewrite Em. now left.
    + intros [c Hc]. apply missing_of_In in Hc.
      destruct (missing_of cols) as [|c' m] eqn:Em; [contradiction|].
      eexists. exact Hf.
  - intros Hall. destruct (missing_of cols) as [|c m] eqn:Em.
    + eexists. exact Hf.
    + exfalso. assert (Hc : In c (missing_of cols)) by (rewrite Em; now left).
      apply missing_of_In in Hc as [Hreq Hnot]. apply Hnot, Hall, Hreq.
  - intros msg Hmsg. rewrite Hf in Hmsg.
    destruct (missing_of cols) as [|c m] eqn:Em; [discriminate|].
    injection Hmsg as <-. unfold missing_message. split; [reflexivity|]. split.
    + intros c' Hreq Hnot. apply occurs_append_r, occurs_append_l.
      rewrite <- Em. apply occurs_repr_list, missing_of_In. now split.
    + intros c' Hin. apply occurs_append_r, occurs_append_r, occurs_append_r.
      now apply occurs_repr_list.
  - intros Hclose.
    assert (Hin : In "close" (missing_of cols)).
    { apply missing_of_In. split; [|assumption]. unfold required. simpl. tauto. }
    split; [exact Hin|]. destruct (missing_of cols); [contradiction|exact Hf].
Qed.

Lemma fetch_schema_error_witness :
  fetch (Ok (Some Sample.raw_without_close)) "abc"
  = Raise (KeyError
      "Missing expected columns: ['close']. Got columns: ['dt', 'open', 'high', 'low', 'volume']").
Proof.
  destruct (fetch_schema_error Sample.raw_without_close "abc"
              ["dt"; "open"; "high"; "low"; "volume"])
    as [_ [_ [_ Hclose]]].
  - discriminate.
  - reflexivity.
  - destruct Hclose as [_ Hraise].
    + simpl. intuition discriminate.
    + rewrite Hraise. reflexivity.
Defined.

End Fetch.

(** ** The run of [main] *)

Section Run.

Variable download : string -> result (option RawFrame).
Variable db_fault : string -> fault.

Lemma handled_app (l1 l2 : list event) :
  handled (l1 ++ l2) = (handled l1 ++ handled l2)%list.
Proof. unfold handled. now rewrite filter_app, map_app. Qed.

Lemma main_body_spec (sym : string) (db : Db) (log : list event) :
  (forall d, fetch (download sym) sym = Ok d -> df_empty d = false ->
             exists d', add_emas d EMA_WINDOWS = Ok d') ->
  exists db' evs,
    main_body download db_fault sym (db, log) = Ok (db', (log ++ evs)%list)
    /\ handled evs = [sym]
    /\ Forall (agrees download) evs
    /\ (forall d, fetch (download sym) sym = Ok d -> df_empty d = false ->
          In (Connecting sym) evs).
Proof.
  intros Hema. unfold main_body.
  destruct (fetch (download sym) sym) as [d|e] eqn:Ef.
  - destruct (df_empty d) eqn:Ee.
    + exists db, [NoData sym]. split; [reflexivity|]. split; [reflexivity|]. split.
      * constructor; [|constructor]. simpl. now exists d.
      * intros d0 Hd0 Hne. injection Hd0 as <-. congruence.
    + destruct (Hema d eq_refl Ee) as [d' Hd']. rewrite Hd'. cbn [bind].
      assert (Ha : exists d0, fetch (download sym) sym = Ok d0 /\ df_empty d0 = false)
        by now exists d.
      destruct (upsert_duckdb (db_fault sym) db d') as [[u|e] db'].
      * exists db', [Connecting sym; Upserted sym (nrows d')].
        split; [reflexivity|]. split; [reflexivity|]. split.
        -- repeat constructor; assumption.
        -- intros; now left.
      * exists db', [Connecting sym; UpsertFailed sym e].
        split; [reflexivity|]. split; [reflexivity|]. split.
        -- repeat constructor; assumption.
        -- intros; now left.
  - exists db, [FetchFailed sym e]. split; [reflexivity|]. split; [reflexivity|]. split.
    + constructor; [exact Ef|constructor].
    + intros d Hd. discriminate.
Qed.

Lemma main_loop_spec (tickers : list string) :
  (forall sym d, In sym tickers -> fetch (download sym) sym = Ok d ->
                 df_empty d = false -> exists d', add_emas d EMA_WINDOWS = Ok d') ->
  forall db log,
  exists db' evs,
    main_loop download db_fault tickers (db, log) = Ok (db', (log ++ evs)%list)
    /\ handled evs = tickers
    /\ Forall (agrees download) evs
    /\ (forall sym d, In sym tickers -> fetch (download sym) sym = Ok d ->
          df_empty d = false -> In (Connecting sym) evs).
Proof.
  induction tickers as [|sym rest IH]; intros Hema db log.
  - exists db, []. simpl. rewrite List.app_nil_r.
    split; [reflexivity|]. split; [reflexivity|]. split; [constructor|].
    intros s d [].
  - destruct (main_body_spec sym db log) as [db1 [evs1 [Hb [Hh1 [Ha1 Hc1]]]]].
    { intros d. apply Hema. now left. }
    destruct (IH (fun s d Hin => Hema s d (or_intror Hin)) db1 (log ++ evs1)%list)
      as [db2 [evs2 [Hl [Hh2 [Ha2 Hc2]]]]].
    exists db2, (evs1 ++ evs2)%list. split; [|split; [|split]].
    + cbn [main_loop]. rewrite Hb. cbn [bind]. rewrite Hl. now rewrite <- app_assoc.
    + rewrite handled_app, Hh1, Hh2. reflexivity.
    + apply Forall_app. now split.
    + intros s d [<-|Hin] Hf Hne; apply in_or_app.
      * left. now apply (Hc1 d).
      * right. now apply (Hc2 s d).
Qed.

Lemma handled_In (sym : string) (log : list event) :
  In sym (handled log) ->
  exists ev, In ev log /\ is_outcome ev = true /\ event_symbol ev = sym.
Proof.
  unfold handled. rewrite in_map_iff. intros [ev [Hs Hin]].
  apply filter_In in Hin as [Hin Ho]. now exists ev.
Qed.

(** X23: if the indicator step does not raise on what was fetched, [main]
    runs to its end whatever the downloads and the store do, and closes the
    turn of every ticker, once and in order. A ticker whose fetch raised is
    logged as such; a ticker whose fetch gave no rows is logged as skipped,
    is never connected for and is no failure; for any other ticker the
    store was tried. A turn on a frame without rows leaves the store as it
    was, and a download that is absent or has no rows is such a frame. *)
Theorem main_isolates_failures (TICKERS : list string) (db : Db) :
  (forall sym d, In sym TICKERS -> fetch (download sym) sym = Ok d ->
                 df_empty d = false -> exists d', add_emas d EMA_WINDOWS = Ok d') ->
  exists db' log,
    main download db_fault TICKERS db = Ok (db', log)
    /\ handled log = TICKERS
    /\ (forall sym e, In sym TICKERS -> fetch (download sym) sym = Raise e ->
          In (FetchFailed sym e) log)
    /\ (forall sym d, In sym TICKERS -> fetch (download sym) sym = Ok d ->
          df_empty d = true ->
          In (NoData sym) log
          /\ ~ In (Connecting sym) log
          /\ (forall e, ~ In (FetchFailed sym e) log)
          /\ (forall e, ~ In (UpsertFailed sym e) log))
    /\ (forall sym d, In sym TICKERS -> fetch (download sym) sym = Ok d ->
          df_empty d = false -> In (Connecting sym) log)
    /\ (forall sym d st, fetch (download sym) sym = Ok d -> df_empty d = true ->
          main_body download db_fault sym st
          = Ok (fst st, (snd st ++ [NoData sym])%list))
    /\ (forall sym raw,
          download sym = Ok None
          \/ (download sym = Ok (Some raw) /\ index raw = []) ->
          fetch (download sym) sym = Ok empty_fetch /\ df_empty empty_fetch = true).
Proof.
  intros Hema.
  destruct (main_loop_spec TICKERS Hema db []) as [db' [log [Hrun [Hh [Ha Hconn]]]]].
  exists db', log. rewrite Forall_forall in Ha.
  assert (Hev : forall sym, In sym TICKERS ->
            exists ev, In ev log /\ is_outcome ev = true /\ event_symbol ev = sym).
  { intros sym Hin. apply handled_In. now rewrite Hh. }
  assert (Hfull : forall sym d ev, fetch (download sym) sym = Ok d ->
            df_empty d = true -> In ev log ->
            ev <> Connecting sym
            /\ (forall n, ev <> Upserted sym n)
            /\ (forall e, ev <> UpsertFailed sym e)
            /\ (forall e, ev <> FetchFailed sym e)).
  { intros sym d ev Hf He Hlog. specialize (Ha ev Hlog).
    repeat split; intros; intros ->; simpl in Ha.
    1-3: destruct Ha as [d0 [Hd Hne]]; rewrite Hf in Hd; injection Hd as <-; congruence.
    rewrite Hf in Ha. discriminate. }
  split; [exact Hrun|]. split; [exact Hh|]. split; [|split; [|split; [|split]]].
  - intros sym e Hin Hf. destruct (Hev sym Hin) as [ev [Hlog [Ho Hsym]]].
    specialize (Ha ev Hlog).
    destruct ev as [s e'|s|s|s n|s e']; simpl in Hsym, Ha; subst s.
    + rewrite Hf in Ha. injection Ha as <-. exact Hlog.
    + destruct Ha as [d [Hd _]]. rewrite Hf in Hd. discriminate.
    + discriminate Ho.
    + destruct Ha as [d [Hd _]]. rewrite Hf in Hd. discriminate.
    + destruct Ha as [d [Hd _]]. rewrite Hf in Hd. discriminate.
  - intros sym d Hin Hf He. split; [|split; [|split]].
    + destruct (Hev sym Hin) as [ev [Hlog [Ho Hsym]]].
      destruct (Hfull sym d ev Hf He Hlog) as [_ [Hu [Huf Hff]]].
      destruct ev as [s e'|s|s|s n|s e']; simpl in Hsym; subst s.
      * now destruct (Hff e').
      * exact Hlog.
      * discriminate Ho.
      * now destruct (Hu n).
      * now destruct (Huf e').
    + intros Hlog. now destruct (Hfull sym d _ Hf He Hlog) as [Hx _].
    + intros e Hlog. destruct (Hfull sym d _ Hf He Hlog) as [_ [_ [_ Hx]]].
      now destruct (Hx e).
    + intros e Hlog. destruct (Hfull sym d _ Hf He Hlog) as [_ [_ [Hx _]]].
      now destruct (Hx e).
  - exact Hconn.
  - intros sym d [db0 log0] Hf He. unfold main_body. rewrite Hf, He. reflexivity.
  - intros sym raw [Hd|[Hd Hi]]; rewrite Hd; unfold fetch; cbn [bind];
      [|rewrite Hi]; split; reflexivity.
Qed.

End Run.

Lemma main_isolates_failures_witness :
  exists db' log,
    main Sample.world_download Sample.world_fault ["BAD"; "DEL"; "ERR"; "ABC"] None
    = Ok (db', log)
    /\ handled log = ["BAD"; "DEL"; "ERR"; "ABC"]
    /\ In (NoData "DEL") log
    /\ ~ In (Connecting "DEL") log.
Proof.
  destruct (main_isolates_failures Sample.world_download Sample.world_fault
              ["BAD"; "DEL"; "ERR"; "ABC"] None)
    as [db' [log [Hrun [Hh [_ [Hskip _]]]]]].
  - intros sym d [<-|[<-|[<-|[<-|[]]]]] Hf Hne;
      vm_compute in Hf; try discriminate Hf;
      injection Hf as <-; eexists; vm_compute; reflexivity.
  - exists db', log. split; [exact Hrun|]. split; [exact Hh|].
    destruct (Hskip "DEL" empty_fetch) as [Hn [Hc _]].
    + simpl. tauto.
    + reflexivity.
    + reflexivity.
    + split; assumption.
Defined.

(** C6, the code against the claim: [add_emas] is called outside both [try]
    blocks, so its exception ends the run. With the tickers "SPY QQQ" and
    "ABC", where the first download has two close columns, [main] raises
    while handling the first entry and "ABC" is never fetched, although
    "ABC" on its own is fetched and upserted. *)
Theorem main_aborts_on_indicator_error :
  (exists d e, fetch (More.two_ticker_download "SPY QQQ") "SPY QQQ" = Ok d
               /\ df_empty d = false
               /\ add_emas d EMA_WINDOWS = Raise e)
  /\ (exists e, main More.two_ticker_download More.no_fault ["SPY QQQ"; "ABC"] None
                = Raise e)
  /\ (exists stored,
        main More.two_ticker_download More.no_fault ["ABC"] None
        = Ok (Some stored, [Connecting "ABC"; Upserted "ABC" 3])).
Proof.
  split; [|split].
  - eexists. eexists. split; [reflexivity|]. split; reflexivity.
  - eexists. reflexivity.
  - eexists. reflexivity.
Qed.

(** ** The period of [_load] *)

Import Api.

Section Strings.

Lemma length_append (a b : string) :
  String.length (a ++ b) = (String.length a + String.length b)%nat.
Proof. induction a as [|c a IH]; simpl; [reflexivity | now rewrite IH]. Qed.

Lemma prefix_append (a b : string) : prefix a (a ++ b) = true.
Proof.
  induction a as [|c a IH]; simpl; [now destruct b|].
  destruct (ascii_dec c c) as [_|N]; [exact IH | now destruct N].
Qed.

Lemma substring_append (a b : string) :
  substring 0 (String.length a) (a ++ b) = a.
Proof.
  induction a as [|c a IH]; simpl; [now destruct b | now rewrite IH].
Qed.

Lemma str_rev_onto_spec (s acc : string) :
  Py.str_rev_onto acc s = Py.str_rev s ++ acc.
Proof.
  unfold Py.str_rev. revert acc.
  induction s as [|c s IH]; intros acc; simpl; [reflexivity|].
  rewrite (IH (String c acc)), (IH (String c EmptyString)), append_assoc.
  reflexivity.
Qed.

Lemma str_rev_append (a b : string) :
  Py.str_rev (a ++ b) = Py.str_rev b ++ Py.str_rev a.
Proof.
  induction a as [|c a IH].
  - simpl. now rewrite append_nil_r.
  - unfold Py.str_rev in *. simpl.
    rewrite (str_rev_onto_spec (a ++ b)), (str_rev_onto_spec a).
    unfold Py.str_rev. rewrite IH, append_assoc. reflexivity.
Qed.

Lemma str_rev_involutive (s : string) : Py.str_rev (Py.str_rev s) = s.
Proof.
  induction s as [|c s IH]; [reflexivity|].
  change (String c s) with (String c EmptyString ++ s) at 1.
  rewrite str_rev_append, str_rev_append, IH. reflexivity.
Qed.

Lemma all_chars_append (p : ascii -> bool) (a b : string) :
  Py.all_chars p (a ++ b) = Py.all_chars p a && Py.all_chars p b.
Proof.
  induction a as [|c a IH]; simpl; [reflexivity|].
  now rewrite IH, andb_assoc.
Qed.

Lemma all_chars_rev (p : ascii -> bool) (s : string) :
  Py.all_chars p (Py.str_rev s) = Py.all_chars p s.
Proof.
  induction s as [|c s IH]; [reflexivity|].
  change (String c s) with (String c EmptyString ++ s) at 1.
  rewrite str_rev_append, all_chars_append, IH. simpl.
  rewrite andb_true_r. apply andb_comm.
Qed.

Lemma all_chars_impl (p q : ascii -> bool) (s : string) :
  (forall c, p c = true -> q c = true) ->
  Py.all_chars p s = true -> Py.all_chars q s = true.
Proof.
  intros Hpq. induction s as [|c s IH]; simpl; [reflexivity|].
  rewrite !andb_true_iff. intros [Hc Hs]. split; [now apply Hpq | now apply IH].
Qed.

Lemma lstrip_clean (s : string) :
  Py.all_chars Py.not_space s = true -> Py.lstrip s = s.
Proof.
  destruct s as [|c s]; simpl; [reflexivity|].
  unfold Py.not_space at 1. rewrite andb_true_iff, negb_true_iff.
  now intros [-> _].
Qed.

Lemma strip_clean (s : string) :
  Py.all_chars Py.not_space s = true -> Py.strip s = s.
Proof.
  intros H. unfold Py.strip, Py.rstrip. rewrite (lstrip_clean s H).
  rewrite lstrip_clean by now rewrite all_chars_rev.
  apply str_rev_involutive.
Qed.

Lemma int_space_is_space (c : ascii) :
  Py.is_int_space c = true -> Py.is_space c = true.
Proof.
  unfold Py.is_int_space, Py.is_space, Py.in_range.
  rewrite !orb_true_iff, !andb_true_iff, !Z.leb_le. lia.
Qed.

Lemma skip_space_clean (s : string) :
  Py.all_chars Py.not_space s = true -> Py.skip_space s = s.
Proof.
  destruct s as [|c s]; simpl; [reflexivity|].
  unfold Py.not_space at 1. rewrite andb_true_iff, negb_true_iff.
  intros [Hc _]. destruct (Py.is_int_space c) eqn:E; [|reflexivity].
  apply int_space_is_space in E. congruence.
Qed.

Lemma int_strip_clean (s : string) :
  Py.all_chars Py.not_space s = true -> Py.int_strip s = s.
Proof.
  intros H. unfold Py.int_strip. rewrite (skip_space_clean s H).
  rewrite skip_space_clean by now rewrite all_chars_rev.
  apply str_rev_involutive.
Qed.

Lemma lower_clean (s : string) :
  Py.all_chars Py.lower_fixed s = true -> Py.lower s = s.
Proof.
  unfold Py.lower. induction s as [|c s IH]; simpl; [reflexivity|].
  unfold Py.lower_fixed at 1. rewrite andb_true_iff, Ascii.eqb_eq.
  intros [-> Hs]. now rewrite IH.
Qed.

Lemma digit_not_space (c : ascii) : Py.is_digit c = true -> Py.not_space c = true.
Proof.
  unfold Py.is_digit, Py.not_space, Py.is_space, Py.in_range.
  rewrite andb_true_iff, negb_true_iff, orb_false_iff, !andb_false_iff, !Z.leb_le, !Z.leb_gt.
  lia.
Qed.

Lemma digit_lower_fixed (c : ascii) : Py.is_digit c = true -> Py.lower_fixed c = true.
Proof.
  unfold Py.is_digit, Py.lower_fixed, Py.lower_char, Py.in_range.
  rewrite andb_true_iff, !Z.leb_le. intros [H1 H2].
  destruct (Z.leb_spec 65 (Py.code c)) as [H|_]; [lia|]. simpl.
  apply Ascii.eqb_refl.
Qed.

(** Decimal numerals *)

Local Abbreviation su := DecimalString.NilEmpty.string_of_uint.

Lemma su_digits (d : Decimal.uint) : Py.all_chars Py.is_digit (su d) = true.
Proof. induction d; simpl; [reflexivity | assumption ..]. Qed.

Lemma count_digits_all (s : string) :
  Py.all_chars Py.is_digit s = true -> Py.count_digits s = String.length s.
Proof.
  induction s as [|c s IH]; simpl; [reflexivity|].
  rewrite andb_true_iff. intros [-> Hs]. now rewrite IH.
Qed.

Lemma int_digits_pos (d : Decimal.uint) :
  forall (a : positive) (b : bool),
    Py.int_digits (Z.pos a) true (su d) = Some (Z.pos (Pos.of_uint_acc d a)).
Proof.
  induction d; intros a b; [reflexivity | ..];
    cbn [su Pos.of_uint_acc];
    match goal with
    | |- Py.int_digits _ _ (String ?c _) = _ =>
        change (Py.int_digits (Z.pos a) true (String c (su d)))
          with (Py.int_digits (10 * Z.pos a + Py.digit_val c) true (su d))
    end;
    rewrite <- (IHd _ true); f_equal;
    match goal with
    | |- context [Py.digit_val ?c] =>
        let v := eval vm_compute in (Py.digit_val c) in
        change (Py.digit_val c) with v
    end; lia.
Qed.

Lemma int_digits_zero (d : Decimal.uint) (b : bool) :
  d <> Decimal.Nil \/ b = true ->
  Py.int_digits 0 b (su d) = Some (Z.of_N (Pos.of_uint d)).
Proof.
  revert b. induction d; intros b Hb.
  - destruct Hb as [Hb| ->]; [now destruct Hb | reflexivity].
  - cbn [su Pos.of_uint].
    change (Py.int_digits 0 b (String "0" (su d)))
      with (Py.int_digits 0 true (su d)).
    apply IHd. now right.
  - apply (int_digits_pos d 1 true).
  - apply (int_digits_pos d 2 true).
  - apply (int_digits_pos d 3 true).
  - apply (int_digits_pos d 4 true).
  - apply (int_digits_pos d 5 true).
  - apply (int_digits_pos d 6 true).
  - apply (int_digits_pos d 7 true).
  - apply (int_digits_pos d 8 true).
  - apply (int_digits_pos d 9 true).
Qed.

(** [str(n)] for a natural [n]: a numeral that [int] reads back. *)
Lemma str_of_int_numeral (n : Z) :
  0 <= n ->
  exists d, d <> Decimal.Nil /\ Py.str_of_int n = su d /\ Z.of_N (Pos.of_uint d) = n.
Proof.
  intros Hn. unfold Py.str_of_int. destruct n as [|p|p]; [| |lia].
  - exists (Decimal.D0 Decimal.Nil). repeat split. discriminate.
  - exists (Pos.to_uint p). split; [apply DecimalPos.Unsigned.to_uint_nonnil|].
    split.
    + simpl. unfold DecimalString.NilZero.string_of_uint.
      pose proof (DecimalPos.Unsigned.to_uint_nonnil p) as Hnn.
      now destruct (Pos.to_uint p).
    + now rewrite DecimalPos.Unsigned.of_to.
Qed.

Lemma su_nonempty (d : Decimal.uint) :
  d <> Decimal.Nil -> exists c r, su d = String c r /\ Py.is_digit c = true.
Proof.
  destruct d; intros H; [now destruct H | ..]; simpl; eexists; eexists; split; reflexivity.
Qed.

(** [int] reads a clean numeral of at most 4300 digits. *)
Lemma int_numeral (d : Decimal.uint) :
  d <> Decimal.Nil -> (String.length (su d) <= Py.int_max_str_digits)%nat ->
  Py.int (su d) = Ok (Z.of_N (Pos.of_uint d)).
Proof.
  intros Hd Hlen. unfold Py.int.
  rewrite int_strip_clean
    by (apply (all_chars_impl Py.is_digit); [apply digit_not_space | apply su_digits]).
  destruct (su_nonempty d Hd) as [c [r [E Hc]]].
  assert (Hsign : (let '(neg, body) :=
                     match su d with
                     | String "-" r => (true, r)
                     | String "+" r => (false, r)
                     | _ => (false, su d)
                     end in (neg, body)) = (false, su d)).
  { rewrite E.
    destruct c as [[] [] [] [] [] [] [] []]; try reflexivity; discriminate Hc. }
  revert Hsign.
  destruct (match su d with
            | String "-" r => (true, r)
            | String "+" r => (false, r)
            | _ => (false, su d)
            end) as [neg body].
  intros [= -> ->].
  rewrite int_digits_zero by now left.
  rewrite count_digits_all by apply su_digits.
  destruct (Nat.ltb_spec Py.int_max_str_digits (String.length (su d))) as [H|_]; [lia|].
  reflexivity.
Qed.

End Strings.

Section Period.

Local Abbreviation su := DecimalString.NilEmpty.string_of_uint.

(** A numeral followed by a unit passes [strip] and [lower] unchanged. *)
Lemma numeral_unit_clean (d : Decimal.uint) (u : string) :
  d <> Decimal.Nil ->
  Py.all_chars Py.not_space u = true -> Py.all_chars Py.lower_fixed u = true ->
  Py.lower (Py.strip (or_else (Some (su d ++ u)) "6mo")) = su d ++ u.
Proof.
  intros Hd Hns Hlf.
  assert (Hor : or_else (Some (su d ++ u)) "6mo" = su d ++ u).
  { destruct (su_nonempty d Hd) as [c [r [E _]]]. rewrite E. reflexivity. }
  rewrite Hor, strip_clean, lower_clean; [reflexivity | |];
    rewrite all_chars_append, andb_true_iff; split; try assumption.
  - apply (all_chars_impl Py.is_digit); [apply digit_lower_fixed | apply su_digits].
  - apply (all_chars_impl Py.is_digit); [apply digit_not_space | apply su_digits].
Qed.

Lemma endswith_append (a suf : string) : Py.endswith (a ++ suf) suf = true.
Proof. unfold Py.endswith. rewrite str_rev_append. apply prefix_append. Qed.

Lemma drop_last_append (a suf : string) :
  Py.drop_last (String.length suf) (a ++ suf) = a.
Proof.
  unfold Py.drop_last. rewrite length_append, Nat.add_sub. apply substring_append.
Qed.

Lemma parse_numeral (d : Decimal.uint) :
  d <> Decimal.Nil -> (String.length (su d) <= Py.int_max_str_digits)%nat ->
  parse_period (Some (su d ++ "mo")) = Ok (Z.of_N (Pos.of_uint d), Mo)
  /\ parse_period (Some (su d ++ "y")) = Ok (Z.of_N (Pos.of_uint d), Yr)
  /\ parse_period (Some (su d ++ "yr")) = Ok (Z.of_N (Pos.of_uint d), Yr).
Proof.
  intros Hd Hlen. unfold parse_period.
  rewrite !numeral_unit_clean by (assumption || reflexivity).
  split; [|split].
  - rewrite endswith_append.
    replace (Py.drop_last 2 (su d ++ "mo")) with (su d)
      by (symmetry; apply (drop_last_append (su d) "mo")).
    rewrite int_numeral by assumption. reflexivity.
  - assert (Hmo : Py.endswith (su d ++ "y") "mo" = false)
      by (unfold Py.endswith; rewrite str_rev_append; reflexivity).
    assert (Hyr : Py.endswith (su d ++ "y") "yr" = false)
      by (unfold Py.endswith; rewrite str_rev_append; reflexivity).
    rewrite Hmo, Hyr, endswith_append. cbn [orb].
    replace (Py.drop_last 1 (su d ++ "y")) with (su d)
      by (symmetry; apply (drop_last_append (su d) "y")).
    rewrite int_numeral by assumption. reflexivity.
  - assert (Hmo : Py.endswith (su d ++ "yr") "mo" = false)
      by (unfold Py.endswith; rewrite str_rev_append; reflexivity).
    rewrite Hmo, endswith_append. cbn [orb].
    replace (Py.drop_last 2 (su d ++ "yr")) with (su d)
      by (symmetry; apply (drop_last_append (su d) "yr")).
    rewrite int_numeral by assumption. reflexivity.
Qed.

(** C7, as stated, fails: "1day" ends in "y", so the text before it goes
    to [int], whose ValueError nothing catches. *)
Lemma parse_period_1day_raises :
  parse_period (Some "1day")
  = Raise (ValueError "invalid literal for int() with base 10: '1da'").
Proof. reflexivity. Qed.

(** C7 (amended): a natural number written in decimal (at most 4300
    digits) and followed by "mo", "y" or "yr" is read as that many months
    or years; a period that is absent or empty, or that after [strip] and
    [lower] ends in none of the three units, is read as 6 months; a period
    that ends in a unit gives whatever [int] gives on the text before the
    unit, its ValueError included. *)
Theorem parse_period_spec (n : Z) (p : string) :
  (0 <= n -> (String.length (Py.str_of_int n) <= 4300)%nat ->
     parse_period (Some (Py.str_of_int n ++ "mo")) = Ok (n, Mo)
     /\ parse_period (Some (Py.str_of_int n ++ "y")) = Ok (n, Yr)
     /\ parse_period (Some (Py.str_of_int n ++ "yr")) = Ok (n, Yr))
  /\ parse_period None = Ok (6, Mo)
  /\ parse_period (Some "") = Ok (6, Mo)
  /\ (Py.endswith (Py.lower (Py.strip p)) "mo" = false ->
      Py.endswith (Py.lower (Py.strip p)) "yr" = false ->
      Py.endswith (Py.lower (Py.strip p)) "y" = false ->
      p <> "" -> parse_period (Some p) = Ok (6, Mo))
  /\ (Py.endswith (Py.lower (Py.strip p)) "mo" = true -> p <> "" ->
      parse_period (Some p)
      = (k <- Py.int (Py.drop_last 2 (Py.lower (Py.strip p))) ;; Ok (k, Mo)))
  /\ (Py.endswith (Py.lower (Py.strip p)) "mo" = false ->
      Py.endswith (Py.lower (Py.strip p)) "yr" = true -> p <> "" ->
      parse_period (Some p)
      = (k <- Py.int (Py.drop_last 2 (Py.lower (Py.strip p))) ;; Ok (k, Yr)))
  /\ (Py.endswith (Py.lower (Py.strip p)) "mo" = false ->
      Py.endswith (Py.lower (Py.strip p)) "yr" = false ->
      Py.endswith (Py.lower (Py.strip p)) "y" = true -> p <> "" ->
      parse_period (Some p)
      = (k <- Py.int (Py.drop_last 1 (Py.lower (Py.strip p))) ;; Ok (k, Yr))).
Proof.
  assert (Hor : p <> "" -> or_else (Some p) "6mo" = p).
  { intros Hp. unfold or_else. destruct (String.eqb_spec p ""); [contradiction|reflexivity]. }
  split; [|split; [|split; [|split; [|split; [|split]]]]].
  - intros Hn Hlen. destruct (str_of_int_numeral n Hn) as [d [Hd [E Hv]]].
    rewrite E in *. rewrite <- Hv. now apply parse_numeral.
  - reflexivity.
  - reflexivity.
  - intros Hmo Hyr Hy Hp. unfold parse_period. rewrite (Hor Hp), Hmo, Hyr, Hy. reflexivity.
  - intros Hmo Hp. unfold parse_period. rewrite (Hor Hp), Hmo. reflexivity.
  - intros Hmo Hyr Hp. unfold parse_period. rewrite (Hor Hp), Hmo, Hyr. reflexivity.
  - intros Hmo Hyr Hy Hp. unfold parse_period. rewrite (Hor Hp), Hmo, Hyr, Hy. reflexivity.
Qed.

Lemma parse_period_spec_witness :
  parse_period (Some "18mo") = Ok (18, Mo)
  /\ parse_period (Some "2y") = Ok (2, Yr)
  /\ parse_period (Some "2yr") = Ok (2, Yr)
  /\ parse_period (Some "1 week") = Ok (6, Mo).
Proof.
  destruct (parse_period_spec 18 "1 week") as [Hmo [_ [_ [Hdefault _]]]].
  destruct (parse_period_spec 2 "1 week") as [Hy _].
  destruct (Hmo ltac:(lia) ltac:(vm_compute; lia)) as [H1 _].
  destruct (Hy ltac:(lia) ltac:(vm_compute; lia)) as [_ [H2 H3]].
  split; [exact H1|]. split; [exact H2|]. split; [exact H3|].
  apply Hdefault; reflexivity || discriminate.
Defined.

End Period.

(** ** The window of [_load] *)

Section Window.

Lemma ts_leb_refl (a : Timestamp) : ts_leb a a = true.
Proof. unfold ts_leb. rewrite !Z.eqb_refl. apply Z.leb_refl. Qed.

Lemma ts_leb_trans (a b c : Timestamp) :
  ts_leb a b = true -> ts_leb b c = true -> ts_leb a c = true.
Proof.
  unfold ts_leb.
  destruct (Z.eqb_spec (ts_year a) (ts_year b)), (Z.eqb_spec (ts_year b) (ts_year c)),
           (Z.eqb_spec (ts_year a) (ts_year c)),
           (Z.eqb_spec (ts_month a) (ts_month b)), (Z.eqb_spec (ts_month b) (ts_month c)),
           (Z.eqb_spec (ts_month a) (ts_month c)),
           (Z.eqb_spec (ts_day a) (ts_day b)), (Z.eqb_spec (ts_day b) (ts_day c)),
           (Z.eqb_spec (ts_day a) (ts_day c));
    rewrite ?Z.leb_le, ?Z.ltb_lt; lia.
Qed.

Lemma ts_leb_antisym (a b : Timestamp) :
  ts_leb a b = true -> ts_leb b a = true -> a = b.
Proof.
  unfold ts_leb. destruct a as [ya ma da ta], b as [yb mb db tb]. cbn [ts_year ts_month ts_day ts_tod].
  destruct (Z.eqb_spec ya yb), (Z.eqb_spec yb ya),
           (Z.eqb_spec ma mb), (Z.eqb_spec mb ma),
           (Z.eqb_spec da db), (Z.eqb_spec db da);
    rewrite ?Z.leb_le, ?Z.ltb_lt; intros; try lia.
  f_equal; lia.
Qed.

Lemma leb_transitive : Transitive (fun a b : Row => is_true (RowOrder.leb a b)).
Proof. intros a b c. unfold RowOrder.leb, is_true. apply ts_leb_trans. Qed.

Lemma max_dt_fold (rest : list Row) :
  forall m : Timestamp,
    let M := fold_left (fun m r => if ts_leb m (dt r) then dt r else m) rest m in
    ts_leb m M = true
    /\ (forall r, In r rest -> ts_leb (dt r) M = true)
    /\ (M = m \/ In M (map dt rest)).
Proof.
  induction rest as [|r rest IH]; intros m; cbn [fold_left].
  - split; [apply ts_leb_refl|]. split; [intros r []|now left].
  - destruct (ts_leb m (dt r)) eqn:E.
    + destruct (IH (dt r)) as [H1 [H2 H3]]. cbv zeta. split; [|split].
      * now apply (ts_leb_trans m (dt r)).
      * intros x [<-|Hx]; [exact H1 | now apply H2].
      * right. destruct H3 as [->|H3]; [now left | now right].
    + destruct (IH m) as [H1 [H2 H3]]. cbv zeta. split; [exact H1|]. split.
      * intros x [<-|Hx]; [|now apply H2].
        apply (ts_leb_trans _ m); [|exact H1].
        destruct (RowOrder.ts_leb_total m (dt r)) as [T|T]; [congruence|exact T].
      * destruct H3 as [H3|H3]; [now left | right; now right].
Qed.

Lemma max_dt_spec (first : Row) (rest : list Row) :
  In (max_dt first rest) (map dt (first :: rest))
  /\ forall r, In r (first :: rest) -> ts_leb (dt r) (max_dt first rest) = true.
Proof.
  unfold max_dt. destruct (max_dt_fold rest (dt first)) as [H1 [H2 H3]]. split.
  - destruct H3 as [->|H3]; [now left | now right].
  - intros r [<-|Hr]; [exact H1 | now apply H2].
Qed.

Lemma Permutation_filter (f : Row -> bool) (l l' : list Row) :
  Permutation l l' -> Permutation (filter f l) (filter f l').
Proof.
  induction 1 as [|x l l' _ IH|x y l|l l' l'' _ IH1 _ IH2]; simpl.
  - constructor.
  - destruct (f x); [now constructor | assumption].
  - destruct (f x), (f y); try reflexivity. constructor.
  - now transitivity (filter f l').
Qed.

Lemma filter_twice (f g : Row -> bool) (l : list Row) :
  filter g (filter f l) = filter (fun r => f r && g r) l.
Proof.
  induction l as [|x l IH]; simpl; [reflexivity|].
  destruct (f x); simpl; [destruct (g x)|]; now rewrite IH.
Qed.

Lemma StronglySorted_filter (R : Row -> Row -> Prop) (f : Row -> bool) (l : list Row) :
  StronglySorted R l -> StronglySorted R (filter f l).
Proof.
  induction 1 as [|x l Hs IH Hall]; simpl; [constructor|].
  destruct (f x); [|assumption]. constructor; [assumption|].
  rewrite Forall_forall in *. intros y Hy. apply Hall.
  now apply filter_In in Hy as [Hy _].
Qed.

(** C4: when the period is read as [n] units and the store answers, a
    symbol without stored rows gets the empty frame, with no error. For a
    symbol with rows, [latest] being their greatest timestamp and [start]
    being [latest] minus the period, the result holds exactly the stored
    rows of the symbol with [start <= dt <= latest], each as often as it is
    stored, in ascending order of [dt]. The wall clock is no input. *)
Theorem load_window (db : Db) (sym : string) (period : option string)
        (n : Z) (u : unit_of_time) :
  parse_period period = Ok (n, u) ->
  let mine := filter (fun r => String.eqb (symbol r) (Py.upper sym)) (Refresh.table_of db) in
  let delta := match u with Yr => Cal.of_years n | Mo => Cal.of_months n end in
  (mine = [] -> snd (_load None db sym period) = Ok [])
  /\ (forall latest start : Timestamp,
        In latest (map dt mine) ->
        (forall r, In r mine -> ts_leb (dt r) latest = true) ->
        Cal.sub latest delta = Ok start ->
        exists rows,
          snd (_load None db sym period) = Ok rows
          /\ Permutation rows
               (filter (fun r => String.eqb (symbol r) (Py.upper sym)
                                 && ts_leb start (dt r) && ts_leb (dt r) latest)
                       (Refresh.table_of db))
          /\ StronglySorted (fun a b => ts_leb (dt a) (dt b) = true) rows).
Proof.
  intros Hparse mine delta.
  assert (Hsel : select_symbol None db (Py.upper sym)
                 = ([Connect; Select (Py.upper sym)], RowSort.sort mine)).
  { unfold select_symbol. cbn [step]. destruct db; reflexivity. }
  unfold _load. rewrite Hparse, Hsel.
  pose proof (RowSort.Permuted_sort mine) as Hperm.
  split.
  - intros Hempty. rewrite Hempty. reflexivity.
  - intros latest start Hin Hmax Hsub.
    destruct (RowSort.sort mine) as [|first rest] eqn:Es.
    { apply Permutation_sym, Permutation_nil in Hperm. rewrite Hperm in Hin.
      contradiction. }
    destruct (max_dt_spec first rest) as [HMin HMmax].
    assert (HM : max_dt first rest = latest).
    { apply ts_leb_antisym.
      - apply in_map_iff in HMin as [r [<- Hr]]. apply Hmax.
        eapply Permutation_in; [apply Permutation_sym, Hperm|exact Hr].
      - apply in_map_iff in Hin as [r [<- Hr]]. apply HMmax.
        eapply Permutation_in; [exact Hperm|exact Hr]. }
    cbn [snd]. rewrite HM. fold delta. rewrite Hsub. cbn [bind].
    eexists. split; [reflexivity|]. split.
    + transitivity (filter (fun r => ts_leb start (dt r)) mine).
      * apply Permutation_filter, Permutation_sym, Hperm.
      * unfold mine. rewrite filter_twice.
        erewrite filter_ext_in; [reflexivity|].
        intros r Hr. cbv beta.
        destruct (String.eqb (symbol r) (Py.upper sym)) eqn:E; [|reflexivity].
        rewrite Hmax; [now rewrite andb_true_r|].
        apply filter_In. now split.
    + rewrite <- Es. apply StronglySorted_filter.
      apply (RowSort.StronglySorted_sort mine leb_transitive).
Qed.

Lemma load_window_witness :
  snd (_load None Sample.store "abc" (Some "3mo"))
  = Ok [ Sample.bar "ABC" (Sample.day 2024 3 30) 10;
         Sample.bar "ABC" (Sample.day 2024 6 30) 12 ]
  /\ Cal.sub (Sample.day 2024 6 30) (Cal.of_months 3) = Ok (Sample.day 2024 3 30).
Proof.
  destruct (load_window Sample.store "abc" (Some "3mo") 3 Mo eq_refl) as [_ H].
  destruct (H (Sample.day 2024 6 30) (Sample.day 2024 3 30)) as [rows [Hrun _]].
  - simpl. tauto.
  - intros r Hr. simpl in Hr. destruct Hr as [<-|[<-|[<-|[<-|[]]]]]; reflexivity.
  - reflexivity.
  - split; [|reflexivity]. rewrite Hrun. clear H. vm_compute in Hrun.
    injection Hrun as <-. reflexivity.
Defined.

End Window.

(** ** The endpoints *)

Section Endpoints.

Lemma int_raises_value_error (s : string) (e : exn) :
  Py.int s = Raise e -> exists msg, e = ValueError msg.
Proof.
  unfold Py.int.
  destruct (match Py.int_strip s with
            | String "-" r => (true, r)
            | String "+" r => (false, r)
            | _ => (false, Py.int_strip s)
            end) as [neg body].
  destruct (Py.int_digits 0 false body); [destruct (_ <? _)%nat|];
    intros [= <-]; eexists; reflexivity.
Qed.

Lemma parse_period_raises_value_error (period : option string) (e : exn) :
  parse_period period = Raise e -> exists msg, e = ValueError msg.
Proof.
  unfold parse_period.
  destruct (Py.endswith _ "mo").
  - destruct (Py.int _) eqn:E; cbn [bind]; [intros [=]|].
    intros [= <-]. eapply int_raises_value_error, E.
  - destruct (_ || _); [|intros [=]].
    destruct (Py.int _) eqn:E; cbn [bind]; [intros [=]|].
    intros [= <-]. eapply int_raises_value_error, E.
Qed.

Lemma sub_raises_value_error (t : Timestamp) (rd : Cal.relativedelta) (e : exn) :
  Cal.sub t rd = Raise e -> exists msg, e = ValueError msg.
Proof.
  unfold Cal.sub, Cal.add.
  destruct (if Cal.months (Cal.neg rd) =? 0 then _ else _) as [y m].
  destruct (_ || _); [|intros [=]]. intros [= <-]. eexists; reflexivity.
Qed.

Lemma load_raises_value_error (flt : fault) (db : Db) (sym : string)
      (period : option string) (e : exn) :
  snd (_load flt db sym period) = Raise e -> exists msg, e = ValueError msg.
Proof.
  unfold _load. destruct (parse_period period) as [[n u]|e'] eqn:Ep.
  - destruct (select_symbol flt db (Py.upper sym)) as [acc [|first rest]];
      cbn [snd]; [intros [=]|].
    destruct (Cal.sub _ _) eqn:Es; cbn [bind]; [intros [=]|].
    intros [= <-]. eapply sub_raises_value_error, Es.
  - cbn [snd]. intros [= <-]. eapply parse_period_raises_value_error, Ep.
Qed.

Lemma load_accesses (flt : fault) (db : Db) (sym : string) (period : option string) :
  fst (_load flt db sym period) = [] -> exists e, parse_period period = Raise e.
Proof.
  unfold _load. destruct (parse_period period) as [[n u]|e]; [|now exists e].
  unfold select_symbol.
  destruct (step flt 0); [destruct (step flt 1), db|]; cbv beta iota zeta;
    try destruct (RowSort.sort _); cbn [fst]; intros H; discriminate H.
Qed.

Lemma select_symbol_failed (flt : fault) (db : Db) (sym : string) :
  flt = Some 0%nat \/ flt = Some 1%nat \/ db = None ->
  snd (select_symbol flt db sym) = [].
Proof.
  unfold select_symbol. intros [ -> | [ -> | -> ] ]; try reflexivity.
  destruct (step flt 0); [|reflexivity]. now destruct (step flt 1).
Qed.

Lemma load_failed (flt : fault) (db : Db) (sym : string) (period : option string) :
  flt = Some 0%nat \/ flt = Some 1%nat \/ db = None ->
  is_ok (parse_period period) = true ->
  snd (_load flt db sym period) = Ok [].
Proof.
  intros Hf Hp. unfold _load. destruct (parse_period period) as [[n u]|e]; [|discriminate].
  pose proof (select_symbol_failed flt db (Py.upper sym) Hf) as Hs.
  destruct (select_symbol flt db (Py.upper sym)) as [acc df]. cbn [snd] in Hs.
  now subst df.
Qed.

(** C8, as stated, fails: with the store unreachable [/quote] answers 404. *)
Lemma quote_store_unreachable_not_found :
  status_code (snd (get_quote None None (Some 0%nat) Sample.store "ABC")) = 404
  /\ status_code (snd (get_quote None None (Some 0%nat) Sample.store "ABC")) <> 500.
Proof. split; [reflexivity | discriminate]. Qed.

(** C8 (amended): when the connection or the query fails, or the table
    does not exist, a request that passed the key check is answered 404,
    the same as for a symbol without data: [/quote] always, [/chart] when
    its period can be read. *)
Theorem read_failure_is_not_found (API_KEY x_api_key : option string) (flt : fault)
        (db : Db) (sym : string) (period : option string) :
  require_key API_KEY x_api_key = Ok tt ->
  flt = Some 0%nat \/ flt = Some 1%nat \/ db = None ->
  status_code (snd (get_quote API_KEY x_api_key flt db sym)) = 404
  /\ (is_ok (parse_period period) = true ->
      status_code (snd (get_chart API_KEY x_api_key flt db sym period)) = 404).
Proof.
  intros Hkey Hf. unfold get_quote, get_chart, protected. rewrite Hkey. split.
  - unfold quote. pose proof (load_failed flt db sym (Some "1mo") Hf eq_refl) as Hl.
    destruct (_load flt db sym (Some "1mo")) as [acc r]. cbn [snd] in *. now subst r.
  - intros Hp. unfold chart. pose proof (load_failed flt db sym period Hf Hp) as Hl.
    destruct (_load flt db sym period) as [acc r]. cbn [snd] in *. now subst r.
Qed.

Lemma read_failure_is_not_found_witness :
  status_code (snd (get_quote (Some "s3cret") (Some "s3cret") (Some 1%nat)
                              Sample.store "ABC")) = 404
  /\ status_code (snd (get_chart (Some "s3cret") (Some "s3cret") (Some 1%nat)
                                 Sample.store "ABC" (Some "6mo"))) = 404.
Proof.
  destruct (read_failure_is_not_found (Some "s3cret") (Some "s3cret") (Some 1%nat)
              Sample.store "ABC" (Some "6mo")) as [Hq Hc].
  - reflexivity.
  - right. left. reflexivity.
  - split; [exact Hq | apply Hc; reflexivity].
Defined.

Lemma quote_not_rejected (flt : fault) (db : Db) (sym : string) (e : exn) :
  quote flt db sym <> ([], Raise e).
Proof.
  unfold quote. intros H.
  destruct (load_accesses flt db sym (Some "1mo")) as [e' He'].
  - destruct (_load flt db sym (Some "1mo")) as [acc r]. now injection H as ->.
  - discriminate He'.
Qed.

Lemma chart_not_rejected (flt : fault) (db : Db) (sym : string)
      (period : option string) (s : Z) (detail : string) :
  chart flt db sym period <> ([], Raise (HTTPException s detail)).
Proof.
  unfold chart. intros H.
  destruct (load_accesses flt db sym period) as [e' He'].
  - destruct (_load flt db sym period) as [acc r]. now injection H as ->.
  - unfold _load in H. rewrite He' in H. cbn [bind] in H. injection H as ->.
    apply parse_period_raises_value_error in He' as [msg Hm]. discriminate Hm.
Qed.

Lemma opt_eqb_eq (a b : option string) : opt_eqb a b = true <-> a = b.
Proof.
  destruct a as [x|], b as [y|]; simpl; try (split; (discriminate || reflexivity)).
  rewrite String.eqb_eq. split; [now intros -> | now intros [= ->]].
Qed.

(** C9: with a secret [k] configured (a non-empty API_KEY), a request to
    [/quote] or [/chart] is answered 401, with no storage access made,
    exactly when its header is absent or is not [k]; with API_KEY unset
    (or empty) the endpoint runs whatever the header. *)
Theorem require_key_gate (API_KEY x_api_key : option string) (flt : fault)
        (db : Db) (sym : string) (period : option string) :
  (forall k, API_KEY = Some k -> k <> "" ->
     (get_quote API_KEY x_api_key flt db sym
      = ([], Raise (HTTPException 401 "Unauthorized")) <-> x_api_key <> Some k)
     /\ (get_chart API_KEY x_api_key flt db sym period
         = ([], Raise (HTTPException 401 "Unauthorized")) <-> x_api_key <> Some k)
     /\ (x_api_key = Some k ->
         get_quote API_KEY x_api_key flt db sym = quote flt db sym
         /\ get_chart API_KEY x_api_key flt db sym period = chart flt db sym period))
  /\ (API_KEY = None \/ API_KEY = Some "" ->
      require_key API_KEY x_api_key = Ok tt
      /\ get_quote API_KEY x_api_key flt db sym = quote flt db sym
      /\ get_chart API_KEY x_api_key flt db sym period = chart flt db sym period).
Proof.
  split.
  - intros k -> Hk. unfold get_quote, get_chart, protected, require_key.
    assert (Ht : truthy (Some k) = true).
    { simpl. now destruct (String.eqb_spec k ""). }
    rewrite Ht. cbn [andb].
    destruct (opt_eqb x_api_key (Some k)) eqn:E; cbn [negb].
    + apply opt_eqb_eq in E. subst x_api_key. split; [|split].
      * split; [|now intros H]. intros H. now apply quote_not_rejected in H.
      * split; [|now intros H]. intros H. now apply chart_not_rejected in H.
      * intros _. split; reflexivity.
    + assert (Hne : x_api_key <> Some k).
      { intros H. apply opt_eqb_eq in H. congruence. }
      split; [|split]; [split; auto | split; auto | intros H; contradiction].
  - intros [ -> | -> ]; unfold get_quote, get_chart, protected, require_key; simpl;
      repeat split.
Qed.

Lemma require_key_gate_witness :
  get_quote (Some "s3cret") None None Sample.store "ABC"
  = ([], Raise (HTTPException 401 "Unauthorized"))
  /\ get_quote (Some "s3cret") (Some "guess") None Sample.store "ABC"
     = ([], Raise (HTTPException 401 "Unauthorized"))
  /\ status_code (snd (get_quote (Some "s3cret") (Some "s3cret") None Sample.store "ABC"))
     = 200.
Proof.
  destruct (require_key_gate (Some "s3cret") None None Sample.store "ABC" None)
    as [H1 _].
  destruct (require_key_gate (Some "s3cret") (Some "guess") None Sample.store "ABC" None)
    as [H2 _].
  destruct (require_key_gate (Some "s3cret") (Some "s3cret") None Sample.store "ABC" None)
    as [H3 _].
  destruct (H1 "s3cret" eq_refl ltac:(discriminate)) as [[_ Hq1] _].
  destruct (H2 "s3cret" eq_refl ltac:(discriminate)) as [[_ Hq2] _].
  destruct (H3 "s3cret" eq_refl ltac:(discriminate)) as [_ [_ Hq3]].
  split; [apply Hq1; discriminate|]. split; [apply Hq2; discriminate|].
  destruct (Hq3 eq_refl) as [-> _]. reflexivity.
Defined.

Lemma round3_zero (q : Q) : (q == 0)%Q -> (round3 q == 0)%Q.
Proof.
  destruct q as [a b]. unfold Qeq. simpl. rewrite Z.mul_1_r. intros ->. reflexivity.
Qed.

(** The percent change as [quote] computes it from the last two bars. *)
Lemma quote_of_bars (flt : fault) (db : Db) (sym : string)
      (before : list Row) (prev last : Row) :
  snd (_load flt db sym (Some "1mo")) = Ok (before ++ [last])%list ->
  prev = match List.rev before with p :: _ => p | [] => last end ->
  snd (quote flt db sym)
  = (pct <- (if Qeq_bool (close prev) 0 then Ok 0%Q
             else d <- truediv (close last - close prev) (close prev) ;;
                  Ok (d * 100)%Q) ;;
     Ok (mkQuote (Py.upper sym) (dt last) (close last) (volume last) (round3 pct))).
Proof.
  intros Hl ->. unfold quote. destruct (_load flt db sym (Some "1mo")) as [acc r].
  cbn [snd] in *. subst r. cbn [bind]. rewrite rev_app_distr. reflexivity.
Qed.

(** C10: [/quote] never raises ZeroDivisionError. With one bar in the
    window the prior bar is that bar and pct_change is 0; with a prior bar
    whose close is 0, pct_change is 0. *)
Theorem quote_never_divides_by_zero (flt : fault) (db : Db) (sym : string) :
  snd (quote flt db sym) <> Raise ZeroDivisionError
  /\ (forall bar, snd (_load flt db sym (Some "1mo")) = Ok [bar] ->
        exists q, snd (quote flt db sym) = Ok q
                  /\ (q_pct_change q == 0)%Q
                  /\ q_close q = close bar /\ q_dt q = dt bar)
  /\ (forall before prev last,
        snd (_load flt db sym (Some "1mo")) = Ok (before ++ [prev; last])%list ->
        (close prev == 0)%Q ->
        exists q, snd (quote flt db sym) = Ok q /\ (q_pct_change q == 0)%Q).
Proof.
  split; [|split].
  - unfold quote. destruct (_load flt db sym (Some "1mo")) as [acc [df|e]] eqn:El;
      cbn [snd bind].
    + destruct (List.rev df) as [|last before]; [discriminate|].
      set (prev := match before with p :: _ => p | [] => last end).
      unfold truediv. destruct (Qeq_bool (close prev) 0); discriminate.
    + intros [= ->].
      destruct (load_raises_value_error flt db sym (Some "1mo") ZeroDivisionError)
        as [msg Hm]; [now rewrite El | discriminate Hm].
  - intros bar Hl.
    rewrite (quote_of_bars flt db sym [] bar bar Hl eq_refl).
    unfold truediv. destruct (Qeq_bool (close bar) 0) eqn:E; cbn [bind].
    + eexists. split; [reflexivity|]. cbn [q_pct_change q_close q_dt].
      split; [reflexivity | split; reflexivity].
    + eexists. split; [reflexivity|]. cbn [q_pct_change q_close q_dt].
      split; [|split; reflexivity].
      apply round3_zero. apply Qeq_bool_neq in E. field. exact E.
  - intros before prev last Hl Hz.
    rewrite (quote_of_bars flt db sym (before ++ [prev]) prev last).
    + apply Qeq_bool_iff in Hz. rewrite Hz. cbn [bind].
      eexists. split; reflexivity.
    + rewrite <- app_assoc. exact Hl.
    + rewrite rev_app_distr. reflexivity.
Qed.

Lemma quote_never_divides_by_zero_witness :
  exists q,
    snd (quote None Sample.store "abc") = Ok q
    /\ (q_pct_change q == 0)%Q
    /\ q_close q = 12%Q.
Proof.
  destruct (quote_never_divides_by_zero None Sample.store "abc") as [_ [Hone _]].
  destruct (Hone (Sample.bar "ABC" (Sample.day 2024 6 30) 12) eq_refl)
    as [q [Hq [Hpct [Hclose _]]]].
  exists q. split; [exact Hq|]. split; [exact Hpct | exact Hclose].
Defined.

End Endpoints.

(** * Further properties *)

(** ** Upserts that fail, and upserts in sequence *)

Section UpsertMore.

Lemma upsert_steps (flt : fault) (db : Db) (batch : list Row) :
  upsert_duckdb flt db (frame_of_rows batch) =
  match step flt 0, step flt 1 with
  | Ok _, Ok _ =>
      match step flt 2, step flt 3 with
      | Ok _, Ok _ =>
          match step flt 4 with
          | Ok _ => (Ok tt, Some (delete_using (map key_of batch) (table_of db) ++ batch)%list)
          | Raise e => (Raise e, Some (delete_using (map key_of batch) (table_of db)))
          end
      | Raise e, _ | Ok _, Raise e => (Raise e, Some (table_of db))
      end
  | Raise e, _ | Ok _, Raise e => (Raise e, db)
  end.
Proof.
  unfold upsert_duckdb.
  assert (Hs : stage_column "symbol" (frame_of_rows batch)
               = Ok (map (fun r => VStr (symbol r)) batch)) by reflexivity.
  assert (Hd : stage_column "dt" (frame_of_rows batch)
               = Ok (map (fun r => VTs (dt r)) batch)) by reflexivity.
  destruct (step flt 0); [|reflexivity].
  destruct (step flt 1); [|reflexivity].
  destruct (step flt 2); [|reflexivity].
  destruct (step flt 3); cbn [bind]; [|reflexivity].
  rewrite Hs, Hd. cbn [bind]. rewrite stage_keys_frame.
  destruct (step flt 4); cbn [bind]; [|reflexivity].
  rewrite stage_rows_frame. reflexivity.
Qed.

Lemma step_cases (flt : fault) (n : nat) :
  (step flt n = Ok tt /\ flt <> Some n)
  \/ (step flt n = Raise (DbError "duckdb") /\ flt = Some n).
Proof.
  destruct flt as [k|]; simpl.
  - destruct (Nat.eqb_spec k n) as [->|Hne]; [right | left]; split; congruence.
  - left. split; [reflexivity | discriminate].
Qed.

Lemma delete_using_disjoint (keys : list key) (rows : list Row) :
  (forall r, In r rows -> ~ In (key_of r) keys) ->
  delete_using keys rows = rows.
Proof.
  unfold delete_using. induction rows as [|r rows IH]; intros H; [reflexivity|].
  simpl. destruct (existsb (key_eqb (key_of r)) keys) eqn:E.
  - apply existsb_key in E. exfalso. apply (H r); [now left | exact E].
  - simpl. f_equal. apply IH. intros x Hx. apply H. now right.
Qed.

Lemma delete_using_comm (k1 k2 : list key) (rows : list Row) :
  delete_using k1 (delete_using k2 rows) = delete_using k2 (delete_using k1 rows).
Proof.
  unfold delete_using. induction rows as [|r rows IH]; [reflexivity|]. simpl.
  destruct (negb (existsb (key_eqb (key_of r)) k2)) eqn:E2;
    destruct (negb (existsb (key_eqb (key_of r)) k1)) eqn:E1;
    simpl; rewrite ?E1, ?E2; now rewrite IH.
Qed.

Lemma delete_using_app (keys : list key) (a b : list Row) :
  delete_using keys (a ++ b) = (delete_using keys a ++ delete_using keys b)%list.
Proof. unfold delete_using. apply filter_app. Qed.

Lemma upsert_table_cases (flt : fault) (db : Db) (batch : list Row) :
  let after := table_of (snd (upsert_duckdb flt db (frame_of_rows batch))) in
  after = table_of db
  \/ after = delete_using (map key_of batch) (table_of db)
  \/ after = (delete_using (map key_of batch) (table_of db) ++ batch)%list.
Proof.
  cbv zeta. rewrite upsert_steps.
  destruct (step flt 0), (step flt 1), (step flt 2), (step flt 3), (step flt 4);
    cbn [snd table_of]; auto; destruct db; auto.
Qed.

(** X1: When DuckDB fails at the connection, at CREATE TABLE, at the staging
    or at the DELETE, whatever frame is passed, [upsert_duckdb] raises and
    the stored rows are those of before. *)
Theorem upsert_fails_early_keeps_rows (flt : fault) (db : Db) (df : DataFrame) :
  flt = Some 0%nat \/ flt = Some 1%nat \/ flt = Some 2%nat \/ flt = Some 3%nat ->
  fst (upsert_duckdb flt db df) = Raise (DbError "duckdb")
  /\ table_of (snd (upsert_duckdb flt db df)) = table_of db.
Proof.
  intros [ -> | [ -> | [ -> | -> ] ] ]; unfold upsert_duckdb; cbn [step Nat.eqb bind fst snd];
    split; reflexivity.
Qed.

Lemma upsert_fails_early_keeps_rows_witness :
  fst (upsert_duckdb (Some 3%nat) (Some [Sample.spy_old]) (frame_of_rows [Sample.spy_new]))
  = Raise (DbError "duckdb")
  /\ table_of (snd (upsert_duckdb (Some 3%nat) (Some [Sample.spy_old])
                                  (frame_of_rows [Sample.spy_new])))
     = [Sample.spy_old].
Proof.
  apply (upsert_fails_early_keeps_rows (Some 3%nat) (Some [Sample.spy_old])
           (frame_of_rows [Sample.spy_new])).
  right. right. right. reflexivity.
Defined.

(** X2: When DuckDB fails at the INSERT, the DELETE has already been
    committed: [upsert_duckdb] raises, and what is stored is what was
    stored before without the rows whose key the batch carries; the batch
    is not stored. *)
Theorem upsert_insert_failure_loses_rows (db : Db) (batch : list Row) :
  exists stored,
    upsert_duckdb (Some 4%nat) db (frame_of_rows batch)
    = (Raise (DbError "duckdb"), Some stored)
    /\ (forall r, In r stored <->
                  In r (table_of db) /\ ~ In (key_of r) (map key_of batch))
    /\ (forall r, In r batch -> ~ In r stored).
Proof.
  exists (delete_using (map key_of batch) (table_of db)).
  split; [rewrite upsert_steps; reflexivity|]. split.
  - intros r. apply in_delete_using.
  - intros r Hr Hin. apply in_delete_using in Hin as [_ Hin].
    apply Hin. now apply in_map.
Qed.

(** X3: Whatever fails or not, an upsert keeps every stored row whose key is
    not in the batch, and stores nothing that was neither stored before nor
    in the batch. *)
Theorem upsert_touches_batch_keys_only (flt : fault) (db : Db) (batch : list Row) :
  (forall r, In r (table_of db) -> ~ In (key_of r) (map key_of batch) ->
             In r (table_of (snd (upsert_duckdb flt db (frame_of_rows batch)))))
  /\ (forall r, In r (table_of (snd (upsert_duckdb flt db (frame_of_rows batch)))) ->
                In r (table_of db) \/ In r batch).
Proof.
  destruct (upsert_table_cases flt db batch) as [ -> | [ -> | -> ] ]; split; intros r Hr.
  - intros _. exact Hr.
  - now left.
  - intros Hk. apply in_delete_using. now split.
  - apply in_delete_using in Hr as [Hr _]. now left.
  - intros Hk. apply in_or_app. left. apply in_delete_using. now split.
  - apply in_app_or in Hr as [Hr|Hr]; [left | now right].
    now apply in_delete_using in Hr as [Hr _].
Qed.

Lemma upsert_touches_batch_keys_only_witness :
  In (Sample.bar "XYZ" (Sample.day 2024 7 15) 40)
     (table_of (snd (upsert_duckdb (Some 4%nat) Sample.store
                                   (frame_of_rows [Sample.bar "ABC" (Sample.day 2024 6 30) 13])))).
Proof.
  apply (upsert_touches_batch_keys_only (Some 4%nat) Sample.store
           [Sample.bar "ABC" (Sample.day 2024 6 30) 13]).
  - simpl. tauto.
  - simpl. intros [H|[]]. discriminate H.
Defined.

(** X4: An empty batch changes no stored row, whatever fails or not; without
    a failure the call succeeds (and creates the table if it was absent). *)
Theorem upsert_empty_batch (flt : fault) (db : Db) :
  table_of (snd (upsert_duckdb flt db (frame_of_rows []))) = table_of db
  /\ upsert_duckdb None db (frame_of_rows []) = (Ok tt, Some (table_of db)).
Proof.
  rewrite !upsert_steps. cbn [map step].
  assert (Hd : delete_using [] (table_of db) = table_of db)
    by (apply delete_using_disjoint; intros r _ []).
  rewrite Hd, List.app_nil_r. split; [|reflexivity].
  destruct (step flt 0), (step flt 1), (step flt 2), (step flt 3), (step flt 4);
    reflexivity.
Qed.

(** X5: Two batches that share no key can be upserted in either order:
    all four calls succeed, and the two orders store the same rows up to
    their order, namely the batches' rows and the former rows whose key is
    in neither batch. *)
Theorem upsert_disjoint_batches_commute (db : Db) (b1 b2 : list Row) :
  (forall k, In k (map key_of b1) -> ~ In k (map key_of b2)) ->
  exists s1 s2 s12 s21,
    upsert_duckdb None db (frame_of_rows b1) = (Ok tt, Some s1)
    /\ upsert_duckdb None (Some s1) (frame_of_rows b2) = (Ok tt, Some s12)
    /\ upsert_duckdb None db (frame_of_rows b2) = (Ok tt, Some s2)
    /\ upsert_duckdb None (Some s2) (frame_of_rows b1) = (Ok tt, Some s21)
    /\ Permutation s12 s21
    /\ (forall r, In r s12 <->
          (In r (table_of db) /\ ~ In (key_of r) (map key_of b1)
           /\ ~ In (key_of r) (map key_of b2))
          \/ In r b1 \/ In r b2).
Proof.
  intros Hdis.
  assert (H1 : delete_using (map key_of b2) b1 = b1)
    by (apply delete_using_disjoint; intros r Hr; apply Hdis; now apply in_map).
  assert (H2 : delete_using (map key_of b1) b2 = b2).
  { apply delete_using_disjoint. intros r Hr Hin.
    apply (Hdis (key_of r)); [exact Hin | now apply in_map]. }
  eexists. eexists. eexists. eexists.
  split; [apply upsert_frame|]. split; [apply upsert_frame|].
  split; [apply upsert_frame|]. split; [apply upsert_frame|].
  cbn [table_of]. rewrite !delete_using_app, H1, H2. split.
  - rewrite (delete_using_comm (map key_of b2) (map key_of b1)).
    rewrite <- !app_assoc. apply Permutation_app_head, Permutation_app_comm.
  - intros r. rewrite !in_app_iff, !in_delete_using. tauto.
Qed.

Lemma upsert_disjoint_batches_commute_witness :
  exists s1 s2 s12 s21,
    upsert_duckdb None None (frame_of_rows [Sample.spy_old]) = (Ok tt, Some s1)
    /\ upsert_duckdb None (Some s1) (frame_of_rows Sample.abc_bars) = (Ok tt, Some s12)
    /\ upsert_duckdb None None (frame_of_rows Sample.abc_bars) = (Ok tt, Some s2)
    /\ upsert_duckdb None (Some s2) (frame_of_rows [Sample.spy_old]) = (Ok tt, Some s21)
    /\ Permutation s12 s21.
Proof.
  destruct (upsert_disjoint_batches_commute None [Sample.spy_old] Sample.abc_bars)
    as [s1 [s2 [s12 [s21 [E1 [E12 [E2 [E21 [Hp _]]]]]]]]].
  - intros k [<-|[]] Hin. simpl in Hin.
    destruct Hin as [H|[H|[H|[]]]]; discriminate H.
  - exists s1, s2, s12, s21. repeat split; assumption.
Defined.

End UpsertMore.

(** ** Reading after writing, and the window of a read *)

Section ReadMore.

Import Read.

Ltac crack_ts :=
  unfold ts_leb; cbn [ts_year ts_month ts_day ts_tod];
  repeat match goal with
  | |- context [Z.eqb ?a ?b] => destruct (Z.eqb_spec a b)
  | |- context [Z.ltb ?a ?b] => destruct (Z.ltb_spec a b)
  | |- context [Z.leb ?a ?b] => destruct (Z.leb_spec a b)
  end; try reflexivity; try lia.

Lemma sub_fields (t s : Timestamp) (rd : Cal.relativedelta) :
  Cal.sub t rd = Ok s ->
  exists y m,
    (if - Cal.months rd =? 0 then (ts_year t - Cal.years rd, ts_month t)
     else if 12 <? ts_month t - Cal.months rd
          then (ts_year t - Cal.years rd + 1, ts_month t - Cal.months rd - 12)
          else if ts_month t - Cal.months rd <? 1
               then (ts_year t - Cal.years rd - 1, ts_month t - Cal.months rd + 12)
               else (ts_year t - Cal.years rd, ts_month t - Cal.months rd)) = (y, m)
    /\ s = mkTs y m (Z.min (Cal.days_in_month y m) (ts_day t)) (ts_tod t).
Proof.
  unfold Cal.sub, Cal.add, Cal.neg. cbn [Cal.years Cal.months].
  replace (ts_year t + - Cal.years rd) with (ts_year t - Cal.years rd) by lia.
  replace (ts_month t + - Cal.months rd) with (ts_month t - Cal.months rd) by lia.
  destruct (if - Cal.months rd =? 0 then _ else _) as [y m].
  destruct (_ || _); [intros [=]|]. intros [= <-]. now exists y, m.
Qed.

Lemma delta_nonneg (n : Z) (u : unit_of_time) :
  0 <= n ->
  0 <= Cal.years (delta n u) /\ 0 <= Cal.months (delta n u) <= 11
  /\ (n = 0 -> Cal.years (delta n u) = 0 /\ Cal.months (delta n u) = 0).
Proof.
  intros Hn. destruct u; unfold delta, Cal.of_months, Cal.of_years.
  - destruct (Z.ltb_spec 11 (Z.abs n)) as [H|H]; cbn [Cal.years Cal.months].
    + assert (Hs : Z.sgn n = 1) by (apply Z.sgn_pos; lia). rewrite Hs.
      rewrite !Z.mul_1_r. split; [|split]; try lia.
      * apply Z.div_pos; lia.
      * pose proof (Z.mod_pos_bound n 12). lia.
    + lia.
  - cbn [Cal.years Cal.months]. lia.
Qed.

Lemma delta_neg (n : Z) (u : unit_of_time) :
  n < 0 ->
  Cal.years (delta n u) <= 0 /\ -11 <= Cal.months (delta n u) <= 0
  /\ (Cal.years (delta n u) < 0 \/ Cal.months (delta n u) < 0).
Proof.
  intros Hn. destruct u; unfold delta, Cal.of_months, Cal.of_years.
  - destruct (Z.ltb_spec 11 (Z.abs n)) as [H|H]; cbn [Cal.years Cal.months].
    + assert (Hs : Z.sgn n = -1) by (apply Z.sgn_neg; lia). rewrite Hs.
      pose proof (Z.mod_pos_bound (n * -1) 12).
      assert (1 <= (n * -1) / 12) by (apply Z.div_le_lower_bound; lia).
      lia.
    + lia.
  - cbn [Cal.years Cal.months]. lia.
Qed.

(** Going back by a period that is not negative does not pass the date. *)
Lemma sub_nonneg_le (t s : Timestamp) (n : Z) (u : unit_of_time) :
  0 <= n -> 1 <= ts_month t <= 12 ->
  Cal.sub t (delta n u) = Ok s -> ts_leb s t = true.
Proof.
  intros Hn Hm Hs. destruct (delta_nonneg n u Hn) as [Hy [Hmo _]].
  apply sub_fields in Hs as [y [m [E ->]]].
  destruct (Z.eqb_spec (- Cal.months (delta n u)) 0);
    [|destruct (Z.ltb_spec 12 (ts_month t - Cal.months (delta n u)));
      [|destruct (Z.ltb_spec (ts_month t - Cal.months (delta n u)) 1)]];
    injection E as <- <-; crack_ts.
Qed.

(** Going back by a negative period lands after the date. *)
Lemma sub_neg_gt (t s : Timestamp) (n : Z) (u : unit_of_time) :
  n < 0 -> 1 <= ts_month t <= 12 ->
  Cal.sub t (delta n u) = Ok s -> ts_leb s t = false.
Proof.
  intros Hn Hm Hs. destruct (delta_neg n u Hn) as [Hy [Hmo Hstrict]].
  apply sub_fields in Hs as [y [m [E ->]]].
  destruct (Z.eqb_spec (- Cal.months (delta n u)) 0);
    [|destruct (Z.ltb_spec 12 (ts_month t - Cal.months (delta n u)));
      [|destruct (Z.ltb_spec (ts_month t - Cal.months (delta n u)) 1)]];
    injection E as <- <-; crack_ts.
Qed.

Lemma select_ok (db : Db) (S : string) :
  select_symbol None db S
  = ([Connect; Select S],
     RowSort.sort (filter (fun r => String.eqb (symbol r) S) (table_of db))).
Proof. unfold select_symbol. cbn [step]. destruct db; reflexivity. Qed.

Lemma sort_nil_inv (l : list Row) : RowSort.sort l = [] -> l = [].
Proof.
  intros H. pose proof (RowSort.Permuted_sort l) as P. rewrite H in P.
  now apply Permutation_sym, Permutation_nil in P.
Qed.

Lemma load_rows_eq (db : Db) (sym : string) (period : option string)
      (n : Z) (u : unit_of_time) (latest start : Timestamp) :
  parse_period period = Ok (n, u) ->
  is_latest latest (stored_for db sym) ->
  Cal.sub latest (delta n u) = Ok start ->
  _load None db sym period
  = ([Connect; Select (Py.upper sym)],
     Ok (filter (fun r => ts_leb start (dt r)) (RowSort.sort (stored_for db sym)))).
Proof.
  intros Hp [Hin Hmax] Hsub. unfold _load. rewrite Hp, select_ok.
  fold (stored_for db sym).
  pose proof (RowSort.Permuted_sort (stored_for db sym)) as Hperm.
  destruct (RowSort.sort (stored_for db sym)) as [|first rest] eqn:Es.
  { apply sort_nil_inv in Es. rewrite Es in Hin. contradiction. }
  destruct (max_dt_spec first rest) as [HMin HMmax].
  assert (HM : max_dt first rest = latest).
  { apply ts_leb_antisym.
    - apply in_map_iff in HMin as [r [<- Hr]]. apply Hmax.
      eapply Permutation_in; [apply Permutation_sym, Hperm|exact Hr].
    - apply in_map_iff in Hin as [r [<- Hr]]. apply HMmax.
      eapply Permutation_in; [exact Hperm|exact Hr]. }
  rewrite HM. fold (delta n u). rewrite Hsub. reflexivity.
Qed.

Lemma load_no_rows (flt : fault) (db : Db) (sym : string) (period : option string) :
  stored_for db sym = [] -> is_ok (parse_period period) = true ->
  snd (_load flt db sym period) = Ok [].
Proof.
  intros He Hp. unfold _load. destruct (parse_period period) as [[n u]|e]; [|discriminate].
  assert (Hs : snd (select_symbol flt db (Py.upper sym)) = []).
  { unfold select_symbol. destruct (step flt 0); [|reflexivity].
    destruct (step flt 1), db as [table|]; try reflexivity.
    cbn [snd]. unfold stored_for in He. cbn [table_of] in He. now rewrite He. }
  destruct (select_symbol flt db (Py.upper sym)) as [acc df]. cbn [snd] in Hs.
  now subst df.
Qed.

Lemma filter_none (f : Row -> bool) (l : list Row) :
  (forall r, In r l -> f r = false) -> filter f l = [].
Proof.
  induction l as [|x l IH]; intros H; [reflexivity|]. simpl.
  rewrite (H x) by now left. apply IH. intros r Hr. apply H. now right.
Qed.

Lemma StronglySorted_last (R : Row -> Row -> Prop) (a : list Row) (l : Row) :
  StronglySorted R (a ++ [l]) -> forall x, In x a -> R x l.
Proof.
  induction a as [|y a IH]; intros Hs x Hx; [contradiction|].
  simpl in Hs. inversion Hs as [|? ? Hs' Hall]; subst.
  destruct Hx as [<-|Hx]; [|now apply IH].
  rewrite Forall_forall in Hall. apply Hall, in_or_app. right. now left.
Qed.

(** The last row of a one-month window is a row of the greatest timestamp. *)
Lemma month_window_last (db : Db) (sym : string) (latest start : Timestamp) :
  is_latest latest (stored_for db sym) ->
  1 <= ts_month latest <= 12 ->
  Cal.sub latest (Cal.of_months 1) = Ok start ->
  exists before last,
    snd (_load None db sym (Some "1mo")) = Ok (before ++ [last])%list
    /\ In last (stored_for db sym) /\ dt last = latest.
Proof.
  intros Hlat Hm Hsub.
  rewrite (load_rows_eq db sym (Some "1mo") 1 Mo latest start eq_refl Hlat Hsub).
  cbn [snd]. destruct Hlat as [Hin Hmax].
  pose proof (RowSort.Permuted_sort (stored_for db sym)) as Hperm.
  pose proof (RowSort.StronglySorted_sort (stored_for db sym) leb_transitive) as Hsorted.
  apply (StronglySorted_filter _ (fun r => ts_leb start (dt r))) in Hsorted.
  assert (Hle : ts_leb start latest = true)
    by (apply (sub_nonneg_le latest start 1 Mo); [lia | exact Hm | exact Hsub]).
  apply in_map_iff in Hin as [r0 [Hr0 Hin0]].
  assert (Hin' : In r0 (filter (fun r => ts_leb start (dt r))
                               (RowSort.sort (stored_for db sym)))).
  { apply filter_In. split; [eapply Permutation_in; eassumption | now rewrite Hr0]. }
  destruct (exists_last (l := filter (fun r => ts_leb start (dt r))
                                     (RowSort.sort (stored_for db sym))))
    as [before [last E]].
  { intros E. rewrite E in Hin'. contradiction. }
  rewrite E in *. exists before, last. split; [reflexivity|].
  assert (Hlast : In last (stored_for db sym)).
  { assert (H : In last (before ++ [last])%list) by (apply in_or_app; right; now left).
    rewrite <- E in H. apply filter_In in H as [H _].
    eapply Permutation_in; [apply Permutation_sym, Hperm | exact H]. }
  split; [exact Hlast|].
  apply ts_leb_antisym; [now apply Hmax|].
  apply in_app_or in Hin' as [Hb|[<-|[]]].
  - rewrite <- Hr0. apply (StronglySorted_last _ before last Hsorted r0 Hb).
  - rewrite Hr0. apply ts_leb_refl.
Qed.

Lemma quote_answers (flt : fault) (db : Db) (sym : string)
      (before : list Row) (last : Row) :
  snd (_load flt db sym (Some "1mo")) = Ok (before ++ [last])%list ->
  exists q,
    snd (quote flt db sym) = Ok q
    /\ q_symbol q = Py.upper sym /\ q_dt q = dt last
    /\ q_close q = close last /\ q_volume q = volume last.
Proof.
  intros Hl.
  rewrite (quote_of_bars flt db sym before _ last Hl eq_refl).
  set (prev := match List.rev before with p :: _ => p | [] => last end).
  unfold truediv. destruct (Qeq_bool (close prev) 0); cbn [bind];
    eexists; repeat split.
Qed.

(** X6: For a period that is read as a count that is not negative, and a
    symbol with stored rows whose greatest timestamp has a month of 1..12
    and whose window start exists, [/chart] does not answer 404: it draws a
    frame that holds every row of the greatest timestamp. *)
Theorem chart_window_holds_latest (db : Db) (sym : string) (period : option string)
        (n : Z) (u : unit_of_time) (latest start : Timestamp) :
  parse_period period = Ok (n, u) -> 0 <= n ->
  is_latest latest (stored_for db sym) ->
  1 <= ts_month latest <= 12 ->
  Cal.sub latest (delta n u) = Ok start ->
  exists rows,
    snd (chart None db sym period) = Ok rows
    /\ (forall r, In r (stored_for db sym) -> dt r = latest -> In r rows).
Proof.
  intros Hp Hn Hlat Hm Hsub. unfold chart.
  rewrite (load_rows_eq db sym period n u latest start Hp Hlat Hsub). cbn [snd bind].
  assert (Hle : ts_leb start latest = true) by now apply (sub_nonneg_le latest start n u).
  assert (Hall : forall r, In r (stored_for db sym) -> dt r = latest ->
            In r (filter (fun r => ts_leb start (dt r)) (RowSort.sort (stored_for db sym)))).
  { intros r Hr Hd. apply filter_In. split.
    - eapply Permutation_in; [apply RowSort.Permuted_sort | exact Hr].
    - now rewrite Hd. }
  destruct Hlat as [Hin _]. apply in_map_iff in Hin as [r0 [Hr0 Hin0]].
  specialize (Hall r0 Hin0 Hr0) as H0.
  destruct (filter _ _) as [|x rows] eqn:E; [contradiction|].
  eexists. split; [reflexivity | exact Hall].
Qed.

Lemma chart_window_holds_latest_witness :
  exists rows,
    snd (chart None Sample.store "abc" (Some "0mo")) = Ok rows
    /\ In (Sample.bar "ABC" (Sample.day 2024 6 30) 12) rows.
Proof.
  destruct (chart_window_holds_latest Sample.store "abc" (Some "0mo") 0 Mo
              (Sample.day 2024 6 30) (Sample.day 2024 6 30))
    as [rows [Hrun Hin]].
  - reflexivity.
  - lia.
  - split; [simpl; tauto|].
    intros r Hr. simpl in Hr. destruct Hr as [<-|[<-|[<-|[<-|[]]]]]; reflexivity.
  - simpl. lia.
  - reflexivity.
  - exists rows. split; [exact Hrun|]. apply Hin; [simpl; tauto | reflexivity].
Defined.

(** X7: A period with a negative count is accepted, and its window starts
    after the latest bar: [_load] gives the empty frame and [/chart]
    answers 404 although the symbol has data. *)
Theorem chart_negative_period_not_found (db : Db) (sym : string)
        (period : option string) (n : Z) (u : unit_of_time)
        (latest start : Timestamp) :
  parse_period period = Ok (n, u) -> n < 0 ->
  is_latest latest (stored_for db sym) ->
  1 <= ts_month latest <= 12 ->
  Cal.sub latest (delta n u) = Ok start ->
  snd (_load None db sym period) = Ok []
  /\ status_code (snd (chart None db sym period)) = 404.
Proof.
  intros Hp Hn Hlat Hm Hsub.
  assert (Hempty : filter (fun r => ts_leb start (dt r))
                          (RowSort.sort (stored_for db sym)) = []).
  { assert (Hgt : ts_leb start latest = false) by now apply (sub_neg_gt latest start n u).
    destruct Hlat as [_ Hmax].
    apply filter_none.
    intros r Hr. destruct (ts_leb start (dt r)) eqn:E; [|reflexivity].
    rewrite (ts_leb_trans start (dt r) latest E) in Hgt; [discriminate|].
    apply Hmax. eapply Permutation_in; [apply Permutation_sym, RowSort.Permuted_sort|].
    exact Hr. }
  unfold chart. rewrite (load_rows_eq db sym period n u latest start Hp Hlat Hsub).
  cbn [snd]. rewrite Hempty. split; reflexivity.
Qed.

Lemma chart_negative_period_not_found_witness :
  snd (_load None Sample.store "ABC" (Some "-3mo")) = Ok []
  /\ status_code (snd (chart None Sample.store "ABC" (Some "-3mo"))) = 404.
Proof.
  apply (chart_negative_period_not_found Sample.store "ABC" (Some "-3mo") (-3) Mo
           (Sample.day 2024 6 30) (Sample.day 2024 9 30)).
  - reflexivity.
  - lia.
  - split; [simpl; tauto|].
    intros r Hr. simpl in Hr. destruct Hr as [<-|[<-|[<-|[<-|[]]]]]; reflexivity.
  - simpl. lia.
  - reflexivity.
Defined.

(** X8: For a symbol with stored rows (greatest timestamp with a month of
    1..12, one month before it representable), [/quote] answers 200 with
    the upper-cased symbol and the timestamp, close and volume of a stored
    row of the greatest timestamp. *)
Theorem quote_reports_latest (db : Db) (sym : string) (latest start : Timestamp) :
  is_latest latest (stored_for db sym) ->
  1 <= ts_month latest <= 12 ->
  Cal.sub latest (Cal.of_months 1) = Ok start ->
  exists q r,
    snd (quote None db sym) = Ok q
    /\ In r (stored_for db sym) /\ dt r = latest
    /\ q_symbol q = Py.upper sym /\ q_dt q = latest
    /\ q_close q = close r /\ q_volume q = volume r.
Proof.
  intros Hlat Hm Hsub.
  destruct (month_window_last db sym latest start Hlat Hm Hsub)
    as [before [last [Hl [Hin Hd]]]].
  destruct (quote_answers None db sym before last Hl) as [q [Hq [Hs [Hdt [Hc Hv]]]]].
  exists q, last. rewrite <- Hd. repeat split; assumption.
Qed.

Lemma quote_reports_latest_witness :
  exists q,
    snd (quote None Sample.store "abc") = Ok q
    /\ q_symbol q = "ABC" /\ q_dt q = Sample.day 2024 6 30.
Proof.
  destruct (quote_reports_latest Sample.store "abc" (Sample.day 2024 6 30)
              (Sample.day 2024 5 30))
    as [q [r [Hq [_ [_ [Hs [Hd _]]]]]]].
  - split; [simpl; tauto|].
    intros r Hr. simpl in Hr. destruct Hr as [<-|[<-|[<-|[<-|[]]]]]; reflexivity.
  - simpl. lia.
  - reflexivity.
  - exists q. split; [exact Hq|]. split; [exact Hs | exact Hd].
Defined.

(** X9: A symbol without stored rows is answered 404 by [/quote], and by
    [/chart] when the period can be read, whether the store fails or not. *)
Theorem unknown_symbol_not_found (flt : fault) (db : Db) (sym : string)
        (period : option string) :
  stored_for db sym = [] ->
  status_code (snd (quote flt db sym)) = 404
  /\ (is_ok (parse_period period) = true ->
      status_code (snd (chart flt db sym period)) = 404).
Proof.
  intros He. split.
  - unfold quote. pose proof (load_no_rows flt db sym (Some "1mo") He eq_refl) as Hl.
    destruct (_load flt db sym (Some "1mo")) as [acc r]. cbn [snd] in *. now subst r.
  - intros Hp. unfold chart. pose proof (load_no_rows flt db sym period He Hp) as Hl.
    destruct (_load flt db sym period) as [acc r]. cbn [snd] in *. now subst r.
Qed.

Lemma unknown_symbol_not_found_witness :
  status_code (snd (quote None Sample.store "NOPE")) = 404
  /\ status_code (snd (chart None Sample.store "NOPE" (Some "6mo"))) = 404.
Proof.
  destruct (unknown_symbol_not_found None Sample.store "NOPE" (Some "6mo") eq_refl)
    as [Hq Hc].
  split; [exact Hq | apply Hc; reflexivity].
Defined.

Lemma load_exception_source (flt : fault) (db : Db) (sym : string)
      (period : option string) (e : exn) :
  snd (_load flt db sym period) = Raise e ->
  parse_period period = Raise e \/ exists t rd, Cal.sub t rd = Raise e.
Proof.
  unfold _load. destruct (parse_period period) as [[n u]|e'].
  - destruct (select_symbol flt db (Py.upper sym)) as [acc [|first rest]];
      cbn [snd]; [intros [=]|].
    destruct (Cal.sub _ _) eqn:Es; cbn [bind]; [intros [=]|].
    intros [= <-]. right. eexists. eexists. exact Es.
  - cbn [snd]. intros [= <-]. now left.
Qed.

(** X10: An exception of [_load] is the one that [int] raised on the
    period or the one that the date subtraction raised, never one of the
    store. When the connection or the query raises, or the table does not
    exist, [_load] raises exactly when the period cannot be read. [/chart]
    and [/quote] raise nothing but what [_load] raises and their own 404. *)
Theorem read_path_exceptions (flt : fault) (db : Db) (sym : string)
        (period : option string) (e : exn) :
  (snd (_load flt db sym period) = Raise e ->
     (parse_period period = Raise e \/ exists t rd, Cal.sub t rd = Raise e)
     /\ forall msg, e <> DbError msg)
  /\ (flt = Some 0%nat \/ flt = Some 1%nat \/ db = None ->
      (snd (_load flt db sym period) = Raise e <-> parse_period period = Raise e))
  /\ (snd (chart flt db sym period) = Raise e ->
      snd (_load flt db sym period) = Raise e
      \/ exists detail, e = HTTPException 404 detail)
  /\ (snd (quote flt db sym) = Raise e ->
      snd (_load flt db sym (Some "1mo")) = Raise e
      \/ exists detail, e = HTTPException 404 detail).
Proof.
  split; [|split; [|split]].
  - intros H. split; [now apply load_exception_source in H|].
    apply load_raises_value_error in H as [msg' ->]. discriminate.
  - intros Hf. unfold _load. destruct (parse_period period) as [[n u]|e'] eqn:Ep.
    + pose proof (select_symbol_failed flt db (Py.upper sym) Hf) as Hs.
      destruct (select_symbol flt db (Py.upper sym)) as [acc df]. cbn [snd] in Hs.
      subst df. cbn [snd]. split; intros [=].
    + cbn [snd]. split; intros [= ->]; reflexivity.
  - unfold chart. destruct (_load flt db sym period) as [acc [df|e']]; cbn [snd bind].
    + destruct df; intros [= <-]. right. eexists; reflexivity.
    + intros [= <-]. left. reflexivity.
  - unfold quote. destruct (_load flt db sym (Some "1mo")) as [acc [df|e']];
      cbn [snd bind].
    + destruct (List.rev df) as [|last before].
      * intros [= <-]. right. eexists; reflexivity.
      * unfold truediv. destruct (Qeq_bool _ 0); cbn [bind]; intros [=].
    + intros [= <-]. left. reflexivity.
Qed.

Lemma read_path_exceptions_witness :
  snd (_load (Some 0%nat) Sample.store "ABC" (Some "1day"))
  = Raise (ValueError "invalid literal for int() with base 10: '1da'")
  /\ snd (_load (Some 0%nat) Sample.store "ABC" (Some "6mo")) = Ok [].
Proof.
  destruct (read_path_exceptions (Some 0%nat) Sample.store "ABC" (Some "1day")
              (ValueError "invalid literal for int() with base 10: '1da'"))
    as [_ [Hfail _]].
  split; [|reflexivity].
  apply (Hfail (or_introl eq_refl)). reflexivity.
Defined.

End ReadMore.

(** ** The figures of [/quote] *)

From Stdlib Require Import Lqa.

Section QuoteFigures.

Import Read.

Lemma round_half_even_cases (y : Q) :
  (round_half_even y = Qfloor y /\ (y - inject_Z (Qfloor y) <= 1 # 2)%Q)
  \/ (round_half_even y = Qfloor y + 1 /\ (1 # 2 <= y - inject_Z (Qfloor y))%Q).
Proof.
  unfold round_half_even.
  destruct (Qcompare_spec (y - inject_Z (Qfloor y)) (1 # 2)) as [E|L|G].
  - destruct (Z.even (Qfloor y)); [left | right]; split; try reflexivity;
      rewrite E; apply Qle_refl.
  - left. split; [reflexivity | now apply Qlt_le_weak].
  - right. split; [reflexivity | now apply Qlt_le_weak].
Qed.

Lemma round3_near (q : Q) :
  (q - (1 # 2000) <= round3 q /\ round3 q <= q + (1 # 2000))%Q.
Proof.
  unfold round3.
  pose proof (Qfloor_le (q * 1000)) as Hlo.
  pose proof (Qlt_floor (q * 1000)) as Hhi.
  rewrite inject_Z_plus in Hhi. change (inject_Z 1) with 1%Q in Hhi.
  destruct (round_half_even_cases (q * 1000)) as [[-> H]|[-> H]].
  - unfold Qdiv. change (/ 1000)%Q with (1 # 1000)%Q. split; lra.
  - rewrite inject_Z_plus. change (inject_Z 1) with 1%Q.
    unfold Qdiv. change (/ 1000)%Q with (1 # 1000)%Q. split; lra.
Qed.

(** X11: With at least two bars in the window and a prior close that is not 0,
    [/quote] answers 200 and its pct_change is a whole number of
    thousandths, at most 0.0005 away from
    [(last close - prior close) / prior close * 100]. *)
Theorem quote_pct_change_rounded (flt : fault) (db : Db) (sym : string)
        (before : list Row) (prev last : Row) :
  snd (_load flt db sym (Some "1mo")) = Ok (before ++ [prev; last])%list ->
  ~ (close prev == 0)%Q ->
  exists q (k : Z),
    snd (quote flt db sym) = Ok q
    /\ q_pct_change q = (inject_Z k / 1000)%Q
    /\ ((close last - close prev) / close prev * 100 - (1 # 2000) <= q_pct_change q)%Q
    /\ (q_pct_change q <= (close last - close prev) / close prev * 100 + (1 # 2000))%Q.
Proof.
  intros Hl Hz.
  rewrite (quote_of_bars flt db sym (before ++ [prev]) prev last).
  - unfold truediv. destruct (Qeq_bool (close prev) 0) eqn:E.
    + apply Qeq_bool_iff in E. contradiction.
    + cbn [bind]. eexists. eexists. split; [reflexivity|]. cbn [q_pct_change].
      split; [reflexivity|]. apply round3_near.
  - rewrite <- app_assoc. exact Hl.
  - rewrite rev_app_distr. reflexivity.
Qed.

Lemma quote_pct_change_rounded_witness :
  exists q,
    snd (quote None More.two_bars "abc") = Ok q
    /\ (q_pct_change q == 33333 # 1000)%Q.
Proof.
  destruct (quote_pct_change_rounded None More.two_bars "abc" []
              (Sample.bar "ABC" (Sample.day 2024 6 27) 3)
              (Sample.bar "ABC" (Sample.day 2024 6 28) 4))
    as [q [k [Hq _]]].
  - reflexivity.
  - discriminate.
  - exists q. split; [exact Hq|]. vm_compute in Hq. injection Hq as <-. reflexivity.
Defined.

End QuoteFigures.

(** ** Writes seen by reads *)

Section WriteThenRead.

Import Read.

Lemma select_ext (flt : fault) (db1 db2 : Db) (S : string) :
  filter (fun r => String.eqb (symbol r) S) (table_of db1)
  = filter (fun r => String.eqb (symbol r) S) (table_of db2) ->
  select_symbol flt db1 S = select_symbol flt db2 S.
Proof.
  intros H. unfold select_symbol. destruct (step flt 0); [|reflexivity].
  destruct (step flt 1); [|now destruct db1, db2].
  destruct db1 as [t1|], db2 as [t2|]; cbn [table_of] in H; try reflexivity.
  - now rewrite H.
  - now rewrite H.
  - now rewrite <- H.
Qed.

Lemma load_ext (flt : fault) (db1 db2 : Db) (sym : string) (period : option string) :
  stored_for db1 sym = stored_for db2 sym ->
  _load flt db1 sym period = _load flt db2 sym period.
Proof.
  intros H. unfold _load. now rewrite (select_ext flt db1 db2 (Py.upper sym) H).
Qed.

Lemma filter_delete_other (S : string) (keys : list key) (table : list Row) :
  (forall k, In k keys -> fst k <> S) ->
  filter (fun r => String.eqb (symbol r) S) (delete_using keys table)
  = filter (fun r => String.eqb (symbol r) S) table.
Proof.
  intros Hk. unfold delete_using. induction table as [|r t IH]; [reflexivity|].
  simpl. destruct (existsb (key_eqb (key_of r)) keys) eqn:E; simpl.
  - apply existsb_key in E. apply Hk in E. simpl in E.
    destruct (String.eqb_spec (symbol r) S); [contradiction | exact IH].
  - now rewrite IH.
Qed.

(** X12: An upsert, failed or not, of a batch without rows of a symbol changes
    no answer of [/quote] and [/chart] for that symbol. *)
Theorem upsert_leaves_other_symbols (wflt rflt : fault) (db : Db) (batch : list Row)
        (sym : string) (period : option string) :
  (forall r, In r batch -> symbol r <> Py.upper sym) ->
  quote rflt (snd (upsert_duckdb wflt db (frame_of_rows batch))) sym = quote rflt db sym
  /\ chart rflt (snd (upsert_duckdb wflt db (frame_of_rows batch))) sym period
     = chart rflt db sym period.
Proof.
  intros Hother.
  assert (Hs : stored_for (snd (upsert_duckdb wflt db (frame_of_rows batch))) sym
               = stored_for db sym).
  { unfold stored_for.
    assert (Hd : filter (fun r => String.eqb (symbol r) (Py.upper sym))
                        (delete_using (map key_of batch) (table_of db))
                 = filter (fun r => String.eqb (symbol r) (Py.upper sym)) (table_of db)).
    { apply filter_delete_other. intros k Hk. apply in_map_iff in Hk as [r [<- Hr]].
      now apply Hother. }
    destruct (upsert_table_cases wflt db batch) as [ -> | [ -> | -> ] ];
      [reflexivity | exact Hd |].
    rewrite filter_app, Hd.
    rewrite (filter_none _ batch); [apply List.app_nil_r|].
    intros r Hr. apply String.eqb_neq. now apply Hother. }
  unfold quote, chart. now rewrite !(load_ext rflt _ db sym _ Hs).
Qed.

Lemma upsert_leaves_other_symbols_witness :
  quote None (snd (upsert_duckdb (Some 4%nat) Sample.store
                                 (frame_of_rows [Sample.spy_new]))) "abc"
  = quote None Sample.store "abc".
Proof.
  apply (upsert_leaves_other_symbols (Some 4%nat) None Sample.store [Sample.spy_new]
           "abc" None).
  intros r [<-|[]]. discriminate.
Defined.

Lemma NoDup_map_inj (batch : list Row) (a b : Row) :
  NoDup (map key_of batch) -> In a batch -> In b batch -> key_of a = key_of b -> a = b.
Proof.
  induction batch as [|x l IH]; intros Hnd Ha Hb E; [contradiction|].
  simpl in Hnd. inversion Hnd as [|? ? Hnotin Hnd']; subst.
  destruct Ha as [->|Ha], Hb as [->|Hb]; try reflexivity.
  - exfalso. apply Hnotin. rewrite E. now apply in_map.
  - exfalso. apply Hnotin. rewrite <- E. now apply in_map.
  - now apply IH.
Qed.

(** X13: After a successful upsert of a batch without repeated keys, [/quote]
    for the symbol of a batch row that is at least as recent as every other
    row of that symbol, in the batch and in the store, reports that row. *)
Theorem upsert_then_quote (db : Db) (batch : list Row) (r : Row) (sym : string)
        (start : Timestamp) :
  NoDup (map key_of batch) ->
  In r batch -> symbol r = Py.upper sym ->
  (forall x, In x batch -> symbol x = Py.upper sym -> ts_leb (dt x) (dt r) = true) ->
  (forall x, In x (stored_for db sym) -> ts_leb (dt x) (dt r) = true) ->
  1 <= ts_month (dt r) <= 12 ->
  Cal.sub (dt r) (Cal.of_months 1) = Ok start ->
  exists q,
    snd (quote None (snd (upsert_duckdb None db (frame_of_rows batch))) sym) = Ok q
    /\ q_symbol q = symbol r /\ q_dt q = dt r
    /\ q_close q = close r /\ q_volume q = volume r.
Proof.
  intros Hnd Hr Hsym Hbatch Hold Hm Hsub.
  rewrite upsert_frame. cbn [snd].
  set (db' := Some (delete_using (map key_of batch) (table_of db) ++ batch)%list).
  assert (Hin : forall x, In x (stored_for db' sym) ->
            symbol x = Py.upper sym
            /\ ((In x (table_of db) /\ ~ In (key_of x) (map key_of batch)) \/ In x batch)).
  { intros x Hx. unfold stored_for, db' in Hx. cbn [table_of] in Hx.
    apply filter_In in Hx as [Hx Hs]. apply String.eqb_eq in Hs. split; [exact Hs|].
    apply in_app_or in Hx as [Hx|Hx]; [left | now right]. now apply in_delete_using. }
  assert (Hlat : is_latest (dt r) (stored_for db' sym)).
  { split.
    - apply in_map. unfold stored_for, db'. cbn [table_of]. apply filter_In. split.
      + apply in_or_app. now right.
      + now apply String.eqb_eq.
    - intros x Hx. destruct (Hin x Hx) as [Hs [[Ht _]|Hb]].
      + apply Hold. unfold stored_for. apply filter_In. split; [exact Ht|].
        now apply String.eqb_eq.
      + now apply Hbatch. }
  destruct (month_window_last db' sym (dt r) start Hlat Hm Hsub)
    as [before [last [Hl [Hlast Hd]]]].
  assert (E : last = r).
  { destruct (Hin last Hlast) as [Hs [[_ Hk]|Hb]].
    - exfalso. apply Hk. apply in_map_iff. exists r. split; [|exact Hr].
      unfold key_of. now rewrite Hd, Hs, Hsym.
    - apply (NoDup_map_inj batch last r Hnd Hb Hr).
      unfold key_of. now rewrite Hd, Hs, Hsym. }
  subst last.
  destruct (quote_answers None db' sym before r Hl) as [q [Hq [Hs [Hdt [Hc Hv]]]]].
  exists q. rewrite Hsym. repeat split; assumption.
Qed.

Lemma upsert_then_quote_witness :
  exists q,
    snd (quote None (snd (upsert_duckdb None Sample.store
                            (frame_of_rows [Sample.bar "ABC" (Sample.day 2024 7 1) 13])))
               "abc") = Ok q
    /\ q_dt q = Sample.day 2024 7 1 /\ q_close q = 13%Q.
Proof.
  destruct (upsert_then_quote Sample.store [Sample.bar "ABC" (Sample.day 2024 7 1) 13]
              (Sample.bar "ABC" (Sample.day 2024 7 1) 13) "abc" (Sample.day 2024 6 1))
    as [q [Hq [_ [Hd [Hc _]]]]].
  - simpl. constructor; [intros []|constructor].
  - now left.
  - reflexivity.
  - intros x [<-|[]] _. reflexivity.
  - intros x Hx. simpl in Hx. destruct Hx as [<-|[<-|[<-|[<-|[]]]]]; reflexivity.
  - simpl. lia.
  - reflexivity.
  - exists q. split; [exact Hq|]. split; [exact Hd | exact Hc].
Defined.

Lemma upper_char_idem (c : ascii) : Py.upper_char (Py.upper_char c) = Py.upper_char c.
Proof. destruct c as [[] [] [] [] [] [] [] []]; reflexivity. Qed.

Lemma upper_lower_char (c : ascii) : Py.upper_char (Py.lower_char c) = Py.upper_char c.
Proof. destruct c as [[] [] [] [] [] [] [] []]; reflexivity. Qed.

Lemma upper_idem (s : string) : Py.upper (Py.upper s) = Py.upper s.
Proof.
  unfold Py.upper. induction s as [|c s IH]; simpl; [reflexivity|].
  now rewrite upper_char_idem, IH.
Qed.

Lemma upper_lower (s : string) : Py.upper (Py.lower s) = Py.upper s.
Proof.
  unfold Py.upper, Py.lower. induction s as [|c s IH]; simpl; [reflexivity|].
  now rewrite upper_lower_char, IH.
Qed.

(** X14: For a symbol written in ASCII the letter case does not matter:
    [/quote] and [/chart] answer the same, accesses included, for the
    symbol, its lower-case form and its upper-case form. *)
Theorem symbol_case_is_ignored (flt : fault) (db : Db) (sym : string)
        (period : option string) :
  Py.all_chars More.is_ascii sym = true ->
  quote flt db (Py.lower sym) = quote flt db sym
  /\ quote flt db (Py.upper sym) = quote flt db sym
  /\ chart flt db (Py.lower sym) period = chart flt db sym period
  /\ chart flt db (Py.upper sym) period = chart flt db sym period.
Proof.
  intros _. unfold quote, chart, _load.
  rewrite !upper_lower, !upper_idem. repeat split.
Qed.

Lemma symbol_case_is_ignored_witness :
  quote None Sample.store "abc" = quote None Sample.store "aBc"
  /\ chart None Sample.store "ABC" (Some "6mo") = chart None Sample.store "aBc" (Some "6mo").
Proof.
  destruct (symbol_case_is_ignored None Sample.store "aBc" (Some "6mo") eq_refl)
    as [Hq [_ [_ Hc]]].
  split; [exact Hq | exact Hc].
Defined.

End WriteThenRead.

(** ** More on [add_emas] *)

Section IndicatorsMore.

Lemma nrows_setitem (name : string) (col : list value) (df : DataFrame) :
  nrows (setitem name col df) = nrows df.
Proof. unfold setitem. now destruct (mem name (labels df)). Qed.

Lemma fold_raised (ws : list Z) (e : exn) :
  fold_left (fun acc w => d <- acc ;; add_ema d w) ws (Raise e) = Raise e.
Proof. induction ws as [|w ws IH]; [reflexivity | exact IH]. Qed.

Lemma add_emas_shape (col : list value) (closes : list Q) (ws : list Z) :
  numeric col = Ok closes -> Forall (fun w => 1 <= w) ws ->
  forall df, NoDup (labels df) -> getitem "close" df = Ok col ->
  exists df' extra,
    fold_left (fun acc w => d <- acc ;; add_ema d w) ws (Ok df) = Ok df'
    /\ nrows df' = nrows df
    /\ NoDup (labels df')
    /\ labels df' = (labels df ++ extra)%list
    /\ (forall name, In name extra -> exists w, In w ws /\ name = ema_name w).
Proof.
  intros Hn. induction ws as [|w ws IH]; intros Hws df Hnd Hc.
  - exists df, []. simpl. rewrite List.app_nil_r. repeat split; auto. intros name [].
  - inversion Hws as [|w' ws' Hw Hws']; subst.
    set (d1 := setitem (ema_name w) (map VNum (ewm_mean w closes)) df).
    destruct (IH Hws' d1) as [df' [extra [Hfold [Hrows [Hnd' [Hlab Hex]]]]]].
    + now apply NoDup_labels_setitem.
    + unfold d1. rewrite getitem_setitem_other by apply ema_name_not_close. exact Hc.
    + unfold d1 in Hrows, Hlab. rewrite nrows_setitem in Hrows.
      rewrite labels_setitem in Hlab.
      destruct (mem (ema_name w) (labels df)) eqn:E.
      * exists df', extra. split; [|repeat split; auto].
        -- simpl. cbn [bind]. rewrite (add_ema_ok df w col closes Hc Hn Hw). exact Hfold.
        -- intros name Hin. destruct (Hex name Hin) as [w0 [Hw0 ->]].
           exists w0. split; [now right | reflexivity].
      * exists df', (ema_name w :: extra). split; [|repeat split; auto].
        -- simpl. cbn [bind]. rewrite (add_ema_ok df w col closes Hc Hn Hw). exact Hfold.
        -- rewrite Hlab, <- app_assoc. reflexivity.
        -- intros name [<-|Hin]; [exists w; split; [now left | reflexivity]|].
           destruct (Hex name Hin) as [w0 [Hw0 ->]].
           exists w0. split; [now right | reflexivity].
Qed.

(** X15: On a frame with rows, distinct labels and a numeric [close] column,
    and for windows of at least 1, [add_emas] keeps the number of rows and
    the distinctness of the labels, puts the columns it adds after the
    existing ones, each under the name of one of the windows, and leaves
    every column that is not named after a window as it was. *)
Theorem add_emas_keeps_frame (df : DataFrame) (ws : list Z)
        (col : list value) (closes : list Q) :
  df_empty df = false ->
  NoDup (labels df) ->
  getitem "close" df = Ok col ->
  numeric col = Ok closes ->
  Forall (fun w => 1 <= w) ws ->
  exists df' extra,
    add_emas df ws = Ok df'
    /\ nrows df' = nrows df
    /\ NoDup (labels df')
    /\ labels df' = (labels df ++ extra)%list
    /\ (forall name, In name extra -> exists w, In w ws /\ name = ema_name w)
    /\ (forall name, (forall w, In w ws -> name <> ema_name w) ->
          getitem name df' = getitem name df).
Proof.
  intros He Hnd Hc Hn Hws. unfold add_emas. rewrite He.
  destruct (add_emas_shape col closes ws Hn Hws df Hnd Hc)
    as [df' [extra [Hfold [Hrows [Hnd' [Hlab Hex]]]]]].
  destruct (add_emas_fold col closes ws Hn Hws df Hnd Hc) as [df'' [Hfold' [_ Hkeep]]].
  rewrite Hfold in Hfold'. injection Hfold' as <-.
  exists df', extra. repeat split; assumption.
Qed.

Lemma add_emas_keeps_frame_witness :
  exists df',
    add_emas Sample.abc_fetched EMA_WINDOWS = Ok df'
    /\ nrows df' = 3%nat
    /\ labels df' = ["dt"; "open"; "high"; "low"; "close"; "volume"; "symbol";
                     "ema8"; "ema21"; "ema50"]
    /\ getitem "close" df' = getitem "close" Sample.abc_fetched.
Proof.
  destruct (add_emas_keeps_frame Sample.abc_fetched EMA_WINDOWS
              (map (fun r => VNum (close r)) Sample.abc_bars)
              [10 # 1; 12 # 1; 11 # 1]%Q)
    as [df' [extra [Hrun [Hrows [_ [_ [_ Hkeep]]]]]]].
  - reflexivity.
  - unfold labels. simpl. repeat constructor; simpl; intuition discriminate.
  - reflexivity.
  - reflexivity.
  - repeat constructor; lia.
  - exists df'. split; [exact Hrun|]. split; [exact Hrows|]. split.
    + vm_compute in Hrun. injection Hrun as <-. reflexivity.
    + apply Hkeep. intros w [<-|[<-|[<-|[]]]]; discriminate.
Defined.

(** X16: On a frame with rows: without a [close] column, [add_emas] with at
    least one window raises KeyError('close'); with distinct labels and a
    numeric [close] column, a window below 1 makes it raise the ValueError
    of the span. *)
Theorem add_emas_errors (df : DataFrame) (ws : list Z) :
  df_empty df = false ->
  (~ In "close" (labels df) -> ws <> [] ->
   add_emas df ws = Raise (KeyError "close"))
  /\ (forall col closes,
        NoDup (labels df) -> getitem "close" df = Ok col -> numeric col = Ok closes ->
        Exists (fun w => w < 1) ws ->
        add_emas df ws = Raise (ValueError "span must satisfy: span >= 1")).
Proof.
  intros He. unfold add_emas. rewrite He. split.
  - intros Hno Hws. destruct ws as [|w ws]; [contradiction|].
    simpl. unfold add_ema at 2, getitem.
    rewrite filter_absent by exact Hno. cbn [bind]. apply fold_raised.
  - intros col closes Hnd Hc Hn Hex. clear He. revert df Hnd Hc.
    induction Hex as [w ws Hw|w ws Hex IH]; intros df Hnd Hc.
    + simpl. unfold add_ema at 2. rewrite Hc. cbn [bind].
      destruct (Z.ltb_spec w 1) as [_|H]; [|lia]. apply fold_raised.
    + destruct (Z.ltb_spec w 1) as [Hlt|Hge].
      * simpl. unfold add_ema at 2. rewrite Hc. cbn [bind].
        destruct (Z.ltb_spec w 1) as [_|H]; [|lia]. apply fold_raised.
      * simpl. cbn [bind]. rewrite (add_ema_ok df w col closes Hc Hn Hge).
        apply IH.
        -- now apply NoDup_labels_setitem.
        -- rewrite getitem_setitem_other by apply ema_name_not_close. exact Hc.
Qed.

Lemma add_emas_errors_witness :
  add_emas Sample.abc_fetched [8; 0; 21]
  = Raise (ValueError "span must satisfy: span >= 1").
Proof.
  apply (proj2 (add_emas_errors Sample.abc_fetched [8; 0; 21] eq_refl)
           (map (fun r => VNum (close r)) Sample.abc_bars) [10 # 1; 12 # 1; 11 # 1]%Q).
  - unfold labels. simpl. repeat constructor; simpl; intuition discriminate.
  - reflexivity.
  - reflexivity.
  - apply Exists_cons_tl, Exists_cons_hd. lia.
Defined.

Lemma alpha_of_span_range (w : Z) :
  1 <= w -> (0 <= alpha_of_span w /\ alpha_of_span w <= 1)%Q.
Proof.
  intros Hw. rewrite (alpha_of_span_eq w Hw).
  assert (H1 : (1 <= inject_Z w)%Q) by (change 1%Q with (inject_Z 1); now rewrite <- Zle_Qle).
  assert (Hpos : (0 < inject_Z w + 1)%Q) by lra.
  split.
  - apply Qle_shift_div_l; [exact Hpos | lra].
  - apply Qle_shift_div_r; [exact Hpos | lra].
Qed.

Lemma ewm_next_range (a x c lo hi : Q) :
  (0 <= a)%Q -> (a <= 1)%Q ->
  (lo <= x)%Q -> (x <= hi)%Q -> (lo <= c)%Q -> (c <= hi)%Q ->
  (lo <= ewm_next a x c /\ ewm_next a x c <= hi)%Q.
Proof.
  intros Ha0 Ha1 Hx0 Hx1 Hc0 Hc1. rewrite ewm_next_eq. split; nra.
Qed.

Lemma ewm_scan_range (a lo hi : Q) (vals : list Q) :
  (0 <= a)%Q -> (a <= 1)%Q ->
  Forall (fun c => (lo <= c /\ c <= hi)%Q) vals ->
  forall x, (lo <= x)%Q -> (x <= hi)%Q ->
  Forall (fun e => (lo <= e /\ e <= hi)%Q) (ewm_scan a x vals).
Proof.
  intros Ha0 Ha1. induction 1 as [|c rest [Hc0 Hc1] _ IH]; intros x Hx0 Hx1; simpl.
  - constructor.
  - destruct (ewm_next_range a x c lo hi Ha0 Ha1 Hx0 Hx1 Hc0 Hc1) as [H0 H1].
    constructor; [now split | now apply IH].
Qed.

Lemma ewm_mean_range (w : Z) (lo hi : Q) (vals : list Q) :
  1 <= w ->
  Forall (fun c => (lo <= c /\ c <= hi)%Q) vals ->
  Forall (fun e => (lo <= e /\ e <= hi)%Q) (ewm_mean w vals).
Proof.
  intros Hw Hv. destruct (alpha_of_span_range w Hw) as [Ha0 Ha1].
  destruct Hv as [|c rest [Hc0 Hc1] Hrest]; simpl; [constructor|].
  constructor; [now split | now apply ewm_scan_range].
Qed.

(** X17: The indicator stays within the prices: on a frame as above whose
    closes all lie between [lo] and [hi], every value of every [ema{w}]
    column lies between [lo] and [hi]. *)
Theorem ema_within_close_range (df : DataFrame) (ws : list Z)
        (col : list value) (closes : list Q) (lo hi : Q) :
  df_empty df = false ->
  NoDup (labels df) ->
  getitem "close" df = Ok col ->
  numeric col = Ok closes ->
  Forall (fun w => 1 <= w) ws ->
  Forall (fun c => (lo <= c /\ c <= hi)%Q) closes ->
  exists df',
    add_emas df ws = Ok df'
    /\ forall w, In w ws ->
         exists emas,
           getitem (ema_name w) df' = Ok (map VNum emas)
           /\ Forall (fun e => (lo <= e /\ e <= hi)%Q) emas.
Proof.
  intros He Hnd Hc Hn Hws Hrange. unfold add_emas. rewrite He.
  destruct (add_emas_fold col closes ws Hn Hws df Hnd Hc) as [df' [Hfold [Hin _]]].
  exists df'. split; [exact Hfold|].
  intros w Hw. exists (ewm_mean w closes). split; [now apply Hin|].
  apply ewm_mean_range; [|exact Hrange].
  rewrite Forall_forall in Hws. now apply Hws.
Qed.

Lemma ema_within_close_range_witness :
  exists df' emas,
    add_emas Sample.abc_fetched EMA_WINDOWS = Ok df'
    /\ getitem "ema21" df' = Ok (map VNum emas)
    /\ Forall (fun e => (10 <= e /\ e <= 12)%Q) emas.
Proof.
  destruct (ema_within_close_range Sample.abc_fetched EMA_WINDOWS
              (map (fun r => VNum (close r)) Sample.abc_bars)
              [10 # 1; 12 # 1; 11 # 1]%Q 10 12)
    as [df' [Hrun Hcols]].
  - reflexivity.
  - unfold labels. simpl. repeat constructor; simpl; intuition discriminate.
  - reflexivity.
  - reflexivity.
  - repeat constructor; lia.
  - repeat constructor; unfold Qle; simpl; lia.
  - destruct (Hcols 21) as [emas [Hget Hr]]; [simpl; tauto|].
    exists df', emas. split; [exact Hrun|]. split; [exact Hget | exact Hr].
Defined.

End IndicatorsMore.

(** ** The frame that [fetch] returns *)

Section FetchMore.

Lemma map_fst_combine (cols : list string) (data : list (list value)) :
  List.length data = List.length cols -> map fst (combine cols data) = cols.
Proof.
  revert data. induction cols as [|c cols IH]; intros [|d data] H; simpl in *;
    try reflexivity; try discriminate.
  f_equal. apply IH. now injection H.
Qed.

Lemma filter_single (name : string) (cols : list (string * list value)) :
  NoDup (map fst cols) -> In name (map fst cols) ->
  exists data,
    filter (fun c => String.eqb (fst c) name) cols = [(name, data)]
    /\ In (name, data) cols.
Proof.
  induction cols as [|[n d] cols IH]; simpl; intros Hnd Hin; [contradiction|].
  inversion Hnd as [|? ? Hnotin Hnd']; subst.
  destruct (String.eqb_spec n name) as [->|Hne].
  - exists d. split; [|now left]. f_equal. now apply filter_absent.
  - destruct Hin as [Hin|Hin]; [contradiction|].
    destruct (IH Hnd' Hin) as [data [Hf Hd]]. exists data. split; [exact Hf | now right].
Qed.

Lemma filter_filter_label (a b : string) (cols : list (string * list value)) :
  filter (fun c => String.eqb (fst c) a) (filter (fun c => String.eqb (fst c) b) cols)
  = if String.eqb a b then filter (fun c => String.eqb (fst c) a) cols else [].
Proof.
  induction cols as [|c cols IH]; simpl; [now destruct (String.eqb a b)|].
  destruct (String.eqb_spec (fst c) b) as [Eb|Eb]; simpl.
  - destruct (String.eqb_spec (fst c) a) as [Ea|Ea]; rewrite IH;
      destruct (String.eqb_spec a b) as [E|E]; try reflexivity; congruence.
  - rewrite IH. destruct (String.eqb_spec a b) as [E|E]; [|reflexivity].
    destruct (String.eqb_spec (fst c) a) as [Ea|Ea]; [congruence | reflexivity].
Qed.

Lemma select_filter (name : string) (names : list string)
      (cols : list (string * list value)) :
  NoDup names -> In name names ->
  filter (fun c => String.eqb (fst c) name) (select names cols)
  = filter (fun c => String.eqb (fst c) name) cols.
Proof.
  unfold select. induction names as [|n names IH]; intros Hnd Hin; [contradiction|].
  inversion Hnd as [|? ? Hnotin Hnd']; subst. simpl.
  rewrite filter_app, filter_filter_label.
  destruct (String.eqb_spec name n) as [->|Hne].
  - assert (Hrest : filter (fun c => String.eqb (fst c) n)
                     (flat_map (fun m => filter (fun c => String.eqb (fst c) m) cols) names)
                    = []).
    { apply filter_absent.
      intros H. apply in_map_iff in H as [[x d] [Hx Hc]]. simpl in Hx. subst x.
      apply in_flat_map in Hc as [m [Hm Hc]]. apply filter_In in Hc as [_ Hc].
      apply String.eqb_eq in Hc. simpl in Hc. subst m. contradiction. }
    rewrite Hrest. apply List.app_nil_r.
  - destruct Hin as [Hin|Hin]; [congruence|]. now apply IH.
Qed.

Lemma select_labels (names : list string) (cols : list (string * list value)) :
  NoDup (map fst cols) -> (forall n, In n names -> In n (map fst cols)) ->
  map fst (select names cols) = names.
Proof.
  intros Hnd. unfold select. induction names as [|n names IH]; intros Hall; [reflexivity|].
  simpl. rewrite map_app.
  destruct (filter_single n cols Hnd (Hall n (or_introl eq_refl))) as [d [-> _]].
  simpl. f_equal. apply IH. intros m Hm. apply Hall. now right.
Qed.

Lemma reset_index_lengths (raw : RawFrame) (r : col_index * list (list value)) :
  reset_index raw = Ok r ->
  List.length (first_levels (fst r)) = S (List.length (first_levels (col_labels raw)))
  /\ List.length (snd r) = S (List.length (col_data raw)).
Proof.
  unfold reset_index. destruct (col_labels raw) as [l|l].
  - destruct (mem _ l); [intros [=]|]. intros [= <-]. simpl. now split.
  - destruct (existsb _ l); [intros [=]|]. intros [= <-]. simpl. now split.
Qed.

Lemma rename_to_dt_length (cols : list string) :
  List.length (rename_to_dt cols) = List.length cols.
Proof.
  unfold rename_to_dt. destruct (mem "date" cols); [apply length_map|].
  destruct (mem "datetime" cols); [apply length_map | reflexivity].
Qed.

(** X18: For a download with rows, one data column per label, normalised
    labels that are distinct and hold the six required ones, [fetch]
    returns a frame with rows whose columns are, in this order, dt, open,
    high, low, close, volume and symbol, whatever the order and the extra
    columns of the download; each of the six is the source column of that
    label and the symbol column repeats the upper-cased ticker. *)
Theorem fetch_canonical_frame (raw : RawFrame) (sym : string) (cols : list string) :
  index raw <> [] ->
  List.length (col_data raw) = List.length (first_levels (col_labels raw)) ->
  normalized_labels raw = Ok cols ->
  NoDup cols ->
  (forall c, In c required -> In c cols) ->
  exists df data,
    reset_index raw = Ok data
    /\ fetch (Ok (Some raw)) sym = Ok df
    /\ labels df = ["dt"; "open"; "high"; "low"; "close"; "volume"; "symbol"]
    /\ nrows df = List.length (index raw)
    /\ df_empty df = false
    /\ getitem "symbol" df = Ok (repeat (VStr (Py.upper sym)) (List.length (index raw)))
    /\ (forall c, In c required ->
          exists col, getitem c df = Ok col /\ In (c, col) (combine cols (snd data))).
Proof.
  intros Hidx Hlen Hnorm Hnd Hreq.
  pose proof (fetch_checked raw sym cols Hidx Hnorm) as Hf.
  assert (Hmiss : missing_of cols = []).
  { destruct (missing_of cols) as [|c m] eqn:E; [reflexivity|].
    assert (Hc : In c (missing_of cols)) by (rewrite E; now left).
    apply missing_of_In in Hc as [Hc Hn]. exfalso. apply Hn, Hreq, Hc. }
  rewrite Hmiss in Hf. unfold normalized_labels in Hnorm.
  destruct (reset_index raw) as [r|e] eqn:Er; [|discriminate]. cbn [bind] in Hnorm.
  injection Hnorm as Hcols.
  destruct (reset_index_lengths raw r Er) as [Hl1 Hl2].
  assert (Hlen' : List.length (snd r) = List.length cols).
  { rewrite <- Hcols, rename_to_dt_length. unfold flatten_labels.
    rewrite length_map. lia. }
  set (pairs := combine cols (snd r)) in *.
  assert (Hfst : map fst pairs = cols) by now apply map_fst_combine.
  assert (Hndp : NoDup (map fst pairs)) by now rewrite Hfst.
  set (df0 := mkDf (List.length (index raw)) (select required pairs)) in *.
  assert (Hlab0 : labels df0 = required).
  { unfold labels, df0. cbn [columns]. apply select_labels; [exact Hndp|].
    intros n Hn. rewrite Hfst. now apply Hreq. }
  assert (Hnd0 : NoDup (labels df0)).
  { rewrite Hlab0. unfold required. repeat constructor; simpl; intuition discriminate. }
  cbv zeta in Hf. cbn [nrows] in Hf. fold df0 in Hf.
  eexists. exists r. split; [reflexivity|]. split; [exact Hf|].
  split; [|split; [|split; [|split]]].
  - rewrite labels_setitem, Hlab0. reflexivity.
  - apply nrows_setitem.
  - unfold df_empty. rewrite nrows_setitem. cbn [nrows df0].
    destruct (index raw); [contradiction|]. simpl.
    assert (Hl : labels (setitem "symbol" (repeat (VStr (Py.upper sym))
                                            (S (List.length l))) df0) <> []).
    { rewrite labels_setitem, Hlab0. discriminate. }
    unfold labels in Hl. destruct (columns _); [contradiction | reflexivity].
  - now apply getitem_setitem_same.
  - intros c Hc.
    destruct (filter_single c pairs Hndp) as [col [Hfc Hin]].
    { rewrite Hfst. now apply Hreq. }
    exists col. split; [|exact Hin].
    rewrite getitem_setitem_other.
    + unfold getitem, df0. cbn [columns]. rewrite select_filter.
      * now rewrite Hfc.
      * unfold required. repeat constructor; simpl; intuition discriminate.
      * exact Hc.
    + intros ->. unfold required in Hc. simpl in Hc. intuition discriminate.
Qed.

Lemma fetch_canonical_frame_witness :
  exists df,
    fetch (Ok (Some Sample.raw_abc)) "abc" = Ok df
    /\ labels df = ["dt"; "open"; "high"; "low"; "close"; "volume"; "symbol"]
    /\ getitem "symbol" df = Ok [VStr "ABC"; VStr "ABC"; VStr "ABC"].
Proof.
  destruct (fetch_canonical_frame Sample.raw_abc "abc"
              ["dt"; "close"; "high"; "low"; "open"; "volume"])
    as [df [data [_ [Hf [Hl [_ [_ [Hs _]]]]]]]].
  - discriminate.
  - reflexivity.
  - reflexivity.
  - repeat constructor; simpl; intuition discriminate.
  - intros c Hc. unfold required in Hc. simpl in *. intuition.
  - exists df. split; [exact Hf|]. split; [exact Hl | exact Hs].
Defined.

End FetchMore.

(** ** A whole turn of [main] *)

Section Pipeline.

Variable download : string -> result (option RawFrame).
Variable db_fault : string -> fault.

Lemma numeric_closes (cs : list Yf.Candle) :
  numeric (map (fun c => VNum (Yf.c_close c)) cs) = Ok (map Yf.c_close cs).
Proof. induction cs as [|c cs IH]; simpl; [reflexivity | now rewrite IH]. Qed.

Lemma fetch_yf (ticker sym : string) (c : Yf.Candle) (cs : list Yf.Candle) :
  fetch (Ok (Some (Yf.frame ticker (c :: cs)))) sym
  = Ok (mkDf (S (List.length cs))
          [ ("dt", map (fun c => VTs (Yf.c_dt c)) (c :: cs));
            ("open", map (fun c => VNum (Yf.c_open c)) (c :: cs));
            ("high", map (fun c => VNum (Yf.c_high c)) (c :: cs));
            ("low", map (fun c => VNum (Yf.c_low c)) (c :: cs));
            ("close", map (fun c => VNum (Yf.c_close c)) (c :: cs));
            ("volume", map (fun c => VInt (Yf.c_volume c)) (c :: cs));
            ("symbol", repeat (VStr (Py.upper sym)) (S (List.length cs))) ]).
Proof.
  unfold fetch, Yf.frame. cbn [bind index List.length map Nat.eqb].
  rewrite !length_map. reflexivity.
Qed.

Lemma add_emas_yf (sym : string) (c : Yf.Candle) (cs : list Yf.Candle) :
  add_emas (Yf.fetched sym (c :: cs)) EMA_WINDOWS
  = Ok (Yf.with_emas sym (c :: cs)
          (ewm_mean 8 (map Yf.c_close (c :: cs)))
          (ewm_mean 21 (map Yf.c_close (c :: cs)))
          (ewm_mean 50 (map Yf.c_close (c :: cs)))).
Proof.
  unfold add_emas, EMA_WINDOWS. change (df_empty (Yf.fetched sym (c :: cs))) with false.
  cbn [fold_left bind].
  rewrite add_ema_ok with (col := map (fun c => VNum (Yf.c_close c)) (c :: cs))
                          (closes := map Yf.c_close (c :: cs));
    [|reflexivity | apply numeric_closes | lia].
  cbn [bind].
  rewrite add_ema_ok with (col := map (fun c => VNum (Yf.c_close c)) (c :: cs))
                          (closes := map Yf.c_close (c :: cs));
    [|reflexivity | apply numeric_closes | lia].
  cbn [bind].
  rewrite add_ema_ok with (col := map (fun c => VNum (Yf.c_close c)) (c :: cs))
                          (closes := map Yf.c_close (c :: cs));
    [|reflexivity | apply numeric_closes | lia].
  reflexivity.
Qed.

Lemma frame_of_yf_rows (sym : string) (cs : list Yf.Candle) :
  forall e8 e21 e50 : list Q,
    List.length e8 = List.length cs ->
    List.length e21 = List.length cs ->
    List.length e50 = List.length cs ->
    frame_of_rows (map (Yf.row sym) (combine cs (combine e8 (combine e21 e50))))
    = Yf.with_emas sym cs e8 e21 e50.
Proof.
  induction cs as [|c cs IH]; intros [|x8 e8] [|x21 e21] [|x50 e50] H8 H21 H50;
    try discriminate; [reflexivity|].
  simpl in H8, H21, H50.
  specialize (IH e8 e21 e50 ltac:(lia) ltac:(lia) ltac:(lia)).
  unfold frame_of_rows, Yf.with_emas, Yf.fetched in *. cbn [columns app] in *.
  injection IH as Hn Hdt Ho Hh Hl Hc Hv Hs H8' H21' H50'.
  cbn [combine map List.length Yf.row repeat dt open high low close volume symbol
           ema8 ema21 ema50].
  now rewrite Hn, Hdt, Ho, Hh, Hl, Hc, Hv, Hs, H8', H21', H50'.
Qed.

(** X19: One turn of [main] on a well-typed download with at least one bar,
    the store not failing: the turn ends normally, logs the connection and
    the number of bars, and the store then holds its former rows without
    those of the keys downloaded, followed by the downloaded bars under the
    upper-cased symbol, each with the ema8, ema21 and ema50 of its day. *)
Theorem main_body_stores_bars (sym ticker : string) (cs : list Yf.Candle)
        (db : Db) (log : list event) :
  download sym = Ok (Some (Yf.frame ticker cs)) ->
  cs <> [] ->
  db_fault sym = None ->
  main_body download db_fault sym (db, log)
  = Ok (Some (delete_using (map key_of (Yf.rows sym cs)) (table_of db)
              ++ Yf.rows sym cs)%list,
        (log ++ [Connecting sym; Upserted sym (List.length cs)])%list).
Proof.
  intros Hd Hcs Hflt. destruct cs as [|c cs]; [contradiction|].
  unfold main_body. rewrite Hd, fetch_yf.
  change (mkDf (S (List.length cs)) _) with (Yf.fetched sym (c :: cs)).
  change (df_empty (Yf.fetched sym (c :: cs))) with false. cbv iota.
  rewrite add_emas_yf. cbn [bind]. rewrite Hflt.
  rewrite <- frame_of_yf_rows by (rewrite ewm_mean_length; apply length_map).
  fold (Yf.rows sym (c :: cs)). rewrite upsert_frame.
  assert (Hlen : nrows (frame_of_rows (Yf.rows sym (c :: cs))) = List.length (c :: cs)).
  { unfold Yf.rows.
    rewrite frame_of_yf_rows by (rewrite ewm_mean_length; apply length_map).
    reflexivity. }
  rewrite Hlen. reflexivity.
Qed.

End Pipeline.

Lemma main_body_stores_bars_witness :
  exists stored,
    main Sample.world_download Sample.world_fault ["abc"] None
    = Ok (Some stored, [Connecting "abc"; Upserted "abc" 3])
    /\ map symbol stored = ["ABC"; "ABC"; "ABC"]
    /\ map close stored = [10 # 1; 12 # 1; 11 # 1]%Q.
Proof.
  pose proof (main_body_stores_bars Sample.world_download Sample.world_fault "abc" "ABC"
                [ Yf.mkCandle (Sample.day 2024 6 26) 10 10 10 10 1000;
                  Yf.mkCandle (Sample.day 2024 6 27) 12 12 12 12 1000;
                  Yf.mkCandle (Sample.day 2024 6 28) 11 11 11 11 1000 ]
                None [] eq_refl ltac:(discriminate) eq_refl) as H.
  eexists. split.
  - unfold main. cbn [main_loop]. rewrite H. cbn [bind main_loop]. reflexivity.
  - split; reflexivity.
Defined.


Section Idle.

Variable download : string -> result (option RawFrame).
Variable db_fault : string -> fault.

Lemma main_loop_idle (tickers : list string) :
  (forall sym, In sym tickers ->
     (exists e, fetch (download sym) sym = Raise e)
     \/ (exists d, fetch (download sym) sym = Ok d /\ df_empty d = true)) ->
  forall db log,
  exists evs,
    main_loop download db_fault tickers (db, log) = Ok (db, (log ++ evs)%list)
    /\ handled evs = tickers
    /\ Forall (fun ev => is_outcome ev = true) evs.
Proof.
  induction tickers as [|sym rest IH]; intros H db log.
  - exists []. simpl. rewrite List.app_nil_r. repeat split. constructor.
  - assert (Hstep : exists ev,
              main_body download db_fault sym (db, log) = Ok (db, (log ++ [ev])%list)
              /\ is_outcome ev = true /\ event_symbol ev = sym).
    { unfold main_body. destruct (H sym (or_introl eq_refl)) as [[e He]|[d [Hd Hempty]]].
      - rewrite He. exists (FetchFailed sym e). repeat split.
      - rewrite Hd, Hempty. exists (NoData sym). repeat split. }
    destruct Hstep as [ev [Hbody [Hout Hsym]]].
    destruct (IH (fun s Hs => H s (or_intror Hs)) db (log ++ [ev])%list)
      as [evs [Hrun [Hh Hall]]].
    exists (ev :: evs). split; [|split].
    + cbn [main_loop]. rewrite Hbody. cbn [bind]. rewrite Hrun, <- app_assoc.
      reflexivity.
    + unfold handled in *. simpl. rewrite Hout. simpl. now rewrite Hsym, Hh.
    + now constructor.
Qed.

(** X20: If no ticker yields data, each fetch raising or giving no rows, the
    run ends normally, closes the turn of every ticker, never connects to
    the store and leaves it exactly as it was (a store that does not exist
    is not created). *)
Theorem main_without_data_keeps_store (TICKERS : list string) (db : Db) :
  (forall sym, In sym TICKERS ->
     (exists e, fetch (download sym) sym = Raise e)
     \/ (exists d, fetch (download sym) sym = Ok d /\ df_empty d = true)) ->
  exists log,
    main download db_fault TICKERS db = Ok (db, log)
    /\ handled log = TICKERS
    /\ (forall sym, ~ In (Connecting sym) log).
Proof.
  intros H. destruct (main_loop_idle TICKERS H db []) as [log [Hrun [Hh Hall]]].
  exists log. split; [exact Hrun|]. split; [exact Hh|].
  intros sym Hin. rewrite Forall_forall in Hall. apply Hall in Hin. discriminate Hin.
Qed.

End Idle.

Lemma main_without_data_keeps_store_witness :
  main Sample.world_download Sample.world_fault ["BAD"; "DEL"] Sample.store
  = Ok (Sample.store, [FetchFailed "BAD" (FetchError "no route to host"); NoData "DEL"]).
Proof.
  destruct (main_without_data_keeps_store Sample.world_download Sample.world_fault
              ["BAD"; "DEL"] Sample.store) as [log [Hrun _]].
  - intros sym [<-|[<-|[]]]; [left | right]; eexists; [|split]; reflexivity.
  - rewrite Hrun. vm_compute in Hrun. injection Hrun as <-. reflexivity.
Defined.

(** ** The universe read from the environment *)

Section Universe.

Lemma lstrip_shape (s : string) :
  Py.lstrip s = "" \/ exists c r, Py.lstrip s = String c r /\ Py.is_space c = false.
Proof.
  induction s as [|c s IH]; [now left|]. simpl.
  destruct (Py.is_space c) eqn:E; [exact IH|]. right. now exists c, s.
Qed.

Lemma lstrip_fixed (c : ascii) (r : string) :
  Py.is_space c = false -> Py.lstrip (String c r) = String c r.
Proof. intros H. simpl. now rewrite H. Qed.

Lemma lstrip_idem (s : string) : Py.lstrip (Py.lstrip s) = Py.lstrip s.
Proof.
  destruct (lstrip_shape s) as [->|[c [r [-> H]]]]; [reflexivity | now apply lstrip_fixed].
Qed.

Lemma lstrip_snoc (a : string) (c : ascii) :
  Py.is_space c = false ->
  Py.lstrip (a ++ String c "") = Py.lstrip a ++ String c "".
Proof.
  intros H. induction a as [|d a IH]; simpl; [now rewrite H|].
  destruct (Py.is_space d); [exact IH | reflexivity].
Qed.

Lemma rstrip_keeps_head (c : ascii) (r : string) :
  Py.is_space c = false ->
  exists r', Py.rstrip (String c r) = String c r'.
Proof.
  intros H. unfold Py.rstrip.
  change (String c r) with (String c "" ++ r).
  rewrite str_rev_append. change (Py.str_rev (String c "")) with (String c "").
  rewrite lstrip_snoc by exact H. rewrite str_rev_append.
  eexists. reflexivity.
Qed.

Lemma strip_idem (s : string) : Py.strip (Py.strip s) = Py.strip s.
Proof.
  unfold Py.strip.
  assert (Hl : Py.lstrip (Py.rstrip (Py.lstrip s)) = Py.rstrip (Py.lstrip s)).
  { destruct (lstrip_shape s) as [->|[c [r [-> H]]]]; [reflexivity|].
    destruct (rstrip_keeps_head c r H) as [r' ->]. now apply lstrip_fixed. }
  rewrite Hl. unfold Py.rstrip at 1 2.
  rewrite str_rev_involutive, lstrip_idem. reflexivity.
Qed.

Lemma str_map_append (f : ascii -> ascii) (a b : string) :
  Py.str_map f (a ++ b) = Py.str_map f a ++ Py.str_map f b.
Proof. induction a as [|c a IH]; simpl; [reflexivity | now rewrite IH]. Qed.

Lemma str_map_rev (f : ascii -> ascii) (s : string) :
  Py.str_rev (Py.str_map f s) = Py.str_map f (Py.str_rev s).
Proof.
  induction s as [|c s IH]; [reflexivity|].
  change (String c s) with (String c "" ++ s).
  rewrite str_map_append, !str_rev_append, str_map_append, IH. reflexivity.
Qed.

Lemma upper_char_space (c : ascii) : Py.is_space (Py.upper_char c) = Py.is_space c.
Proof. destruct c as [[] [] [] [] [] [] [] []]; reflexivity. Qed.

Lemma lstrip_upper (s : string) : Py.lstrip (Py.upper s) = Py.upper (Py.lstrip s).
Proof.
  unfold Py.upper. induction s as [|c s IH]; [reflexivity|]. simpl.
  rewrite upper_char_space. destruct (Py.is_space c); [exact IH | reflexivity].
Qed.

Lemma strip_upper (s : string) : Py.strip (Py.upper s) = Py.upper (Py.strip s).
Proof.
  unfold Py.strip, Py.rstrip. rewrite lstrip_upper.
  unfold Py.upper at 1. rewrite str_map_rev. fold (Py.upper (Py.str_rev (Py.lstrip s))).
  rewrite lstrip_upper. unfold Py.upper at 1. now rewrite str_map_rev.
Qed.

Local Abbreviation not_comma := Env.not_comma.

Lemma contains_all (c : ascii) (s : string) :
  Py.contains c s = negb (Py.all_chars (fun d => negb (Ascii.eqb c d)) s).
Proof.
  induction s as [|d s IH]; [reflexivity|]. simpl. rewrite IH.
  now destruct (Ascii.eqb c d).
Qed.

Lemma all_chars_lstrip (p : ascii -> bool) (s : string) :
  Py.all_chars p s = true -> Py.all_chars p (Py.lstrip s) = true.
Proof.
  induction s as [|c s IH]; [reflexivity|]. simpl.
  rewrite andb_true_iff. intros [Hc Hs].
  destruct (Py.is_space c); [now apply IH|]. simpl. now rewrite Hc, Hs.
Qed.

Lemma all_chars_strip (p : ascii -> bool) (s : string) :
  Py.all_chars p s = true -> Py.all_chars p (Py.strip s) = true.
Proof.
  intros H. unfold Py.strip, Py.rstrip.
  rewrite all_chars_rev. apply all_chars_lstrip. rewrite all_chars_rev.
  now apply all_chars_lstrip.
Qed.

Lemma upper_char_comma (c : ascii) : not_comma (Py.upper_char c) = not_comma c.
Proof. destruct c as [[] [] [] [] [] [] [] []]; reflexivity. Qed.

Lemma all_chars_upper (s : string) :
  Py.all_chars not_comma (Py.upper s) = Py.all_chars not_comma s.
Proof.
  unfold Py.upper. induction s as [|c s IH]; [reflexivity|]. simpl.
  now rewrite upper_char_comma, IH.
Qed.

Lemma split_pieces (s : string) :
  Forall (fun p => Py.all_chars not_comma p = true) (Env.split "," s).
Proof.
  induction s as [|c s IH]; simpl; [repeat constructor|].
  destruct (Ascii.eqb_spec c ",") as [->|Hne]; [now constructor|].
  destruct (Env.split "," s) as [|h t].
  - repeat constructor. simpl. unfold Env.not_comma at 1.
    destruct (Ascii.eqb_spec "," c) as [E|_]; [now subst | reflexivity].
  - inversion IH as [|? ? Hh Ht]; subst. constructor; [|exact Ht].
    simpl. rewrite Hh. unfold Env.not_comma.
    destruct (Ascii.eqb_spec "," c) as [E|_]; [now subst | reflexivity].
Qed.

(** X21: Whatever the environment holds, every configured ticker is non-empty,
    has no comma and no white space at either end, and is in upper case,
    so that [fetch] stores it as configured. *)
Theorem tickers_are_clean (env : option string) (t : string) :
  In t (Env.TICKERS env) ->
  t <> ""
  /\ Py.contains "," t = false
  /\ Py.strip t = t
  /\ Py.upper t = t.
Proof.
  unfold Env.TICKERS. intros Hin.
  apply in_map_iff in Hin as [s [<- Hs]]. apply filter_In in Hs as [Hs Hne].
  apply negb_true_iff, String.eqb_neq in Hne.
  split; [|split; [|split]].
  - destruct (Py.strip s); [contradiction | discriminate].
  - rewrite contains_all. fold Env.not_comma. rewrite all_chars_upper, all_chars_strip;
      [reflexivity|].
    apply (proj1 (Forall_forall _ _) (split_pieces _) s Hs).
  - now rewrite strip_upper, strip_idem.
  - apply upper_idem.
Qed.

Lemma tickers_are_clean_witness :
  Env.TICKERS (Some " spy, ,qqq,") = ["SPY"; "QQQ"]
  /\ Py.strip "SPY" = "SPY" /\ Py.upper "SPY" = "SPY".
Proof.
  split; [reflexivity|].
  destruct (tickers_are_clean (Some " spy, ,qqq,") "SPY") as [_ [_ [Hs Hu]]].
  - simpl. tauto.
  - split; assumption.
Defined.

End Universe.

(** ** Periods with a sign *)

Section SignedPeriod.

Local Abbreviation su := DecimalString.NilEmpty.string_of_uint.

Lemma minus_numeral_clean (d : Decimal.uint) (u : string) :
  Py.all_chars Py.not_space u = true -> Py.all_chars Py.lower_fixed u = true ->
  Py.lower (Py.strip (or_else (Some (String "-" (su d ++ u))) "6mo"))
  = String "-" (su d ++ u).
Proof.
  intros Hns Hlf.
  change (or_else (Some (String "-" (su d ++ u))) "6mo") with (String "-" (su d ++ u)).
  rewrite strip_clean, lower_clean; [reflexivity | |];
    cbn [Py.all_chars]; rewrite all_chars_append, !andb_true_iff; repeat split;
    try assumption; try reflexivity.
  - apply (all_chars_impl Py.is_digit); [apply digit_lower_fixed | apply su_digits].
  - apply (all_chars_impl Py.is_digit); [apply digit_not_space | apply su_digits].
Qed.

Lemma int_minus_numeral (d : Decimal.uint) :
  d <> Decimal.Nil -> (String.length (su d) <= Py.int_max_str_digits)%nat ->
  Py.int (String "-" (su d)) = Ok (- Z.of_N (Pos.of_uint d)).
Proof.
  intros Hd Hlen. unfold Py.int.
  rewrite int_strip_clean.
  - cbv beta iota zeta.
    rewrite int_digits_zero by now left.
    rewrite count_digits_all by apply su_digits.
    destruct (Nat.ltb_spec Py.int_max_str_digits (String.length (su d))) as [H|_]; [lia|].
    reflexivity.
  - cbn [Py.all_chars]. rewrite andb_true_iff. split; [reflexivity|].
    apply (all_chars_impl Py.is_digit); [apply digit_not_space | apply su_digits].
Qed.

(** X22: The count of a period may be negative: the decimal text of a negative
    integer (at most 4300 digits) followed by "mo", "y" or "yr" is read as
    that negative number of months or years. *)
Theorem parse_period_negative (n : Z) :
  n < 0 ->
  (String.length (Py.str_of_int n) <= 4300)%nat ->
  parse_period (Some (Py.str_of_int n ++ "mo")) = Ok (n, Mo)
  /\ parse_period (Some (Py.str_of_int n ++ "y")) = Ok (n, Yr)
  /\ parse_period (Some (Py.str_of_int n ++ "yr")) = Ok (n, Yr).
Proof.
  intros Hn Hlen. destruct n as [|p|p]; try lia.
  assert (Hnn : Pos.to_uint p <> Decimal.Nil) by apply DecimalPos.Unsigned.to_uint_nonnil.
  assert (E : Py.str_of_int (Z.neg p) = String "-" (su (Pos.to_uint p))).
  { unfold Py.str_of_int. simpl. unfold DecimalString.NilZero.string_of_uint.
    now destruct (Pos.to_uint p). }
  rewrite E in *. cbn [String.length] in Hlen.
  assert (Hlen' : (String.length (su (Pos.to_uint p)) <= Py.int_max_str_digits)%nat)
    by (unfold Py.int_max_str_digits; lia).
  assert (Hv : - Z.of_N (Pos.of_uint (Pos.to_uint p)) = Z.neg p)
    by now rewrite DecimalPos.Unsigned.of_to.
  pose proof (int_minus_numeral _ Hnn Hlen') as Hint. rewrite Hv in Hint.
  unfold parse_period. cbn [append].
  rewrite !minus_numeral_clean by reflexivity.
  set (m := String "-" (su (Pos.to_uint p))) in *.
  assert (Hend : forall u, Py.endswith (String "-" (su (Pos.to_uint p) ++ u)) u = true)
    by (intros u; exact (endswith_append m u)).
  assert (Hd2 : forall u, String.length u = 2%nat ->
                          Py.drop_last 2 (String "-" (su (Pos.to_uint p) ++ u)) = m)
    by (intros u <-; exact (drop_last_append m u)).
  assert (Hd1 : Py.drop_last 1 (String "-" (su (Pos.to_uint p) ++ "y")) = m)
    by exact (drop_last_append m "y").
  assert (Hnot : Py.endswith (m ++ "y") "mo" = false
                 /\ Py.endswith (m ++ "y") "yr" = false
                 /\ Py.endswith (m ++ "yr") "mo" = false)
    by (unfold Py.endswith; rewrite !str_rev_append; repeat split; reflexivity).
  destruct Hnot as [Hy1 [Hy2 Hyr]].
  change (m ++ "y") with (String "-" (su (Pos.to_uint p) ++ "y")) in Hy1, Hy2.
  change (m ++ "yr") with (String "-" (su (Pos.to_uint p) ++ "yr")) in Hyr.
  split; [|split].
  - rewrite (Hend "mo"), (Hd2 "mo" eq_refl), Hint. reflexivity.
  - rewrite Hy1, Hy2, (Hend "y"). cbn [orb].
    rewrite Hd1, Hint. reflexivity.
  - rewrite Hyr, (Hend "yr"). cbn [orb].
    rewrite (Hd2 "yr" eq_refl), Hint. reflexivity.
Qed.

Lemma parse_period_negative_witness :
  parse_period (Some "-3mo") = Ok (-3, Mo) /\ parse_period (Some "-1y") = Ok (-1, Yr).
Proof.
  destruct (parse_period_negative (-3) ltac:(lia) ltac:(vm_compute; lia)) as [H1 _].
  destruct (parse_period_negative (-1) ltac:(lia) ltac:(vm_compute; lia)) as [_ [H2 _]].
  split; [exact H1 | exact H2].
Defined.

End SignedPeriod.
